(** * PetMatch (app.py): a shallow embedding and its checked properties

    The program is one Streamlit script.  Its data are JSON documents
    handled as loosely typed Python objects, its state lives in
    [st.session_state], and every interesting function may raise.  The
    embedding keeps these three aspects explicit:

    - [value] is the JSON fragment of Python objects, with the Python
      operations the script applies to them ([py_getitem], [py_in],
      [py_truthy], ...), each returning what Python returns or raising
      what Python raises;
    - [R] is the monad of rendering code (output events and exceptions),
      [M] the monad of code that also reads the host (clock, environment,
      HTTP, widgets) and updates the session;
    - every function of app.py that the properties below talk about is a
      definition of the same name, cut into blocks that quote the source
      lines they embed. *)

From Stdlib Require Import ZArith List String Ascii Bool Lia.
Import ListNotations.
Local Open Scope string_scope.
Local Open Scope Z_scope.
Local Open Scope list_scope.
Set Warnings "-register-all".

(** ** Python objects *)

Module Py.

(** JSON documents as Python sees them after [response.json()].  Numbers
    are integers (no JSON float occurs in the fields the script reads);
    a [dict] keeps its insertion order and, coming from a JSON parser,
    has no key twice.  One [ascii] stands for one character of a Python
    [str]. *)
Inductive value : Type :=
| VNone
| VBool (b : bool)
| VInt (z : Z)
| VStr (s : string)
| VList (l : list value)
| VDict (d : list (string * value)).

Definition dict := list (string * value).

(** Exceptions the script can meet.  [RequestException] stands for the
    whole [requests.exceptions.RequestException] family (connection
    errors, [HTTPError] from [raise_for_status], undecodable bodies) and
    carries [str(e)]; [RerunException] is the control signal thrown by
    [st.rerun()]. *)
Inductive exn : Type :=
| KeyError
| TypeError
| AttributeError
| IndexError
| StreamlitAPIException
| RequestException (msg : string)
| RerunException.

Inductive res (A : Type) : Type :=
| Ok (a : A)
| Raise (e : exn).
Arguments Ok {A} a.
Arguments Raise {A} e.

(** [st.rerun()] ends the run without being a failure. *)
Definition is_error {A} (r : res A) : bool :=
  match r with
  | Ok _ => false
  | Raise RerunException => false
  | Raise _ => true
  end.

(** Sequencing of code that may raise. *)
Definition bind_res {A B} (c : res A) (k : A -> res B) : res B :=
  match c with
  | Ok a => k a
  | Raise e => Raise e
  end.

Declare Scope res_scope.
Delimit Scope res_scope with res.
Bind Scope res_scope with res.
Notation "x <- c ;; k" := (bind_res c (fun x => k%res))
  (at level 61, c at next level, right associativity) : res_scope.

(** *** Truth value, [len], [is not None] *)

Definition py_truthy (v : value) : bool :=
  match v with
  | VNone => false
  | VBool b => b
  | VInt z => negb (z =? 0)
  | VStr s => negb (String.eqb s "")
  | VList l => match l with [] => false | _ => true end
  | VDict d => match d with [] => false | _ => true end
  end.

Definition is_not_none (v : value) : bool :=
  match v with VNone => false | _ => true end.

Definition py_len (v : value) : res Z :=
  match v with
  | VStr s => Ok (Z.of_nat (String.length s))
  | VList l => Ok (Z.of_nat (List.length l))
  | VDict d => Ok (Z.of_nat (List.length d))
  | _ => Raise TypeError
  end.

(** [a or b] and [a and b] on already evaluated operands are only used
    where the second operand cannot raise; elsewhere the short circuit is
    written out with [if]. *)
Definition py_or (a b : value) : value := if py_truthy a then a else b.

(** *** Dictionaries *)

Fixpoint dict_get (k : string) (d : dict) : option value :=
  match d with
  | [] => None
  | (k', v) :: r => if String.eqb k' k then Some v else dict_get k r
  end.

(** [d[k] = v]: overwrite in place, or append a new key. *)
Fixpoint dict_set (k : string) (v : value) (d : dict) : dict :=
  match d with
  | [] => [(k, v)]
  | (k', v') :: r =>
      if String.eqb k' k then (k, v) :: r else (k', v') :: dict_set k v r
  end.

Definition dict_has (k : string) (d : dict) : bool :=
  match dict_get k d with Some _ => true | None => false end.

Definition dict_keys (d : dict) : list string := map fst d.

(** *** Equality [==] *)

Definition bool_int (b : bool) : Z := if b then 1 else 0.

Fixpoint py_eq (a b : value) {struct a} : bool :=
  match a, b with
  | VNone, VNone => true
  | VBool x, VBool y => Bool.eqb x y
  | VBool x, VInt z => bool_int x =? z
  | VInt z, VBool x => z =? bool_int x
  | VInt x, VInt y => x =? y
  | VStr x, VStr y => String.eqb x y
  | VList l, VList l' =>
      (fix go (l l' : list value) {struct l} : bool :=
         match l, l' with
         | [], [] => true
         | x :: xs, y :: ys => py_eq x y && go xs ys
         | _, _ => false
         end) l l'
  | VDict d, VDict d' =>
      (List.length d =? List.length d')%nat &&
      (fix go (d : dict) {struct d} : bool :=
         match d with
         | [] => true
         | (k, v) :: r =>
             match dict_get k d' with
             | Some v' => py_eq v v'
             | None => false
             end && go r
         end) d
  | _, _ => false
  end.

(** [x in xs] for a Python list [xs]. *)
Definition py_list_contains (x : value) (xs : list value) : bool :=
  existsb (fun y => py_eq y x) xs.

(** *** Subscripts, membership, slices *)

(** [v[k]] with a string key. *)
Definition py_getitem (v : value) (k : string) : res value :=
  match v with
  | VDict d => match dict_get k d with Some x => Ok x | None => Raise KeyError end
  | _ => Raise TypeError
  end.

(** [v[i]] with a non-negative integer literal. *)
Definition py_index (v : value) (i : nat) : res value :=
  match v with
  | VList l => match nth_error l i with Some x => Ok x | None => Raise IndexError end
  | VStr s => match String.get i s with
              | Some c => Ok (VStr (String c EmptyString))
              | None => Raise IndexError
              end
  | VDict _ => Raise KeyError
  | _ => Raise TypeError
  end.

Definition is_substring (k s : string) : bool :=
  match String.index 0 k s with Some _ => true | None => false end.

(** [k in v] with a string literal [k]. *)
Definition py_in (k : string) (v : value) : res bool :=
  match v with
  | VDict d => Ok (dict_has k d)
  | VList l => Ok (py_list_contains (VStr k) l)
  | VStr s => Ok (is_substring k s)
  | _ => Raise TypeError
  end.

(** [v[:n]].  A dict refuses a slice ([TypeError] up to Python 3.11, a
    [KeyError] since slices became hashable; the embedding takes the
    former). *)
Definition py_prefix (n : nat) (v : value) : res value :=
  match v with
  | VStr s => Ok (VStr (String.substring 0 n s))
  | VList l => Ok (VList (firstn n l))
  | _ => Raise TypeError
  end.

(** Python's normalisation of a slice bound [i] for a sequence of length
    [len]. *)
Definition slice_bound (len i : Z) : Z :=
  if i <? 0 then Z.max (i + len) 0 else Z.min i len.

(** [l[a:b]] for a list. *)
Definition py_slice_list {A} (a b : Z) (l : list A) : list A :=
  let len := Z.of_nat (List.length l) in
  let lo := slice_bound len a in
  let hi := slice_bound len b in
  firstn (Z.to_nat (hi - lo)) (skipn (Z.to_nat lo) l).

Fixpoint chars (s : string) : list value :=
  match s with
  | EmptyString => []
  | String c r => VStr (String c EmptyString) :: chars r
  end.

(** [v[a:b]] followed by iteration ([for x in v[a:b]]). *)
Definition py_slice_iter (a b : Z) (v : value) : res (list value) :=
  match v with
  | VList l => Ok (py_slice_list a b l)
  | VStr s => Ok (py_slice_list a b (chars s))
  | _ => Raise TypeError
  end.

(** [s.split(sep)] for a one-character separator. *)
Fixpoint py_split (sep : ascii) (s : string) : list string :=
  match s with
  | EmptyString => [EmptyString]
  | String c r =>
      if Ascii.eqb c sep then EmptyString :: py_split sep r
      else match py_split sep r with
           | w :: ws => String c w :: ws
           | [] => [String c EmptyString]
           end
  end.

(** *** Formatted text

    An f-string is kept as its pieces: literal text and the interpolated
    objects, whose [str()] the embedding does not compute. *)
Inductive piece : Type :=
| Lit (s : string)
| Fmt (v : value)
| Titled (s : string)
| FmtExtended (l : list value) (t : list piece).

Definition text := list piece.

(** The object bound to a name that starts as a JSON value and is then
    extended with [+=]: a value, a [str] under construction, or a list
    that [+=] extended with the characters of a text. *)
Inductive accum : Type :=
| AVal (v : value)
| AText (t : text)
| AChars (l : list value) (t : text).

(** [x += t] where [t] is a [str]. *)
Definition py_iadd (x : accum) (t : text) : res accum :=
  match x with
  | AVal (VStr s) => Ok (AText (Lit s :: t))
  | AVal (VList l) => Ok (AChars l t)
  | AVal _ => Raise TypeError
  | AText t0 => Ok (AText (t0 ++ t))
  | AChars l t0 => Ok (AChars l (t0 ++ t))
  end.

Definition fmt_accum (x : accum) : text :=
  match x with
  | AVal v => [Fmt v]
  | AText t => t
  | AChars l t => [FmtExtended l t]
  end.

(** [v.title()]: only a [str] has the method. *)
Definition py_title (v : value) : res piece :=
  match v with
  | VStr s => Ok (Titled s)
  | _ => Raise AttributeError
  end.

(** [sep.join(xs)]: every item must be a [str]. *)
Fixpoint strings_of (xs : list value) : res (list string) :=
  match xs with
  | [] => Ok []
  | VStr s :: r => (ss <- strings_of r ;; Ok (s :: ss))%res
  | _ :: _ => Raise TypeError
  end.

Definition py_join (sep : string) (xs : list value) : res string :=
  (ss <- strings_of xs ;; Ok (String.concat sep ss))%res.

End Py.

(** ** The Streamlit host: session state, output, widgets, network *)

Module Host.
Import Py.

(** What a run shows, in emission order.  Layout containers
    ([st.columns], [st.tabs], [st.expander], [with col:]) place the
    output and never fail; they leave no event. *)
Inductive ui_event : Type :=
| Markdown (t : text)
| Image (src : value)
| StError (t : text)
| StSuccess (t : text)
| StInfo (t : text)
| Button (label : string) (key : text).

Inductive request : Type :=
| POST (url : string) (data : dict)
| GET (url : text) (headers : list (string * text)) (params : value).

(** The values of the search form's widgets in the current run. *)
Record form_input : Type := mkForm
  { animal_type : string;
    location : string;
    distance : Z;
    age : string;
    size : string;
    gender : string;
    good_with_children : bool;
    good_with_dogs : bool;
    good_with_cats : bool;
    house_trained : bool;
    special_needs : bool;
    submitted : bool }.

(** Everything a run reads from outside: the process environment and the
    secrets file, the successive readings of [time.time()] (one integer
    per reading; the float arithmetic of Python is not modelled), the
    upstream API ([inl msg]: [requests] raised a [RequestException];
    [inr body]: status 2xx with this JSON body; the first argument counts
    the requests already sent), and the user's widgets. *)
Record host : Type := mkHost
  { environ : string -> option string;
    secrets : string -> value;
    clock : nat -> Z;
    http : nat -> request -> string + value;
    clicked : string -> text -> bool;
    form : form_input;
    page_slider : Z -> Z -> Z -> Z }.

(** [st.session_state] (app.py 60-72). *)
Record session : Type := mkSession
  { access_token : value;
    token_expires : Z;
    search_results : value;
    selected_pet : value;
    page : Z;
    favorites : list value }.

Definition initial_session : session :=
  {| access_token := VNone; token_expires := 0; search_results := VNone;
     selected_pet := VNone; page := 1; favorites := [] |}.

Definition set_access_token (v : value) (s : session) : session :=
  {| access_token := v; token_expires := token_expires s;
     search_results := search_results s; selected_pet := selected_pet s;
     page := page s; favorites := favorites s |}.

Definition set_token_expires (z : Z) (s : session) : session :=
  {| access_token := access_token s; token_expires := z;
     search_results := search_results s; selected_pet := selected_pet s;
     page := page s; favorites := favorites s |}.

Definition set_search_results (v : value) (s : session) : session :=
  {| access_token := access_token s; token_expires := token_expires s;
     search_results := v; selected_pet := selected_pet s;
     page := page s; favorites := favorites s |}.

Definition set_selected_pet (v : value) (s : session) : session :=
  {| access_token := access_token s; token_expires := token_expires s;
     search_results := search_results s; selected_pet := v;
     page := page s; favorites := favorites s |}.

Definition set_page (z : Z) (s : session) : session :=
  {| access_token := access_token s; token_expires := token_expires s;
     search_results := search_results s; selected_pet := selected_pet s;
     page := z; favorites := favorites s |}.

Definition set_favorites (l : list value) (s : session) : session :=
  {| access_token := access_token s; token_expires := token_expires s;
     search_results := search_results s; selected_pet := selected_pet s;
     page := page s; favorites := l |}.

(** The mutable part of a run: the session, the number of clock
    readings taken, the requests sent and the output, oldest first. *)
Record state : Type := mkState
  { sess : session;
    ticks : nat;
    sent : list request;
    out : list ui_event }.

Definition with_sess (f : session -> session) (s : state) : state :=
  {| sess := f (sess s); ticks := ticks s; sent := sent s; out := out s |}.

Definition with_out (o : list ui_event) (s : state) : state :=
  {| sess := sess s; ticks := ticks s; sent := sent s; out := out s ++ o |}.

(** *** Rendering code: output and exceptions, nothing else *)

Definition R (A : Type) : Type := (res A * list ui_event)%type.

Definition ret_R {A} (a : A) : R A := (Ok a, []).

Definition bind_R {A B} (c : R A) (k : A -> R B) : R B :=
  match c with
  | (Ok a, o) => let (r, o') := k a in (r, o ++ o')
  | (Raise e, o) => (Raise e, o)
  end.

Declare Scope R_scope.
Delimit Scope R_scope with R.
Bind Scope R_scope with R.
Notation "x <- c ;; k" := (bind_R c (fun x => k%R))
  (at level 61, c at next level, right associativity) : R_scope.
Notation "c ;; k" := (bind_R c (fun _ => k%R))
  (at level 61, right associativity) : R_scope.

(** Evaluating a Python expression that may raise; showing something. *)
Definition eval_R {A} (r : res A) : R A := (r, []).
Definition emit (e : ui_event) : R unit := (Ok tt, [e]).

Definition st_markdown (t : text) : R unit := emit (Markdown t).
Definition st_image (src : value) : R unit := emit (Image src).
Definition st_error (t : text) : R unit := emit (StError t).
Definition st_success (t : text) : R unit := emit (StSuccess t).
Definition st_info (t : text) : R unit := emit (StInfo t).

(** [for x in xs: body] *)
Fixpoint for_each_R {A} (xs : list A) (body : A -> R unit) : R unit :=
  match xs with
  | [] => ret_R tt
  | x :: r => (body x ;; for_each_R r body)%R
  end.

(** *** Code that reads the host and updates the state *)

Definition M (A : Type) : Type := host -> state -> res A * state.

Definition ret {A} (a : A) : M A := fun _ s => (Ok a, s).

Definition bind {A B} (c : M A) (k : A -> M B) : M B :=
  fun h s =>
    match c h s with
    | (Ok a, s') => k a h s'
    | (Raise e, s') => (Raise e, s')
    end.

Declare Scope M_scope.
Delimit Scope M_scope with M.
Bind Scope M_scope with M.
Notation "x <- c ;; k" := (bind c (fun x => k%M))
  (at level 61, c at next level, right associativity) : M_scope.
Notation "c ;; k" := (bind c (fun _ => k%M))
  (at level 61, right associativity) : M_scope.

Definition run {A} (c : M A) (h : host) (s : state) : res A * state := c h s.

Definition eval {A} (r : res A) : M A := fun _ s => (r, s).

(** Running a rendering block inside [M]. *)
Definition render {A} (c : R A) : M A :=
  fun _ s => (fst c, with_out (snd c) s).

Definition raise {A} (e : exn) : M A := fun _ s => (Raise e, s).

(** [st.button(label, key=key)]: shows the button, tells whether it was
    the one pressed. *)
Definition st_button (label : string) (key : text) : M bool :=
  fun h s => (Ok (clicked h label key), with_out [Button label key] s).

Definition st_rerun {A} : M A := raise RerunException.

(** [st.slider(label, lo, hi, value)]: Streamlit refuses a default
    outside the range. *)
Definition st_slider (lo hi v : Z) : M Z :=
  fun h s =>
    if (v <? lo) || (hi <? v) then (Raise StreamlitAPIException, s)
    else (Ok (page_slider h lo hi v), s).

Definition get_session : M session := fun _ s => (Ok (sess s), s).

Definition modify_session (f : session -> session) : M unit :=
  fun _ s => (Ok tt, with_sess f s).

Definition get_form : M form_input := fun h s => (Ok (form h), s).

(** [time.time()] *)
Definition time_time : M Z :=
  fun h s => (Ok (clock h (ticks s)),
              {| sess := sess s; ticks := S (ticks s); sent := sent s; out := out s |}).

(** [os.environ.get(k)] and [st.secrets.get(k)] *)
Definition os_environ_get (k : string) : M value :=
  fun h s => (Ok (match environ h k with Some x => VStr x | None => VNone end), s).

Definition st_secrets_get (k : string) : M value :=
  fun h s => (Ok (secrets h k), s).

(** One HTTP exchange: the request goes out, then [raise_for_status()]
    and [json()] either raise a [RequestException] or give the body. *)
Definition http_exchange (req : request) : M value :=
  fun h s =>
    let s' := {| sess := sess s; ticks := ticks s;
                 sent := sent s ++ [req]; out := out s |} in
    match http h (List.length (sent s)) req with
    | inl msg => (Raise (RequestException msg), s')
    | inr body => (Ok body, s')
    end.

(** [try: c  except requests.exceptions.RequestException as e: handler] *)
Definition except_request {A} (c : M A) (handler : string -> M A) : M A :=
  fun h s =>
    match c h s with
    | (Raise (RequestException msg), s') => handler msg h s'
    | other => other
    end.

(** [for x in xs: body] *)
Fixpoint for_each {A} (xs : list A) (body : A -> M unit) : M unit :=
  match xs with
  | [] => ret tt
  | x :: r => (body x ;; for_each r body)%M
  end.

(** [v[k1][k2]...], evaluated left to right. *)
Fixpoint py_path (v : value) (ks : list string) : res value :=
  match ks with
  | [] => Ok v
  | k :: r => (x <- py_getitem v k ;; py_path x r)%res
  end.

End Host.

(** ** app.py *)

Module App.
Import Py Host.

(** Conventions.  An f-string is the list of its pieces.  A subscript
    chain that the source evaluates again on the same, unchanged record
    is evaluated once and its value reused: subscripts have no effect and
    give the same result each time.  Boolean [and]/[or] keep their short
    circuit through [and_then]/[or_else]. *)

Definition truthy_of (c : res value) : res bool :=
  v <- c ;; Ok (py_truthy v).

Definition and_then (a b : res bool) : res bool :=
  x <- a ;; if x then b else Ok false.

Definition or_else (a b : res bool) : res bool :=
  x <- a ;; if x then Ok true else b.

(** *** Credential manager (app.py 75-105) *)

Definition token_url : string := "https://api.petfinder.com/v2/oauth2/token".

(** [time.time() + token_data['expires_in']]: the right operand must be
    a number ([bool] counts as one). *)
Definition py_add_number (now : Z) (v : value) : res Z :=
  match v with
  | VInt e => Ok (now + e)
  | VBool b => Ok (now + bool_int b)
  | _ => Raise TypeError
  end.

(** [os.environ.get(k) or st.secrets.get(k)] *)
Definition credential (k : string) : M value :=
  e <- os_environ_get k ;;
  if py_truthy e then ret e else st_secrets_get k.

Definition token_request (api_key api_secret : value) : request :=
  POST token_url [("grant_type", VStr "client_credentials");
                  ("client_id", api_key);
                  ("client_secret", api_secret)].

(** 80-105: what [get_access_token] does once the cached token is
    unusable. *)
Definition refresh_token : M value :=
  (* 81-82 *)
  api_key <- credential "PETFINDER_API_KEY" ;;
  api_secret <- credential "PETFINDER_API_SECRET" ;;
  (* 84-86 *)
  if negb (py_truthy api_key) || negb (py_truthy api_secret) then
    render (st_error [Lit "⚠️ Petfinder API credentials are missing. Please set them in your environment variables or Streamlit secrets."]) ;;
    ret VNone
  else
    (* 89-105 *)
    except_request
      (token_data <- http_exchange (token_request api_key api_secret) ;;
       tok <- eval (py_getitem token_data "access_token") ;;
       modify_session (set_access_token tok) ;;
       now <- time_time ;;
       expires_in <- eval (py_getitem token_data "expires_in") ;;
       total <- eval (py_add_number now expires_in) ;;
       modify_session (set_token_expires (total - 60)) ;;
       s3 <- get_session ;; ret (access_token s3))
      (fun msg =>
         render (st_error [Lit "⚠️ Error getting access token: "; Lit msg]) ;;
         ret VNone).

Definition get_access_token : M value :=
  (* 77: if st.session_state.access_token and time.time() < ...token_expires *)
  s <- get_session ;;
  valid <- (if py_truthy (access_token s)
            then now <- time_time ;;
                 s1 <- get_session ;;
                 ret (now <? token_expires s1)
            else ret false) ;;
  if (valid : bool) then
    (* 78 *)
    s2 <- get_session ;; ret (access_token s2)
  else refresh_token.

(** *** Directory client (app.py 108-122, 162-176) *)

Definition bearer (token : value) : list (string * text) :=
  [("Authorization", [Lit "Bearer "; Fmt token])].

Definition search_pets (params : value) : M value :=
  token <- get_access_token ;;
  if negb (py_truthy token) then ret VNone
  else
    except_request
      (http_exchange (GET [Lit "https://api.petfinder.com/v2/animals"]
                          (bearer token) params))
      (fun msg =>
         render (st_error [Lit "⚠️ Error searching pets: "; Lit msg]) ;;
         ret VNone).

Definition get_pet_details (pet_id : value) : M value :=
  token <- get_access_token ;;
  if negb (py_truthy token) then ret VNone
  else
    except_request
      (body <- http_exchange
           (GET [Lit "https://api.petfinder.com/v2/animals/"; Fmt pet_id]
                (bearer token) VNone) ;;
       eval (py_getitem body "animal"))
      (fun msg =>
         render (st_error [Lit "⚠️ Error getting pet details: "; Lit msg]) ;;
         ret VNone).

(** *** Compatibility messages (app.py 247-287) *)

(** One of the three blocks 251-255, 258-262, 265-269. *)
Definition environment_message (pet : value) (flag yes no : string)
    (messages : list string) : res (list string) :=
  env <- py_getitem pet "environment" ;;
  known <- and_then (py_in flag env)
                    (v <- py_getitem env flag ;; Ok (is_not_none v)) ;;
  if known then
    v <- py_getitem env flag ;;
    if py_truthy v then Ok (messages ++ [yes]) else Ok (messages ++ [no])
  else Ok messages.

(** ['k' in pet['attributes'] and pet['attributes']['k']] *)
Definition attribute_set (attrs : value) (k : string) : res bool :=
  and_then (py_in k attrs) (truthy_of (py_getitem attrs k)).

Definition get_compatibility_message (pet : value) : res (list string) :=
  let messages := [] in
  messages <- environment_message pet "children"
      "✅ Good with children"
      "❌ Not recommended for homes with children" messages ;;
  messages <- environment_message pet "dogs"
      "✅ Good with dogs"
      "❌ Not recommended for homes with dogs" messages ;;
  messages <- environment_message pet "cats"
      "✅ Good with cats"
      "❌ Not recommended for homes with cats" messages ;;
  (* 272 *)
  attrs <- py_getitem pet "attributes" ;;
  if py_truthy attrs then
    (* 273-274 *)
    special <- attribute_set attrs "special_needs" ;;
    let messages := if (special : bool) then messages ++ ["⚠️ Has special needs"] else messages in
    (* 276-279 *)
    trained <- attribute_set attrs "house_trained" ;;
    messages <- (if (trained : bool) then Ok (messages ++ ["✅ House-trained"])
                 else
                   listed <- py_in "house_trained" attrs ;;
                   if listed then Ok (messages ++ ["❌ Not house-trained"])
                   else Ok messages) ;;
    (* 281-282 *)
    shots <- attribute_set attrs "shots_current" ;;
    let messages := if (shots : bool) then messages ++ ["✅ Vaccinations up to date"] else messages in
    (* 284-285 *)
    spayed <- attribute_set attrs "spayed_neutered" ;;
    let messages := if (spayed : bool) then messages ++ ["✅ Spayed/neutered"] else messages in
    Ok messages
  else Ok messages.

(** *** Blocks shared by the card and the detail view *)

(** [if pet['photos'] and len(pet['photos']) > 0] (183, 311, 401) *)
Definition has_photos (pet : value) : res bool :=
  and_then (truthy_of (py_getitem pet "photos"))
           (photos <- py_getitem pet "photos" ;;
            n <- py_len photos ;;
            Ok (0 <? n)).

(** [breed_text += f" & {secondary}"] then [breed_text += " (Mixed)"]
    (210-213, 326-329, 428-431), from the first value of [breed_text]. *)
Definition breed_suffixes (pet : value) (breed_text : accum) : res accum :=
  secondary <- py_path pet ["breeds"; "secondary"] ;;
  breed_text <- (if py_truthy secondary
                 then py_iadd breed_text [Lit " & "; Fmt secondary]
                 else Ok breed_text) ;;
  mixed <- py_path pet ["breeds"; "mixed"] ;;
  if py_truthy mixed then py_iadd breed_text [Lit " (Mixed)"]
  else Ok breed_text.

(** [[c for c in [primary, secondary, tertiary] if c]] (217, 340, 435) *)
Definition listed_colors (pet : value) : res (list value) :=
  c1 <- py_path pet ["colors"; "primary"] ;;
  c2 <- py_path pet ["colors"; "secondary"] ;;
  c3 <- py_path pet ["colors"; "tertiary"] ;;
  Ok (filter py_truthy [c1; c2; c3]).

(** [f"<div class='pet-description'>{d[:n]}{'...' if len(d) > n else ''}</div>"]
    (358 with n = 500, 444 with n = 300) *)
Definition description_html (budget : nat) (pet : value) : res text :=
  d <- py_getitem pet "description" ;;
  shown <- py_prefix budget d ;;
  n <- py_len d ;;
  Ok [Lit "<div class='pet-description'>"; Fmt shown;
      Lit (if Z.of_nat budget <? n then "..." else ""); Lit "</div>"].

(** [[p['id'] for p in st.session_state.favorites]] *)
Fixpoint favorite_ids (favs : list value) : res (list value) :=
  match favs with
  | [] => Ok []
  | p :: r => (i <- py_getitem p "id" ;; ids <- favorite_ids r ;; Ok (i :: ids))%res
  end.

(** [[p for p in st.session_state.favorites if p['id'] != pet['id']]] *)
Fixpoint without_id (pet : value) (favs : list value) : res (list value) :=
  match favs with
  | [] => Ok []
  | p :: r =>
      (i <- py_getitem p "id" ;;
       j <- py_getitem pet "id" ;;
       r' <- without_id pet r ;;
       Ok (if negb (py_eq i j) then p :: r' else r'))%res
  end.

(** 460-462 and 392-394 *)
Definition remove_from_favorites (pet : value) : M unit :=
  s <- get_session ;;
  kept <- eval (without_id pet (favorites s)) ;;
  modify_session (set_favorites kept) ;;
  name <- eval (py_getitem pet "name") ;;
  render (st_success [Lit "Removed "; Fmt name; Lit " from favorites!"]) ;;
  st_rerun.

(** 455-457 and 387-389 *)
Definition append_to_favorites (pet : value) : M unit :=
  modify_session (fun s => set_favorites (favorites s ++ [pet]) s) ;;
  name <- eval (py_getitem pet "name") ;;
  render (st_success [Lit "Added "; Fmt name; Lit " to favorites!"]) ;;
  st_rerun.

(** *** The pet card (app.py 397-462)

    app.py defines [display_pet_card] twice (179 and 397); the second
    definition replaces the first when the module is loaded, so every
    call reaches the one embedded here. *)

(** 400-404 *)
Definition card_photo (pet : value) : R unit :=
  shown <- eval_R (has_photos pet) ;;
  if shown then
    src <- eval_R (photos <- py_getitem pet "photos" ;;
                   first <- py_index photos 0 ;;
                   py_getitem first "medium") ;;
    st_image src
  else st_image (VStr "https://via.placeholder.com/300x300?text=No+Image").

(** 410-421 *)
Definition card_tags_html (pet : value) : res text :=
  status <- py_getitem pet "status" ;;
  tags_html <- (if py_eq status (VStr "adoptable")
                then Ok [Lit "<span class='tag' style='background-color: #808080;'>Adoptable</span> "]
                else
                  titled <- py_title status ;;
                  Ok [Lit "<span class='tag' style='background-color: #808080;'>";
                      titled; Lit "</span> "]) ;;
  age <- py_getitem pet "age" ;;
  let tags_html := if py_truthy age
                   then tags_html ++ [Lit "<span class='tag'>"; Fmt age; Lit "</span> "]
                   else tags_html in
  gender <- py_getitem pet "gender" ;;
  let tags_html := if py_truthy gender
                   then tags_html ++ [Lit "<span class='tag'>"; Fmt gender; Lit "</span> "]
                   else tags_html in
  size <- py_getitem pet "size" ;;
  let tags_html := if py_truthy size
                   then tags_html ++ [Lit "<span class='tag'>"; Fmt size; Lit "</span> "]
                   else tags_html in
  Ok tags_html.

(** 426-432 *)
Definition card_breed (pet : value) : R unit :=
  primary <- eval_R (py_path pet ["breeds"; "primary"]) ;;
  if py_truthy primary then
    breed_text <- eval_R (breed_suffixes pet (AVal primary)) ;;
    st_markdown (Lit "<strong>Breed:</strong> " :: fmt_accum breed_text)
  else ret_R tt.

(** 434-436 *)
Definition card_colors (pet : value) : R unit :=
  coloured <- eval_R
    (or_else (truthy_of (py_path pet ["colors"; "primary"]))
       (or_else (truthy_of (py_path pet ["colors"; "secondary"]))
                (truthy_of (py_path pet ["colors"; "tertiary"])))) ;;
  if coloured then
    joined <- eval_R (colors <- listed_colors pet ;; py_join ", " colors) ;;
    st_markdown [Lit "<strong>Colors:</strong> "; Lit joined]
  else ret_R tt.

(** 438-439 *)
Definition card_location (pet : value) : R unit :=
  located <- eval_R
    (and_then (py_in "location" pet)
       (and_then (truthy_of (py_path pet ["contact"; "address"; "city"]))
                 (truthy_of (py_path pet ["contact"; "address"; "state"])))) ;;
  if located then
    city <- eval_R (py_path pet ["contact"; "address"; "city"]) ;;
    state <- eval_R (py_path pet ["contact"; "address"; "state"]) ;;
    st_markdown [Lit "<strong>Location:</strong> "; Fmt city; Lit ", "; Fmt state]
  else ret_R tt.

(** 443-444 *)
Definition card_description (pet : value) : R unit :=
  d <- eval_R (py_getitem pet "description") ;;
  if py_truthy d then
    html <- eval_R (description_html 300 pet) ;;
    st_markdown html
  else ret_R tt.

(** 398-444: everything the card shows before its buttons. *)
Definition card_body (pet : value) : R unit :=
  card_photo pet ;;
  name <- eval_R (py_getitem pet "name") ;;
  st_markdown [Lit "<div class='pet-name'>"; Fmt name; Lit "</div>"] ;;
  tags_html <- eval_R (card_tags_html pet) ;;
  st_markdown ([Lit "<div>"] ++ tags_html ++ [Lit "</div>"]) ;;
  st_markdown [Lit "<div class='pet-details'>"] ;;
  card_breed pet ;;
  card_colors pet ;;
  card_location pet ;;
  st_markdown [Lit "</div>"] ;;
  card_description pet.

Definition widget_key (prefix tab_id context : string) (id : value) : text :=
  [Lit prefix; Lit tab_id; Lit "_"; Lit context; Lit "_"; Fmt id].

(** 446-462 *)
Definition card_buttons (pet : value) (is_favorite : bool)
    (context tab_id : string) : M unit :=
  (* 448-450 *)
  pid <- eval (py_getitem pet "id") ;;
  view <- st_button "View Details" (widget_key "details_" tab_id context pid) ;;
  (if (view : bool) then
     modify_session (set_selected_pet pid) ;; st_rerun
   else ret tt) ;;
  if negb is_favorite then
    (* 453-457 *)
    add <- st_button "Add to Favorites" (widget_key "fav_" tab_id context pid) ;;
    if (add : bool) then
      s <- get_session ;;
      ids <- eval (favorite_ids (favorites s)) ;;
      if negb (py_list_contains pid ids) then append_to_favorites pet
      else ret tt
    else ret tt
  else
    (* 459-462 *)
    remove <- st_button "Remove from Favorites" (widget_key "unfav_" tab_id context pid) ;;
    if (remove : bool) then remove_from_favorites pet else ret tt.

Definition display_pet_card (pet : value) (is_favorite : bool)
    (context tab_id : string) : M unit :=
  render (card_body pet) ;;
  card_buttons pet is_favorite context tab_id.

(** *** The detail view (app.py 293-394) *)

(** 305-308 *)
Definition details_header (pet : value) : R unit :=
  name <- eval_R (py_getitem pet "name") ;;
  st_markdown [Lit "<h1 class='main-header'>"; Fmt name; Lit "</h1>"] ;;
  status <- eval_R (py_getitem pet "status") ;;
  let status_color := if py_eq status (VStr "adoptable") then "#c8e6c9" else "#ffcdd2" in
  titled <- eval_R (py_title status) ;;
  st_markdown [Lit "<div style='text-align: center;'><span class='tag' style='background-color: ";
               Lit status_color; Lit "; font-size: 1rem;'>"; titled;
               Lit "</span></div>"].

(** 311-317 *)
Definition details_photos (pet : value) : R unit :=
  shown <- eval_R (has_photos pet) ;;
  if shown then
    n <- eval_R (photos <- py_getitem pet "photos" ;; py_len photos) ;;
    for_each_R (seq 0 (Z.to_nat (Z.min 3 n)))
      (fun i =>
         if Z.of_nat i <? n then
           src <- eval_R (photos <- py_getitem pet "photos" ;;
                          photo <- py_index photos i ;;
                          py_getitem photo "large") ;;
           st_image src
         else ret_R tt)
  else st_image (VStr "https://via.placeholder.com/500x300?text=No+Image").

(** 325-342: the list [details], built before any of it is shown. *)
Definition details_lines (pet : value) : res (list text) :=
  (* 325: breed_text = pet['breeds']['primary'], with no test *)
  primary <- py_path pet ["breeds"; "primary"] ;;
  breed_text <- breed_suffixes pet (AVal primary) ;;
  type <- py_getitem pet "type" ;;
  age <- py_getitem pet "age" ;;
  gender <- py_getitem pet "gender" ;;
  size <- py_getitem pet "size" ;;
  let details := [ [Lit "**Type:** "; Fmt type];
                   Lit "**Breed:** " :: fmt_accum breed_text;
                   [Lit "**Age:** "; Fmt age];
                   [Lit "**Gender:** "; Fmt gender];
                   [Lit "**Size:** "; Fmt size] ] in
  colors <- listed_colors pet ;;
  match colors with
  | [] => Ok details
  | _ :: _ =>
      joined <- py_join ", " colors ;;
      Ok (details ++ [[Lit "**Colors:** "; Lit joined]])
  end.

(** 323-345 *)
Definition details_info (pet : value) : R unit :=
  st_markdown [Lit "### Details"] ;;
  details <- eval_R (details_lines pet) ;;
  for_each_R details st_markdown.

(** 348-351 *)
Definition details_compatibility (pet : value) : R unit :=
  st_markdown [Lit "### Compatibility"] ;;
  compatibility <- eval_R (get_compatibility_message pet) ;;
  for_each_R compatibility (fun msg => st_markdown [Lit msg]).

(** 354-358 *)
Definition details_description (pet : value) : R unit :=
  d <- eval_R (py_getitem pet "description") ;;
  if py_truthy d then
    st_markdown [Lit "### About"] ;;
    html <- eval_R (description_html 500 pet) ;;
    st_markdown html
  else ret_R tt.

(** 368-374: the list [contact_info]. *)
Definition contact_lines (pet : value) : res (list text) :=
  email <- py_path pet ["contact"; "email"] ;;
  let contact_info := if py_truthy email then [[Lit "**Email:** "; Fmt email]] else [] in
  phone <- py_path pet ["contact"; "phone"] ;;
  let contact_info := if py_truthy phone
                      then contact_info ++ [[Lit "**Phone:** "; Fmt phone]]
                      else contact_info in
  located <- and_then (truthy_of (py_path pet ["contact"; "address"; "city"]))
                      (truthy_of (py_path pet ["contact"; "address"; "state"])) ;;
  if located then
    city <- py_path pet ["contact"; "address"; "city"] ;;
    state <- py_path pet ["contact"; "address"; "state"] ;;
    postcode <- py_path pet ["contact"; "address"; "postcode"] ;;
    Ok (contact_info ++ [[Lit "**Location:** "; Fmt city; Lit ", "; Fmt state;
                          Lit " "; Fmt (py_or postcode (VStr ""))]])
  else Ok contact_info.

(** 361-381 *)
Definition details_contact (pet : value) : R unit :=
  st_markdown [Lit "### Adoption Information"] ;;
  org <- eval_R (py_getitem pet "organization_id") ;;
  (if py_truthy org then st_markdown [Lit "**Organization:** "; Fmt org]
   else ret_R tt) ;;
  contact_info <- eval_R (contact_lines pet) ;;
  for_each_R contact_info st_markdown ;;
  url <- eval_R (py_getitem pet "url") ;;
  if py_truthy url then st_markdown [Lit "[View on Petfinder]("; Fmt url; Lit ")"]
  else ret_R tt.

(** 305-381: everything the detail view shows between the back button
    and the favorites button. *)
Definition details_body (pet : value) : R unit :=
  details_header pet ;;
  details_photos pet ;;
  details_info pet ;;
  details_compatibility pet ;;
  details_description pet ;;
  details_contact pet.

(** 384-394 *)
Definition details_favorite_buttons (pet pet_id : value)
    (context tab_id : string) : M unit :=
  pid <- eval (py_getitem pet "id") ;;
  s <- get_session ;;
  ids <- eval (favorite_ids (favorites s)) ;;
  let is_favorite := py_list_contains pid ids in
  if negb is_favorite then
    add <- st_button "Add to Favorites" (widget_key "add_fav_" tab_id context pet_id) ;;
    if (add : bool) then append_to_favorites pet else ret tt
  else
    remove <- st_button "Remove from Favorites" (widget_key "rem_fav_" tab_id context pet_id) ;;
    if (remove : bool) then remove_from_favorites pet else ret tt.

Definition display_pet_details (pet_id : value) (context tab_id : string) : M unit :=
  (* 294-297 *)
  pet <- get_pet_details pet_id ;;
  if negb (py_truthy pet) then
    render (st_error [Lit "Unable to retrieve pet details. Please try again."])
  else
    (* 300-302 *)
    back <- st_button "← Back to Search Results" (widget_key "back_" tab_id context pet_id) ;;
    (if (back : bool) then
       modify_session (set_selected_pet VNone) ;; st_rerun
     else ret tt) ;;
    render (details_body pet) ;;
    details_favorite_buttons pet pet_id context tab_id.

(** *** The view controller (app.py 465-605) *)

(** 513-540: the request parameters of a submitted form. *)
Definition build_params (f : form_input) : dict :=
  let params :=
    [("type", VStr (hd "" (py_split " " (animal_type f))));
     ("location", VStr (location f));
     ("distance", VInt (distance f));
     ("status", VStr "adoptable");
     ("sort", VStr "distance");
     ("limit", VInt 100)] in
  let params := if negb (String.eqb (age f) "Doesn't Matter")
                then dict_set "age" (VStr (age f)) params else params in
  let params := if negb (String.eqb (size f) "Doesn't Matter")
                then dict_set "size" (VStr (size f)) params else params in
  let params := if negb (String.eqb (gender f) "Doesn't Matter")
                then dict_set "gender" (VStr (gender f)) params else params in
  let params := if good_with_children f
                then dict_set "good_with_children" (VInt 1) params else params in
  let params := if good_with_dogs f
                then dict_set "good_with_dogs" (VInt 1) params else params in
  let params := if good_with_cats f
                then dict_set "good_with_cats" (VInt 1) params else params in
  let params := if house_trained f
                then dict_set "house_trained" (VInt 1) params else params in
  let params := if special_needs f
                then dict_set "special_needs" (VInt 1) params else params in
  params.

(** [results and 'animals' in results] (544, 552) *)
Definition has_animals (results : value) : res bool :=
  and_then (Ok (py_truthy results)) (py_in "animals" results).

(** 543-549: what happens to the answer of [search_pets]. *)
Definition store_results (results : value) : M unit :=
  found <- eval (has_animals results) ;;
  if (found : bool) then
    modify_session (set_search_results results) ;;
    modify_session (set_page 1) ;;
    n <- eval (animals <- py_getitem results "animals" ;; py_len animals) ;;
    render (st_success [Lit "Found "; Fmt (VInt n); Lit " pets!"])
  else
    render (st_error [Lit "No pets found with those criteria. Try expanding your search."]).

(** 511-549 *)
Definition submit_search (f : form_input) : M unit :=
  results <- search_pets (VDict (build_params f)) ;;
  store_results results.

(** 557, 568, 569 *)
Definition total_pages (n : Z) : Z := (n + 9) / 10.
Definition start_idx (p : Z) : Z := (p - 1) * 10.
Definition end_idx (p n : Z) : Z := Z.min (start_idx p + 10) n.

(** [results[start_idx:end_idx]] for the page [p] (568-571). *)
Definition page_window (p : Z) (results : value) : res (list value) :=
  n <- py_len results ;;
  py_slice_iter (start_idx p) (end_idx p n) results.

(** 552-573 *)
Definition show_results : M unit :=
  s <- get_session ;;
  found <- eval (has_animals (search_results s)) ;;
  if (found : bool) then
    render (st_markdown [Lit "### Search Results"]) ;;
    results <- eval (py_getitem (search_results s) "animals") ;;
    n <- eval (py_len results) ;;
    (* 560-565 *)
    (if 1 <? total_pages n then
       chosen <- st_slider 1 (total_pages n) (page s) ;;
       if negb (chosen =? page s) then modify_session (set_page chosen)
       else ret tt
     else ret tt) ;;
    (* 568-573 *)
    s1 <- get_session ;;
    pets <- eval (page_window (page s1) results) ;;
    for_each pets
      (fun pet =>
         render (st_markdown [Lit "---"]) ;;
         display_pet_card pet false "search" "tab1")
  else ret tt.

(** 478-573: the search form and, below it, the stored results. *)
Definition search_form_and_results : M unit :=
  f <- get_form ;;
  (if submitted f then submit_search f else ret tt) ;;
  show_results.

(** 473-573 *)
Definition search_tab : M unit :=
  s <- get_session ;;
  if py_truthy (selected_pet s) then
    display_pet_details (selected_pet s) "search" "tab1"
  else search_form_and_results.

(** 575-587 *)
Definition favorites_tab : M unit :=
  render (st_markdown [Lit "### Your Favorite Pets"]) ;;
  s <- get_session ;;
  match favorites s with
  | [] =>
      render (st_info [Lit "You haven't added any pets to your favorites yet. Start searching to find your perfect match!"])
  | _ :: _ =>
      if py_truthy (selected_pet s) then
        display_pet_details (selected_pet s) "favorites" "tab2"
      else
        for_each (favorites s)
          (fun pet =>
             render (st_markdown [Lit "---"]) ;;
             display_pet_card pet true "favorites" "tab2")
  end.

(** 589-605: static text, kept by its heading only. *)
Definition about_tab : M unit :=
  render (st_markdown [Lit "### About PetMatch"]).

Definition main : M unit :=
  render (st_markdown [Lit "<h1 class='main-header'>🐾 PetMatch</h1>"]) ;;
  render (st_markdown [Lit "<p class='sub-header'>Find your perfect pet companion</p>"]) ;;
  search_tab ;;
  favorites_tab ;;
  about_tab.

(** *** Breeds and organizations (app.py 127-159)

    Two more read operations of the directory client; [main] does not
    call them. *)

(** [for x in v]: the items of a list, the characters of a [str], the
    keys of a dict. *)
Definition py_iter (v : value) : res (list value) :=
  match v with
  | VList l => Ok l
  | VStr s => Ok (chars s)
  | VDict d => Ok (map (fun kv => VStr (fst kv)) d)
  | _ => Raise TypeError
  end.

(** [[breed['name'] for breed in breeds]] (138) *)
Fixpoint breed_names (breeds : list value) : res (list value) :=
  match breeds with
  | [] => Ok []
  | breed :: r =>
      (name <- py_getitem breed "name" ;;
       names <- breed_names r ;;
       Ok (name :: names))%res
  end.

(** [[(org['id'], org['name']) for org in organizations]] (156) *)
Fixpoint organization_pairs (orgs : list value) : res (list (value * value)) :=
  match orgs with
  | [] => Ok []
  | org :: r =>
      (id <- py_getitem org "id" ;;
       name <- py_getitem org "name" ;;
       pairs <- organization_pairs r ;;
       Ok ((id, name) :: pairs))%res
  end.

(** 127-141 *)
Definition get_breeds (animal_type : value) : M (list value) :=
  token <- get_access_token ;;
  if negb (py_truthy token) then ret []
  else
    except_request
      (body <- http_exchange
           (GET [Lit "https://api.petfinder.com/v2/types/"; Fmt animal_type;
                 Lit "/breeds"]
                (bearer token) VNone) ;;
       eval (breeds <- py_getitem body "breeds" ;;
             items <- py_iter breeds ;;
             breed_names items))
      (fun msg =>
         render (st_error [Lit "⚠️ Error getting breeds: "; Lit msg]) ;;
         ret []).

(** 144-159 *)
Definition get_organizations (location : value) : M (list (value * value)) :=
  token <- get_access_token ;;
  if negb (py_truthy token) then ret []
  else
    except_request
      (body <- http_exchange
           (GET [Lit "https://api.petfinder.com/v2/organizations"]
                (bearer token)
                (VDict [("location", location); ("distance", VInt 100);
                        ("limit", VInt 100)])) ;;
       eval (orgs <- py_getitem body "organizations" ;;
             items <- py_iter orgs ;;
             organization_pairs items))
      (fun msg =>
         render (st_error [Lit "⚠️ Error getting organizations: "; Lit msg]) ;;
         ret []).

End App.

(** * Notions used in the statements *)

Module Notions.
Import Py Host App.

(** ** Credential manager *)

(** The value of [os.environ.get(k) or st.secrets.get(k)]. *)
Definition configured (h : host) (k : string) : value :=
  match environ h k with
  | Some x => if py_truthy (VStr x) then VStr x else secrets h k
  | None => secrets h k
  end.

Definition api_key (h : host) : value := configured h "PETFINDER_API_KEY".
Definition api_secret (h : host) : value := configured h "PETFINDER_API_SECRET".

(** Both credentials are there. *)
Definition credentials_set (h : host) : bool :=
  py_truthy (api_key h) && py_truthy (api_secret h).

(** The test of line 77. *)
Definition token_fresh (h : host) (s : state) : bool :=
  py_truthy (access_token (sess s)) && (clock h (ticks s) <? token_expires (sess s)).

(** One more reading of the clock. *)
Definition tick (s : state) : state :=
  {| sess := sess s; ticks := S (ticks s); sent := sent s; out := out s |}.

(** The state after the test of line 77: the clock is read only when
    there is a token. *)
Definition after_check (s : state) : state :=
  if py_truthy (access_token (sess s)) then tick s else s.

(** The state once a request has gone out. *)
Definition posted (req : request) (s : state) : state :=
  {| sess := sess s; ticks := ticks s; sent := sent s ++ [req]; out := out s |}.

Definition the_request (h : host) : request :=
  token_request (api_key h) (api_secret h).

(** What upstream answers to the token request in state [s]. *)
Definition answer (h : host) (s : state) : string + value :=
  http h (List.length (sent s)) (the_request h).

(** ** Query construction *)

(** A select box either stays at its sentinel and leaves no key, or
    gives the key its choice. *)
Definition select_filter (params : dict) (k choice : string) : Prop :=
  (choice = "Doesn't Matter" -> dict_get k params = None) /\
  (choice <> "Doesn't Matter" -> dict_get k params = Some (VStr choice)).

(** A checkbox either is unchecked and leaves no key, or gives the key
    the integer 1. *)
Definition checkbox_filter (params : dict) (k : string) (checked : bool) : Prop :=
  (checked = false -> dict_get k params = None) /\
  (checked = true -> dict_get k params = Some (VInt 1)).

(** ** Session store *)

(** Two sessions that differ at most in the token and its expiry. *)
Definition same_view (a b : session) : Prop :=
  search_results a = search_results b /\
  selected_pet a = selected_pet b /\
  page a = page b /\
  favorites a = favorites b.

(** A computation that touches at most the token and its expiry. *)
Definition keeps_view {A} (c : M A) : Prop :=
  forall h s, same_view (sess (snd (run c h s))) (sess s).

(** ** Favorites *)

(** The favorites hold a record with the id of [pet]. *)
Definition already_favorite (pet : value) (favs : list value) : Prop :=
  exists pid ids,
    py_getitem pet "id" = Ok pid /\
    favorite_ids favs = Ok ids /\
    py_list_contains pid ids = true.

(** Every favorite has an id, and none is the id of [pet]. *)
Definition not_favorite (pet : value) (favs : list value) : Prop :=
  exists pid ids,
    py_getitem pet "id" = Ok pid /\
    favorite_ids favs = Ok ids /\
    py_list_contains pid ids = false.

(** ** Compatibility statements *)

(** The statement for one environment flag: none when the key is absent
    or null, the positive one when the value is true, the negative one
    otherwise. *)
Definition flag_statement (flag : option value) (yes no : string) : list string :=
  match flag with
  | None => []
  | Some VNone => []
  | Some v => if py_truthy v then [yes] else [no]
  end.

Definition attribute_true (attrs : dict) (k : string) : bool :=
  match dict_get k attrs with
  | Some v => py_truthy v
  | None => false
  end.

(** The statements for the attributes, in the order special needs,
    house-trained, vaccination, spay/neuter. *)
Definition care_statements (attrs : dict) : list string :=
  (if attribute_true attrs "special_needs" then ["⚠️ Has special needs"] else []) ++
  match dict_get "house_trained" attrs with
  | Some v => if py_truthy v then ["✅ House-trained"] else ["❌ Not house-trained"]
  | None => []
  end ++
  (if attribute_true attrs "shots_current" then ["✅ Vaccinations up to date"] else []) ++
  (if attribute_true attrs "spayed_neutered" then ["✅ Spayed/neutered"] else []).

Definition environment_statements (env : dict) : list string :=
  flag_statement (dict_get "children" env)
    "✅ Good with children" "❌ Not recommended for homes with children" ++
  flag_statement (dict_get "dogs" env)
    "✅ Good with dogs" "❌ Not recommended for homes with dogs" ++
  flag_statement (dict_get "cats" env)
    "✅ Good with cats" "❌ Not recommended for homes with cats".

Definition occurrences (msg : string) (messages : list string) : nat :=
  count_occ string_dec messages msg.

Definition search_request (token params : value) : request :=
  GET [Lit "https://api.petfinder.com/v2/animals"] (bearer token) params.

Definition details_request (token pet_id : value) : request :=
  GET [Lit "https://api.petfinder.com/v2/animals/"; Fmt pet_id] (bearer token) VNone.

Definition breeds_request (token animal_type : value) : request :=
  GET [Lit "https://api.petfinder.com/v2/types/"; Fmt animal_type; Lit "/breeds"]
      (bearer token) VNone.

Definition organizations_request (token location : value) : request :=
  GET [Lit "https://api.petfinder.com/v2/organizations"] (bearer token)
      (VDict [("location", location); ("distance", VInt 100); ("limit", VInt 100)]).

(** ** Invariants of a run *)

(** [c], started on a host that satisfies [Hh] in a state that satisfies
    [I], ends in a state that satisfies [I] when it returns and [E] when
    it raises. *)
Definition guards (Hh : host -> Prop) (I E : state -> Prop) {A} (c : M A) : Prop :=
  forall h s, Hh h -> I s ->
    match run c h s with
    | (Ok _, s') => I s'
    | (Raise _, s') => E s'
    end.

(** No id in the list equals ([==]) an id further down. *)
Fixpoint distinct_ids (ids : list value) : bool :=
  match ids with
  | [] => true
  | x :: r => forallb (fun y => negb (py_eq x y)) r && distinct_ids r
  end.

(** Every favorite has an id and no two have the same. *)
Definition favorites_distinct (favs : list value) : Prop :=
  exists ids, favorite_ids favs = Ok ids /\ distinct_ids ids = true.

(** The invariant on states, and the host that is not constrained. *)
Definition distinct_favorites (s : state) : Prop :=
  favorites_distinct (favorites (sess s)).

Definition any_host (h : host) : Prop := True.

(** ** The current page *)

(** The page is at least 1 and, when the stored results hold [n]
    animals, at most the number of pages for [n] (one page when there is
    none). *)
Definition page_in_range (s : state) : Prop :=
  1 <= page (sess s) /\
  forall results n,
    py_getitem (search_results (sess s)) "animals" = Ok results ->
    py_len results = Ok n ->
    page (sess s) <= Z.max 1 (total_pages n).

(** The page slider gives a value of its range. *)
Definition slider_in_range (h : host) : Prop :=
  forall lo hi v, lo <= hi -> lo <= page_slider h lo hi v <= hi.

(** ** Keys of the request parameters *)

(** The keys are pairwise different, all among [names], and begin with
    the six fixed ones in the order of the dict literal. *)
Definition well_keyed (names : list string) (d : dict) : Prop :=
  NoDup (dict_keys d) /\ incl (dict_keys d) names /\
  firstn 6 (dict_keys d) = ["type"; "location"; "distance"; "status"; "sort"; "limit"].

(** The parameter names of the search endpoint that the form can set. *)
Definition search_parameter_names : list string :=
  ["type"; "location"; "distance"; "status"; "sort"; "limit";
   "age"; "size"; "gender"; "good_with_children"; "good_with_dogs";
   "good_with_cats"; "house_trained"; "special_needs"].

(** ** Records of upstream's documented shape

    Every key is present; a field is a string, a boolean or a list as
    documented, or null where the documentation allows it. *)

Definition opt_str (o : option string) : value :=
  match o with Some s => VStr s | None => VNone end.

Definition opt_bool (o : option bool) : value :=
  match o with Some b => VBool b | None => VNone end.

Record photo : Type := mkPhoto
  { small : string; medium : string; large : string; full : string }.

Definition photo_value (p : photo) : value :=
  VDict [("small", VStr (small p)); ("medium", VStr (medium p));
         ("large", VStr (large p)); ("full", VStr (full p))].

Record animal : Type := mkAnimal
  { a_id : Z;
    a_organization_id : option string;
    a_url : option string;
    a_type : option string;
    a_breed_primary : option string;
    a_breed_secondary : option string;
    a_breed_mixed : bool;
    a_color_primary : option string;
    a_color_secondary : option string;
    a_color_tertiary : option string;
    a_age : option string;
    a_gender : option string;
    a_size : option string;
    a_spayed_neutered : option bool;
    a_house_trained : option bool;
    a_special_needs : option bool;
    a_shots_current : option bool;
    a_children : option bool;
    a_dogs : option bool;
    a_cats : option bool;
    a_name : option string;
    a_description : option string;
    a_photos : list photo;
    a_status : string;
    a_email : option string;
    a_phone : option string;
    a_city : option string;
    a_state : option string;
    a_postcode : option string }.

Definition animal_value (a : animal) : value :=
  VDict
    [("id", VInt (a_id a));
     ("organization_id", opt_str (a_organization_id a));
     ("url", opt_str (a_url a));
     ("type", opt_str (a_type a));
     ("breeds", VDict [("primary", opt_str (a_breed_primary a));
                       ("secondary", opt_str (a_breed_secondary a));
                       ("mixed", VBool (a_breed_mixed a))]);
     ("colors", VDict [("primary", opt_str (a_color_primary a));
                       ("secondary", opt_str (a_color_secondary a));
                       ("tertiary", opt_str (a_color_tertiary a))]);
     ("age", opt_str (a_age a));
     ("gender", opt_str (a_gender a));
     ("size", opt_str (a_size a));
     ("attributes", VDict [("spayed_neutered", opt_bool (a_spayed_neutered a));
                           ("house_trained", opt_bool (a_house_trained a));
                           ("special_needs", opt_bool (a_special_needs a));
                           ("shots_current", opt_bool (a_shots_current a))]);
     ("environment", VDict [("children", opt_bool (a_children a));
                            ("dogs", opt_bool (a_dogs a));
                            ("cats", opt_bool (a_cats a))]);
     ("name", opt_str (a_name a));
     ("description", opt_str (a_description a));
     ("photos", VList (map photo_value (a_photos a)));
     ("status", VStr (a_status a));
     ("contact", VDict [("email", opt_str (a_email a));
                        ("phone", opt_str (a_phone a));
                        ("address", VDict [("city", opt_str (a_city a));
                                           ("state", opt_str (a_state a));
                                           ("postcode", opt_str (a_postcode a))])])].

(** The breed line of the detail view cannot be built: there is no
    primary breed to extend, and a secondary breed or the mixed flag to
    extend it with. *)
Definition breed_line_fails (a : animal) : bool :=
  match a_breed_primary a with
  | Some _ => false
  | None => py_truthy (opt_str (a_breed_secondary a)) || a_breed_mixed a
  end.

(** ** Idle runs *)

(** The host submits no search. *)
Definition idle_host (h : host) : Prop := submitted (form h) = false.

(** The requests sent and the clock readings taken are what they were,
    and no record is selected. *)
Definition idle_state (sent0 : list request) (ticks0 : nat) (s : state) : Prop :=
  sent s = sent0 /\ ticks s = ticks0 /\ py_truthy (selected_pet (sess s)) = false.

(** The requests sent and the clock readings taken are what they were. *)
Definition quiet_state (sent0 : list request) (ticks0 : nat) (s : state) : Prop :=
  sent s = sent0 /\ ticks s = ticks0.

(** ** What the results list shows *)

(** The page of lines 560-565: the slider's value when there is more
    than one page, the session's page otherwise. *)
Definition shown_page (h : host) (s : state) (n : Z) : Z :=
  if 1 <? total_pages n
  then page_slider h 1 (total_pages n) (page (sess s))
  else page (sess s).

(** The loop of lines 571-573 over the records [pets]. *)
Definition show_cards (pets : list value) : M unit :=
  for_each pets
    (fun pet =>
       bind (render (st_markdown [Lit "---"]))
            (fun _ => display_pet_card pet false "search" "tab1")).

(** What the loop shows for one record when none of its buttons is
    pressed: the rule, the card, and its two buttons. *)
Definition card_shown (pet : value) : list ui_event :=
  Markdown [Lit "---"] ::
  snd (card_body pet) ++
  match py_getitem pet "id" with
  | Ok pid => [Button "View Details" (widget_key "details_" "tab1" "search" pid);
               Button "Add to Favorites" (widget_key "fav_" "tab1" "search" pid)]
  | Raise _ => []
  end.

(** A record whose card renders and which has an id. *)
Definition renders (pet : value) : Prop :=
  fst (card_body pet) = Ok tt /\ exists pid, py_getitem pet "id" = Ok pid.

(** No button is pressed. *)
Definition no_click (h : host) : Prop :=
  forall label key, clicked h label key = false.

(** ** Record ids *)


End Notions.

(** * Sample records, hosts and states *)

Module Samples.
Import Py Host App.

Definition blank_form : form_input :=
  {| animal_type := "Dog"; location := ""; distance := 50;
     age := "Doesn't Matter"; size := "Doesn't Matter";
     gender := "Doesn't Matter";
     good_with_children := false; good_with_dogs := false;
     good_with_cats := false; house_trained := false;
     special_needs := false; submitted := false |}.

Definition token_body : value :=
  VDict [("token_type", VStr "Bearer"); ("expires_in", VInt 3600);
         ("access_token", VStr "fresh-token")].

(** A host whose clock shows 5000, 5001, ..., whose credentials are
    both set to [secret] when [with_credentials] is on, and whose upstream
    grants [token_body] to every token request and answers every other
    request with [reply]. *)
Definition sample_host (with_credentials : bool) (reply : string + value)
    (press : string -> text -> bool) (f : form_input) : host :=
  {| environ := fun _ => if with_credentials then Some "secret" else None;
     secrets := fun _ => VNone;
     clock := fun n => 5000 + Z.of_nat n;
     http := fun _ req => match req with
                          | POST _ _ => inr token_body
                          | GET _ _ _ => reply
                          end;
     clicked := press;
     form := f;
     page_slider := fun _ _ v => v |}.

Definition nothing_pressed : string -> text -> bool := fun _ _ => false.

Definition pressed (label : string) : string -> text -> bool :=
  fun l _ => String.eqb l label.

Definition start (ss : session) : state :=
  {| sess := ss; ticks := 0; sent := []; out := [] |}.

(** A session holding the token [old-token] that expires at [expiry]. *)
Definition session_with_token (expiry : Z) : session :=
  set_token_expires expiry (set_access_token (VStr "old-token") initial_session).


(** A record shaped as upstream sends them, with the given id, primary
    breed and description. *)
Definition sample_pet (id primary description : value) : value :=
  VDict
    [("id", id); ("organization_id", VStr "NY835");
     ("url", VStr "https://www.petfinder.com/dog/rex");
     ("type", VStr "Dog"); ("species", VStr "Dog");
     ("breeds", VDict [("primary", primary); ("secondary", VStr "Poodle");
                       ("mixed", VBool true); ("unknown", VBool false)]);
     ("colors", VDict [("primary", VStr "Black"); ("secondary", VNone);
                       ("tertiary", VNone)]);
     ("age", VStr "Young"); ("gender", VStr "Male"); ("size", VStr "Medium");
     ("attributes", VDict [("spayed_neutered", VBool true);
                           ("house_trained", VBool false);
                           ("declawed", VNone);
                           ("special_needs", VBool false);
                           ("shots_current", VBool true)]);
     ("environment", VDict [("children", VBool true); ("dogs", VBool false);
                            ("cats", VNone)]);
     ("name", VStr "Rex"); ("description", description);
     ("photos", VList []); ("status", VStr "adoptable");
     ("contact", VDict [("email", VStr "adopt@shelter.org"); ("phone", VNone);
                        ("address", VDict [("address1", VNone);
                                           ("address2", VNone);
                                           ("city", VStr "New York");
                                           ("state", VStr "NY");
                                           ("postcode", VStr "10001");
                                           ("country", VStr "US")])])].

(** The form of the example: a dog near 10001, nothing else set. *)
Definition dog_search : form_input :=
  {| animal_type := "Dog"; location := "10001"; distance := 50;
     age := "Doesn't Matter"; size := "Doesn't Matter";
     gender := "Doesn't Matter";
     good_with_children := false; good_with_dogs := false;
     good_with_cats := false; house_trained := false;
     special_needs := false; submitted := true |}.

(** Upstream's answer to a search that matches nothing. *)
Definition no_animals : value :=
  VDict [("animals", VList []);
         ("pagination", VDict [("count_per_page", VInt 100);
                               ("total_count", VInt 0);
                               ("current_page", VInt 1);
                               ("total_pages", VInt 0)])].

Definition rex : value :=
  sample_pet (VInt 101) (VStr "Labrador Retriever") (VStr "A friendly dog.").

Definition tom : value :=
  sample_pet (VInt 202) (VStr "Beagle") VNone.

End Samples.

(** * Properties *)

Import Py Host App Notions Samples.

(** ** Credential manager *)

Section CredentialManager.

Variable h : host.

Local Abbreviation configured := (configured h).
Local Abbreviation api_key := (api_key h).
Local Abbreviation api_secret := (api_secret h).
Local Abbreviation credentials_set := (credentials_set h).
Local Abbreviation token_fresh := (token_fresh h).
Local Abbreviation the_request := (the_request h).
Local Abbreviation answer := (answer h).

Lemma credential_run (k : string) (s : state) :
  run (credential k) h s = (Ok (configured k), s).
Proof.
  unfold run, credential, configured, bind, os_environ_get, st_secrets_get, ret.
  destruct (environ h k) as [x|]; cbn;
    [destruct (negb (x =? ""))%string|]; reflexivity.
Qed.

Lemma get_access_token_fresh (s : state) :
  token_fresh s = true ->
  run get_access_token h s = (Ok (access_token (sess s)), tick s).
Proof.
  unfold token_fresh. intros [Ht Hc]%andb_prop.
  unfold run, get_access_token, bind, get_session, time_time, ret. cbn.
  rewrite Ht. cbn. rewrite Hc. reflexivity.
Qed.

Lemma get_access_token_stale (s : state) :
  token_fresh s = false ->
  run get_access_token h s = run refresh_token h (after_check s).
Proof.
  unfold token_fresh, after_check. intros Hf.
  unfold run, get_access_token, bind, get_session, time_time, ret. cbn.
  destruct (py_truthy (access_token (sess s))); cbn in *.
  - rewrite Hf. reflexivity.
  - reflexivity.
Qed.

Ltac refresh_start :=
  unfold run, refresh_token, bind;
  repeat match goal with
         | |- context [credential ?k h ?s] =>
             change (credential k h s) with (run (credential k) h s);
             rewrite (credential_run k s)
         end;
  fold api_key api_secret.

Lemma refresh_token_unconfigured (s : state) :
  credentials_set = false ->
  run refresh_token h s =
  (Ok VNone,
   with_out [StError [Lit "⚠️ Petfinder API credentials are missing. Please set them in your environment variables or Streamlit secrets."]] s).
Proof.
  unfold credentials_set. intros Hc. refresh_start.
  replace (negb (py_truthy api_key) || negb (py_truthy api_secret)) with true
    by (destruct (py_truthy api_key), (py_truthy api_secret); cbn in *; congruence).
  reflexivity.
Qed.

Lemma refresh_token_refused (s : state) (msg : string) :
  credentials_set = true ->
  answer s = inl msg ->
  run refresh_token h s =
  (Ok VNone,
   with_out [StError [Lit "⚠️ Error getting access token: "; Lit msg]]
            (posted the_request s)).
Proof.
  unfold credentials_set, answer, the_request. intros [Hk Hs]%andb_prop Ha.
  refresh_start. rewrite Hk, Hs. cbn.
  unfold except_request, bind, http_exchange. rewrite Ha. reflexivity.
Qed.

(** A refresh that goes through: the token is stored first, the clock is
    read again, and the expiry is that reading plus [expires_in] minus
    60. *)
Lemma refresh_token_granted (s : state) (body tok : value) (e : Z) :
  credentials_set = true ->
  answer s = inr body ->
  py_getitem body "access_token" = Ok tok ->
  py_getitem body "expires_in" = Ok (VInt e) ->
  run refresh_token h s =
  (Ok tok,
   {| sess := set_token_expires (clock h (ticks s) + e - 60)
                                (set_access_token tok (sess s));
      ticks := S (ticks s);
      sent := sent s ++ [the_request];
      out := out s |}).
Proof.
  unfold credentials_set, answer, the_request. intros [Hk Hs]%andb_prop Ha Ht He.
  refresh_start. rewrite Hk, Hs. cbn.
  unfold except_request, bind, http_exchange. rewrite Ha.
  unfold eval. rewrite Ht. cbn. rewrite He. reflexivity.
Qed.

(** With credentials, a refresh sends its request whatever comes back. *)
Lemma refresh_token_sent (s : state) :
  credentials_set = true ->
  sent (snd (run refresh_token h s)) = sent s ++ [the_request].
Proof.
  unfold credentials_set, the_request. intros [Hk Hs]%andb_prop.
  refresh_start. rewrite Hk, Hs. cbn.
  unfold except_request, bind, http_exchange.
  destruct (http h (List.length (sent s)) (token_request api_key api_secret))
    as [msg|body]; [reflexivity|].
  unfold eval. destruct (py_getitem body "access_token") as [tok|ex]; cbn.
  - destruct (py_getitem body "expires_in") as [v|ex]; cbn.
    + destruct (py_add_number (clock h (ticks s)) v) as [t|ex]; cbn.
      * reflexivity.
      * destruct ex; reflexivity.
    + destruct ex; reflexivity.
  - destruct ex; reflexivity.
Qed.

(** Without them it sends nothing. *)
Lemma refresh_token_silent (s : state) :
  credentials_set = false ->
  sent (snd (run refresh_token h s)) = sent s.
Proof.
  intros Hc. rewrite (refresh_token_unconfigured s Hc). reflexivity.
Qed.

(** The session changes only after upstream has answered with a body
    that holds a token. *)
Lemma refresh_token_session (s : state) :
  sess (snd (run refresh_token h s)) = sess s \/
  (credentials_set = true /\
   exists body tok, answer s = inr body /\
                    py_getitem body "access_token" = Ok tok).
Proof.
  destruct credentials_set eqn:Hc.
  - destruct (answer s) as [msg|body] eqn:Ha.
    + left. rewrite (refresh_token_refused s msg Hc Ha). reflexivity.
    + destruct (py_getitem body "access_token") as [tok|ex] eqn:Ht.
      * right. split; [reflexivity|]. exists body, tok. split; [reflexivity | exact Ht].
      * left. unfold credentials_set, answer, the_request in *.
        apply andb_prop in Hc as [Hk Hs].
        refresh_start. rewrite Hk, Hs. cbn.
        unfold except_request, bind, http_exchange. rewrite Ha.
        unfold eval. rewrite Ht. destruct ex; reflexivity.
  - left. rewrite (refresh_token_unconfigured s Hc). reflexivity.
Qed.

End CredentialManager.

(** ** C1: token caching *)

(** C1, as the code has it.  While the cached token is usable (there is
    one and the clock reads less than [token_expires]),
    [get_access_token] returns that very token, sends nothing and leaves
    the session alone.  Otherwise, provided both credentials are
    configured, it sends exactly one request, the token request; when
    upstream grants a token [tok] with [expires_in = e], the session then
    holds [tok] with expiry [now + e - 60], where [now] is the clock
    reading taken after the answer, and [tok] is returned. *)
Theorem get_access_token_caching (h : host) (s : state) :
  (token_fresh h s = true ->
     run get_access_token h s = (Ok (access_token (sess s)), tick s) /\
     sent (snd (run get_access_token h s)) = sent s /\
     sess (snd (run get_access_token h s)) = sess s) /\
  (token_fresh h s = false -> credentials_set h = true ->
     sent (snd (run get_access_token h s)) = sent s ++ [the_request h]) /\
  (token_fresh h s = false -> credentials_set h = true ->
     forall (body tok : value) (e : Z),
       answer h (after_check s) = inr body ->
       py_getitem body "access_token" = Ok tok ->
       py_getitem body "expires_in" = Ok (VInt e) ->
       let now := clock h (ticks (after_check s)) in
       run get_access_token h s =
       (Ok tok,
        {| sess := set_token_expires (now + e - 60) (set_access_token tok (sess s));
           ticks := S (ticks (after_check s));
           sent := sent s ++ [the_request h];
           out := out s |})).
Proof.
  split; [|split].
  - intros Hf. rewrite (get_access_token_fresh h s Hf). auto.
  - intros Hf Hc. rewrite (get_access_token_stale h s Hf).
    rewrite (refresh_token_sent h _ Hc).
    unfold after_check. destruct (py_truthy (access_token (sess s))); reflexivity.
  - intros Hf Hc body tok e Ha Ht He now.
    rewrite (get_access_token_stale h s Hf).
    rewrite (refresh_token_granted h _ body tok e Hc Ha Ht He).
    unfold now, after_check.
    destruct (py_truthy (access_token (sess s))); reflexivity.
Qed.

(** A usable token, and an expired one refreshed, on a sample host. *)
Lemma get_access_token_caching_witness :
  (let h := sample_host true (inl "unused") nothing_pressed blank_form in
   let s := start (session_with_token 9000) in
   run get_access_token h s = (Ok (VStr "old-token"), tick s)) /\
  (let h := sample_host true (inl "unused") nothing_pressed blank_form in
   let s := start (session_with_token 100) in
   sent (snd (run get_access_token h s)) = [the_request h] /\
   fst (run get_access_token h s) = Ok (VStr "fresh-token") /\
   token_expires (sess (snd (run get_access_token h s))) = 5001 + 3600 - 60).
Proof.
  split.
  - intros h s.
    exact (proj1 (proj1 (get_access_token_caching h s) eq_refl)).
  - intros h s.
    pose proof (get_access_token_caching h s) as (_ & Hsent & Hok).
    split; [exact (Hsent eq_refl eq_refl)|].
    rewrite (Hok eq_refl eq_refl token_body (VStr "fresh-token") 3600
               eq_refl eq_refl eq_refl).
    split; reflexivity.
Defined.

(** C1 as stated fails: an expired token on a host without credentials
    leads to no request at all. *)
Lemma expired_token_without_credentials_sends_nothing :
  let h := sample_host false (inl "unused") nothing_pressed blank_form in
  let s := start (session_with_token 100) in
  py_truthy (access_token (sess s)) = true /\
  token_expires (sess s) < clock h (ticks s) /\
  sent (snd (run get_access_token h s)) = sent s /\
  ~ (exists req, sent (snd (run get_access_token h s)) = sent s ++ [req]).
Proof.
  cbv zeta. repeat split.
  intros [req Hreq]. vm_compute in Hreq. discriminate Hreq.
Qed.

(** ** C10: a failed refresh keeps the cache *)

(** C10.  When the cached token is unusable and a credential is missing,
    or the token request raises a [RequestException],
    [get_access_token] returns [None] and the session is what it was;
    and in every run, a session that differs afterwards means that
    upstream answered the token request with a body holding a token. *)
Theorem get_access_token_failure_keeps_cache (h : host) (s : state) :
  (token_fresh h s = false -> credentials_set h = false ->
     fst (run get_access_token h s) = Ok VNone /\
     sess (snd (run get_access_token h s)) = sess s) /\
  (token_fresh h s = false -> credentials_set h = true ->
     forall msg, answer h (after_check s) = inl msg ->
       fst (run get_access_token h s) = Ok VNone /\
       sess (snd (run get_access_token h s)) = sess s) /\
  (sess (snd (run get_access_token h s)) = sess s \/
   (token_fresh h s = false /\ credentials_set h = true /\
    exists body tok, answer h (after_check s) = inr body /\
                     py_getitem body "access_token" = Ok tok)).
Proof.
  assert (Hsess : sess (after_check s) = sess s)
    by (unfold after_check; destruct (py_truthy (access_token (sess s))); reflexivity).
  split; [|split].
  - intros Hf Hc. rewrite (get_access_token_stale h s Hf).
    rewrite (refresh_token_unconfigured h _ Hc). cbn. auto.
  - intros Hf Hc msg Ha. rewrite (get_access_token_stale h s Hf).
    rewrite (refresh_token_refused h _ msg Hc Ha). cbn. auto.
  - destruct (token_fresh h s) eqn:Hf.
    + left. rewrite (get_access_token_fresh h s Hf). reflexivity.
    + rewrite (get_access_token_stale h s Hf).
      destruct (refresh_token_session h (after_check s)) as [H | (Hc & body & tok & Ha & Ht)].
      * left. congruence.
      * right. repeat split; [exact Hc|]. exists body, tok. auto.
Qed.

(** Both failures on sample hosts: no credentials, and a token request
    that is refused. *)
Lemma get_access_token_failure_keeps_cache_witness :
  (let h := sample_host false (inl "unused") nothing_pressed blank_form in
   let s := start (session_with_token 100) in
   fst (run get_access_token h s) = Ok VNone /\
   sess (snd (run get_access_token h s)) = sess s) /\
  (let h := {| environ := fun _ => Some "secret"; secrets := fun _ => VNone;
               clock := fun _ => 7000;
               http := fun _ _ => inl "503 Server Error";
               clicked := nothing_pressed; form := blank_form;
               page_slider := fun _ _ v => v |} in
   let s := start (session_with_token 100) in
   fst (run get_access_token h s) = Ok VNone /\
   sess (snd (run get_access_token h s)) = sess s).
Proof.
  split.
  - intros h s.
    exact (proj1 (get_access_token_failure_keeps_cache h s) eq_refl eq_refl).
  - intros h s.
    exact (proj1 (proj2 (get_access_token_failure_keeps_cache h s))
             eq_refl eq_refl "503 Server Error" eq_refl).
Defined.

(** ** C2: query construction *)

Section QueryConstruction.

Lemma dict_get_set (k k' : string) (v : value) (d : dict) :
  dict_get k (dict_set k' v d) = if String.eqb k' k then Some v else dict_get k d.
Proof.
  induction d as [|[k0 v0] d IH]; cbn.
  - reflexivity.
  - destruct (String.eqb_spec k0 k') as [->|Hne]; cbn.
    + destruct (String.eqb k' k); reflexivity.
    + rewrite IH. destruct (String.eqb_spec k0 k) as [->|Hne'].
      * destruct (String.eqb_spec k' k) as [->|]; [congruence | reflexivity].
      * reflexivity.
Qed.

Lemma dict_get_set_if (c : bool) (k k' : string) (v : value) (d : dict) :
  dict_get k (if c then dict_set k' v d else d) =
  if String.eqb k' k && c then Some v else dict_get k d.
Proof.
  destruct c; [rewrite dict_get_set | ]; destruct (String.eqb k' k); reflexivity.
Qed.

Lemma select_filter_intro (params : dict) (k choice : string) :
  dict_get k params =
    (if negb (String.eqb choice "Doesn't Matter") then Some (VStr choice) else None) ->
  select_filter params k choice.
Proof.
  intros H. unfold select_filter. rewrite H.
  destruct (String.eqb_spec choice "Doesn't Matter"); cbn; split; congruence.
Qed.

Lemma checkbox_filter_intro (params : dict) (k : string) (c : bool) :
  dict_get k params = (if c then Some (VInt 1) else None) ->
  checkbox_filter params k c.
Proof.
  intros H. unfold checkbox_filter. rewrite H. destruct c; split; congruence.
Qed.

End QueryConstruction.

Ltac lookup_params :=
  unfold build_params; cbv zeta; rewrite !dict_get_set_if; cbn; reflexivity.

(** C2.  In the parameters built from a submitted form, each of age,
    size and gender is absent when its select box is at "Doesn't Matter"
    and otherwise holds the choice itself; each of the five checkbox keys
    is absent when unchecked and holds the integer 1 when checked; the
    six fixed keys are always there.  For the form Dog / 10001 / 50 miles
    with nothing else set, the parameters are exactly the six fixed
    keys. *)
Theorem build_params_filters (f : form_input) :
  let params := build_params f in
  (select_filter params "age" (age f) /\
   select_filter params "size" (size f) /\
   select_filter params "gender" (gender f)) /\
  (checkbox_filter params "good_with_children" (good_with_children f) /\
   checkbox_filter params "good_with_dogs" (good_with_dogs f) /\
   checkbox_filter params "good_with_cats" (good_with_cats f) /\
   checkbox_filter params "house_trained" (house_trained f) /\
   checkbox_filter params "special_needs" (special_needs f)) /\
  (dict_get "type" params = Some (VStr (hd "" (py_split " " (animal_type f)))) /\
   dict_get "location" params = Some (VStr (location f)) /\
   dict_get "distance" params = Some (VInt (distance f)) /\
   dict_get "status" params = Some (VStr "adoptable") /\
   dict_get "sort" params = Some (VStr "distance") /\
   dict_get "limit" params = Some (VInt 100)) /\
  (forall sub : bool,
     build_params
       {| animal_type := "Dog"; location := "10001"; distance := 50;
          age := "Doesn't Matter"; size := "Doesn't Matter";
          gender := "Doesn't Matter";
          good_with_children := false; good_with_dogs := false;
          good_with_cats := false; house_trained := false;
          special_needs := false; submitted := sub |} =
     [("type", VStr "Dog"); ("location", VStr "10001"); ("distance", VInt 50);
      ("status", VStr "adoptable"); ("sort", VStr "distance");
      ("limit", VInt 100)]).
Proof.
  cbv zeta. split; [|split; [|split]].
  - repeat split; apply select_filter_intro; lookup_params.
  - repeat split; apply checkbox_filter_intro; lookup_params.
  - repeat split; lookup_params.
  - intros sub. reflexivity.
Qed.

(** A form with every filter set. *)
Lemma build_params_filters_witness :
  let f := {| animal_type := "Small & Furry"; location := "Austin, TX";
              distance := 120; age := "Young"; size := "Small";
              gender := "Female";
              good_with_children := true; good_with_dogs := true;
              good_with_cats := true; house_trained := true;
              special_needs := true; submitted := true |} in
  build_params f =
  [("type", VStr "Small"); ("location", VStr "Austin, TX");
   ("distance", VInt 120); ("status", VStr "adoptable");
   ("sort", VStr "distance"); ("limit", VInt 100);
   ("age", VStr "Young"); ("size", VStr "Small"); ("gender", VStr "Female");
   ("good_with_children", VInt 1); ("good_with_dogs", VInt 1);
   ("good_with_cats", VInt 1); ("house_trained", VInt 1);
   ("special_needs", VInt 1)] /\
  dict_get "age" (build_params f) = Some (VStr "Young") /\
  dict_get "house_trained" (build_params f) = Some (VInt 1).
Proof.
  intros f. split; [reflexivity|].
  pose proof (build_params_filters f) as ((Hage & _) & (_ & _ & _ & Hht & _) & _).
  split.
  - apply (proj2 Hage). discriminate.
  - apply (proj2 Hht). reflexivity.
Defined.

(** ** What the network functions leave alone *)

Section SessionFrame.

Lemma same_view_refl (a : session) : same_view a a.
Proof. repeat split. Qed.

Lemma same_view_trans (a b c : session) :
  same_view a b -> same_view b c -> same_view a c.
Proof.
  unfold same_view. intros (H1 & H2 & H3 & H4) (K1 & K2 & K3 & K4).
  repeat split; congruence.
Qed.

Lemma keeps_view_bind {A B} (c : M A) (k : A -> M B) :
  keeps_view c -> (forall a, keeps_view (k a)) -> keeps_view (bind c k).
Proof.
  intros Hc Hk h s. unfold run, bind.
  specialize (Hc h s). unfold run in Hc.
  destruct (c h s) as [[a|e] s1]; cbn in *.
  - eapply same_view_trans; [apply (Hk a h s1) | exact Hc].
  - exact Hc.
Qed.

Lemma keeps_view_ret {A} (a : A) : keeps_view (ret a).
Proof. intros h s. apply same_view_refl. Qed.

Lemma keeps_view_eval {A} (r : res A) : keeps_view (eval r).
Proof. intros h s. apply same_view_refl. Qed.

Lemma keeps_view_render {A} (c : R A) : keeps_view (render c).
Proof. intros h s. apply same_view_refl. Qed.

Lemma keeps_view_get_session : keeps_view get_session.
Proof. intros h s. apply same_view_refl. Qed.

Lemma keeps_view_time_time : keeps_view time_time.
Proof. intros h s. apply same_view_refl. Qed.

Lemma keeps_view_os_environ_get (k : string) : keeps_view (os_environ_get k).
Proof. intros h s. apply same_view_refl. Qed.

Lemma keeps_view_st_secrets_get (k : string) : keeps_view (st_secrets_get k).
Proof. intros h s. apply same_view_refl. Qed.

Lemma keeps_view_http_exchange (req : request) : keeps_view (http_exchange req).
Proof.
  intros h s. unfold run, http_exchange.
  destruct (http h (List.length (sent s)) req); apply same_view_refl.
Qed.

Lemma keeps_view_set_access_token (v : value) :
  keeps_view (modify_session (set_access_token v)).
Proof. intros h s. repeat split. Qed.

Lemma keeps_view_set_token_expires (z : Z) :
  keeps_view (modify_session (set_token_expires z)).
Proof. intros h s. repeat split. Qed.

Lemma keeps_view_except_request {A} (c : M A) (handler : string -> M A) :
  keeps_view c -> (forall msg, keeps_view (handler msg)) ->
  keeps_view (except_request c handler).
Proof.
  intros Hc Hh h s. unfold run, except_request.
  specialize (Hc h s). unfold run in Hc.
  destruct (c h s) as [[a|e] s1]; cbn in *; [exact Hc|].
  destruct e; try exact Hc.
  eapply same_view_trans; [apply (Hh msg h s1) | exact Hc].
Qed.

Lemma keeps_view_if {A} (b : bool) (c1 c2 : M A) :
  keeps_view c1 -> keeps_view c2 -> keeps_view (if b then c1 else c2).
Proof. destruct b; auto. Qed.

End SessionFrame.

Create HintDb view discriminated.
#[export] Hint Resolve keeps_view_ret keeps_view_eval keeps_view_render
  keeps_view_get_session keeps_view_time_time keeps_view_os_environ_get
  keeps_view_st_secrets_get keeps_view_http_exchange
  keeps_view_set_access_token keeps_view_set_token_expires : view.

Ltac keeps_view_steps :=
  repeat first
    [ apply keeps_view_bind; [|intros ?]
    | apply keeps_view_except_request; [|intros ?]
    | apply keeps_view_if
    | solve [auto with view] ].

Lemma keeps_view_get_access_token : keeps_view get_access_token.
Proof.
  unfold get_access_token, refresh_token, credential. keeps_view_steps.
Qed.

Lemma keeps_view_search_pets (params : value) : keeps_view (search_pets params).
Proof.
  unfold search_pets. pose proof keeps_view_get_access_token. keeps_view_steps.
Qed.

Lemma keeps_view_get_pet_details (pet_id : value) :
  keeps_view (get_pet_details pet_id).
Proof.
  unfold get_pet_details. pose proof keeps_view_get_access_token. keeps_view_steps.
Qed.

(** ** C3: pagination *)

Section Pagination.

Lemma total_pages_ceiling (n : Z) :
  n <= 10 * total_pages n /\ forall k, n <= 10 * k -> total_pages n <= k.
Proof.
  unfold total_pages.
  pose proof (Z.div_mod (n + 9) 10 ltac:(lia)) as Hdm.
  pose proof (Z.mod_pos_bound (n + 9) 10 ltac:(lia)) as Hb.
  split; [lia | intros k Hk; lia].
Qed.

(** The items of a Python slice with non-negative bounds, by index. *)
Lemma py_slice_list_nth {A} (a b : Z) (l : list A) (i : nat) :
  0 <= a -> 0 <= b ->
  nth_error (py_slice_list a b l) i =
  if a + Z.of_nat i <? Z.min b (Z.of_nat (List.length l))
  then nth_error l (Z.to_nat a + i)
  else None.
Proof.
  intros Ha Hb. unfold py_slice_list, slice_bound.
  destruct (Z.ltb_spec a 0) as [|_]; [lia|].
  destruct (Z.ltb_spec b 0) as [|_]; [lia|].
  rewrite nth_error_firstn, nth_error_skipn.
  set (len := Z.of_nat (List.length l)).
  destruct (Nat.ltb_spec i (Z.to_nat (Z.min b len - Z.min a len)));
    destruct (Z.ltb_spec (a + Z.of_nat i) (Z.min b len)); try lia.
  - replace (Z.min a len) with a by lia. reflexivity.
  - reflexivity.
Qed.

Lemma page_window_list (p : Z) (l : list value) :
  page_window p (VList l) =
  Ok (py_slice_list (start_idx p)
        (end_idx p (Z.of_nat (List.length l))) l).
Proof. reflexivity. Qed.

Lemma store_results_stored (results : value) (h : host) (s : state) :
  has_animals results = Ok true ->
  sess (snd (run (store_results results) h s)) =
  set_page 1 (set_search_results results (sess s)).
Proof.
  intros Hfound. unfold run, store_results, bind, eval. rewrite Hfound. cbn.
  destruct (py_getitem results "animals") as [animals|e]; cbn; [|reflexivity].
  destruct (py_len animals); reflexivity.
Qed.

Lemma store_results_skipped (results : value) (h : host) (s : state) :
  has_animals results <> Ok true ->
  sess (snd (run (store_results results) h s)) = sess s.
Proof.
  intros Hfound. unfold run, store_results, bind, eval.
  destruct (has_animals results) as [[|]|e]; cbn; congruence.
Qed.

Lemma submit_search_page (f : form_input) (h : host) (s : state) :
  let after := sess (snd (run (submit_search f) h s)) in
  page after = 1 \/
  (search_results after = search_results (sess s) /\ page after = page (sess s)).
Proof.
  cbv zeta. unfold run, submit_search, bind.
  pose proof (keeps_view_search_pets (VDict (build_params f)) h s) as Hv.
  unfold run in Hv.
  destruct (search_pets (VDict (build_params f)) h s) as [[results|e] s1];
    cbn in Hv; lazy beta iota.
  - destruct (has_animals results) as [[|]|e] eqn:Hfound.
    + left. change (store_results results h s1) with (run (store_results results) h s1).
      rewrite (store_results_stored results h s1 Hfound). reflexivity.
    + right. change (store_results results h s1) with (run (store_results results) h s1).
      rewrite (store_results_skipped results h s1) by congruence.
      destruct Hv as (H1 & _ & H3 & _). auto.
    + right. change (store_results results h s1) with (run (store_results results) h s1).
      rewrite (store_results_skipped results h s1) by congruence.
      destruct Hv as (H1 & _ & H3 & _). auto.
  - right. destruct Hv as (H1 & _ & H3 & _). auto.
Qed.

End Pagination.

(** ** C4: favorites *)

Section Favorites.

Variable h : host.

(** Filtering out an id that no favorite has gives the same list. *)
Lemma without_id_absent (pet pid : value) (favs ids : list value) :
  py_getitem pet "id" = Ok pid ->
  favorite_ids favs = Ok ids ->
  py_list_contains pid ids = false ->
  without_id pet favs = Ok favs.
Proof.
  intros Hid. revert ids.
  induction favs as [|p r IH]; intros ids Hids Habs; cbn in *.
  - reflexivity.
  - destruct (py_getitem p "id") as [i|e]; cbn in *; [|discriminate].
    destruct (favorite_ids r) as [ids'|e]; cbn in *; [|discriminate].
    injection Hids as <-. cbn in Habs.
    apply orb_false_elim in Habs as [Hi Hr].
    rewrite Hid. cbn. rewrite (IH ids' eq_refl Hr). cbn.
    rewrite Hi. reflexivity.
Qed.

Lemma remove_absent (pet name : value) (s : state) :
  not_favorite pet (favorites (sess s)) ->
  py_getitem pet "name" = Ok name ->
  run (remove_from_favorites pet) h s =
  (Raise RerunException,
   with_out [StSuccess [Lit "Removed "; Fmt name; Lit " from favorites!"]] s).
Proof.
  intros (pid & ids & Hid & Hids & Habs) Hname.
  unfold run, remove_from_favorites, bind, get_session, eval. cbn.
  rewrite (without_id_absent pet pid _ ids Hid Hids Habs). cbn.
  rewrite Hname. cbn. destruct s as [[] ? ? ?]. reflexivity.
Qed.

Lemma card_buttons_present (pet : value) (is_favorite : bool)
    (context tab_id : string) (s : state) :
  already_favorite pet (favorites (sess s)) ->
  is_favorite = false ->
  favorites (sess (snd (run (card_buttons pet is_favorite context tab_id) h s))) =
  favorites (sess s).
Proof.
  intros (pid & ids & Hid & Hids & Hin) ->.
  unfold run, card_buttons, bind, eval, st_button. rewrite Hid. cbn.
  destruct (clicked h "View Details" _); cbn; [reflexivity|].
  destruct (clicked h "Add to Favorites" _); cbn; [|reflexivity].
  rewrite Hids. cbn. rewrite Hin. reflexivity.
Qed.

Lemma display_pet_card_present (pet : value) (context tab_id : string) (s : state) :
  already_favorite pet (favorites (sess s)) ->
  favorites (sess (snd (run (display_pet_card pet false context tab_id) h s))) =
  favorites (sess s).
Proof.
  intros Hfav. unfold run, display_pet_card, bind, render.
  destruct (card_body pet) as [[[]|e] o]; cbn [fst snd]; [|reflexivity].
  apply (card_buttons_present pet false context tab_id (with_out o s) Hfav eq_refl).
Qed.

Lemma details_buttons_present (pet pet_id : value) (context tab_id : string)
    (s : state) :
  already_favorite pet (favorites (sess s)) ->
  clicked h "Remove from Favorites" (widget_key "rem_fav_" tab_id context pet_id) = false ->
  run (details_favorite_buttons pet pet_id context tab_id) h s =
  (Ok tt,
   with_out [Button "Remove from Favorites"
               (widget_key "rem_fav_" tab_id context pet_id)] s).
Proof.
  intros (pid & ids & Hid & Hids & Hin) Hrem.
  unfold run, details_favorite_buttons, bind, eval, get_session, st_button.
  rewrite Hid. cbn. rewrite Hids. cbn. rewrite Hin. cbn. rewrite Hrem. reflexivity.
Qed.

Lemma card_buttons_remove_absent (pet name : value) (context tab_id : string)
    (s : state) :
  not_favorite pet (favorites (sess s)) ->
  py_getitem pet "name" = Ok name ->
  (forall key, clicked h "View Details" key = false) ->
  (forall key, clicked h "Remove from Favorites" key = true) ->
  fst (run (card_buttons pet true context tab_id) h s) = Raise RerunException /\
  favorites (sess (snd (run (card_buttons pet true context tab_id) h s))) =
  favorites (sess s).
Proof.
  intros Habs Hname Hview Hrem.
  pose proof Habs as (pid & ids & Hid & _).
  unfold run, card_buttons, bind, eval, st_button. rewrite Hid.
  cbn -[remove_from_favorites]. rewrite Hview, Hrem.
  cbn -[remove_from_favorites].
  match goal with
  | |- context [remove_from_favorites pet h ?s1] =>
      change (remove_from_favorites pet h s1)
        with (run (remove_from_favorites pet) h s1);
      rewrite (remove_absent pet name s1 Habs Hname)
  end.
  split; reflexivity.
Qed.

End Favorites.

(** C4.  Where the favorites already hold a record with the pet's id,
    rendering its card with the add button (whatever is pressed) leaves
    the favorites as they are, and the detail view offers no add button:
    unless its remove button is pressed it only shows that button.
    Removing a pet whose id no favorite has leaves the favorites as they
    are and ends in the rerun signal, not in an error; this is what the
    remove button of a card does. *)
Theorem favorites_idempotent (h : host) (s : state) (pet : value)
    (context tab_id : string) :
  (already_favorite pet (favorites (sess s)) ->
     favorites (sess (snd (run (display_pet_card pet false context tab_id) h s))) =
     favorites (sess s)) /\
  (already_favorite pet (favorites (sess s)) ->
   forall pet_id,
     clicked h "Remove from Favorites"
       (widget_key "rem_fav_" tab_id context pet_id) = false ->
     run (details_favorite_buttons pet pet_id context tab_id) h s =
     (Ok tt,
      with_out [Button "Remove from Favorites"
                  (widget_key "rem_fav_" tab_id context pet_id)] s)) /\
  (not_favorite pet (favorites (sess s)) ->
   forall name, py_getitem pet "name" = Ok name ->
     let after := run (remove_from_favorites pet) h s in
     favorites (sess (snd after)) = favorites (sess s) /\
     List.length (favorites (sess (snd after))) = List.length (favorites (sess s)) /\
     fst after = Raise RerunException /\
     is_error (fst after) = false) /\
  (not_favorite pet (favorites (sess s)) ->
   forall name, py_getitem pet "name" = Ok name ->
     (forall key, clicked h "View Details" key = false) ->
     (forall key, clicked h "Remove from Favorites" key = true) ->
     let after := run (card_buttons pet true context tab_id) h s in
     favorites (sess (snd after)) = favorites (sess s) /\
     is_error (fst after) = false).
Proof.
  split; [|split; [|split]].
  - apply display_pet_card_present.
  - intros Hfav pet_id Hrem. apply details_buttons_present; assumption.
  - intros Habs name Hname. cbv zeta.
    rewrite (remove_absent h pet name s Habs Hname).
    destruct s as [[] ? ? ?]. repeat split.
  - intros Habs name Hname Hview Hrem. cbv zeta.
    destruct (card_buttons_remove_absent h pet name context tab_id s
                Habs Hname Hview Hrem) as [Hr Hf].
    split; [exact Hf|]. rewrite Hr. reflexivity.
Qed.

(** Rex is a favorite already and the add button of his card is
    pressed; Tom is not one and the remove button of his card is. *)
Lemma favorites_idempotent_witness :
  let s := start (set_favorites [rex] initial_session) in
  (let h := sample_host true (inl "unused") (pressed "Add to Favorites") blank_form in
   favorites (sess (snd (run (display_pet_card rex false "search" "tab1") h s))) = [rex] /\
   run (details_favorite_buttons rex (VInt 101) "search" "tab1") h s =
   (Ok tt,
    with_out [Button "Remove from Favorites"
                (widget_key "rem_fav_" "tab1" "search" (VInt 101))] s)) /\
  (let h := sample_host true (inl "unused") (pressed "Remove from Favorites") blank_form in
   favorites (sess (snd (run (remove_from_favorites tom) h s))) = [rex] /\
   favorites (sess (snd (run (card_buttons tom true "favorites" "tab2") h s))) = [rex] /\
   is_error (fst (run (card_buttons tom true "favorites" "tab2") h s)) = false).
Proof.
  intros s.
  assert (Hrex : already_favorite rex (favorites (sess s)))
    by (exists (VInt 101), [VInt 101]; repeat split).
  assert (Htom : not_favorite tom (favorites (sess s)))
    by (exists (VInt 202), [VInt 101]; repeat split).
  split.
  - intros h.
    pose proof (favorites_idempotent h s rex "search" "tab1") as (Hcard & Hdetails & _).
    split.
    + exact (Hcard Hrex).
    + exact (Hdetails Hrex (VInt 101) eq_refl).
  - intros h.
    pose proof (favorites_idempotent h s tom "favorites" "tab2") as (_ & _ & Hrem & Hbtn).
    split; [exact (proj1 (Hrem Htom (VStr "Rex") eq_refl))|].
    exact (Hbtn Htom (VStr "Rex") eq_refl (fun _ => eq_refl) (fun _ => eq_refl)).
Defined.

(** ** C5: compatibility statements *)

Section Compatibility.

Variables (pet : value) (env : dict).
Hypothesis Henv : py_getitem pet "environment" = Ok (VDict env).

Lemma environment_message_flag (flag yes no : string) (messages : list string) :
  environment_message pet flag yes no messages =
  Ok (messages ++ flag_statement (dict_get flag env) yes no).
Proof.
  unfold environment_message. rewrite Henv. cbn. unfold dict_has.
  destruct (dict_get flag env) as [v|]; cbn.
  - destruct v; cbn; rewrite ?app_nil_r; try reflexivity;
      match goal with |- context [if ?c then _ else _] => destruct c end;
      reflexivity.
  - rewrite app_nil_r. reflexivity.
Qed.

Lemma attribute_set_dict (attrs : dict) (k : string) :
  attribute_set (VDict attrs) k = Ok (attribute_true attrs k).
Proof.
  unfold attribute_set, attribute_true, and_then, truthy_of. cbn. unfold dict_has.
  destruct (dict_get k attrs); reflexivity.
Qed.

Lemma get_compatibility_message_dict (attrs : dict) :
  py_getitem pet "attributes" = Ok (VDict attrs) ->
  get_compatibility_message pet =
  Ok (environment_statements env ++ care_statements attrs).
Proof.
  intros Hattrs. unfold get_compatibility_message.
  rewrite !environment_message_flag. cbn -[flag_statement py_truthy attribute_set py_in].
  rewrite !environment_message_flag. cbn -[flag_statement py_truthy attribute_set py_in].
  rewrite !environment_message_flag. cbn -[flag_statement py_truthy attribute_set py_in].
  rewrite Hattrs. cbn -[flag_statement py_truthy attribute_set py_in].
  unfold environment_statements, care_statements.
  destruct attrs as [|kv attrs']; [cbn; rewrite app_nil_r, <- app_assoc; reflexivity|].
  set (attrs := kv :: attrs'). cbn [py_truthy].
  rewrite !attribute_set_dict. cbn [bind_res py_in].
  unfold dict_has, attribute_true.
  destruct (dict_get "special_needs" attrs) as [v1|]; [destruct (py_truthy v1)|];
    destruct (dict_get "house_trained" attrs) as [v2|]; [destruct (py_truthy v2)| |destruct (py_truthy v2)| |destruct (py_truthy v2)|];
    destruct (dict_get "shots_current" attrs) as [v3|]; try destruct (py_truthy v3);
    destruct (dict_get "spayed_neutered" attrs) as [v4|]; try destruct (py_truthy v4);
    cbn [bind_res]; rewrite <- ?app_assoc; cbn [app]; rewrite ?app_nil_r; reflexivity.
Qed.

Lemma get_compatibility_message_none (attrs : value) :
  py_getitem pet "attributes" = Ok attrs ->
  py_truthy attrs = false ->
  get_compatibility_message pet = Ok (environment_statements env).
Proof.
  intros Hattrs Hfalse. unfold get_compatibility_message.
  rewrite !environment_message_flag. cbn -[flag_statement py_truthy].
  rewrite !environment_message_flag. cbn -[flag_statement py_truthy].
  rewrite !environment_message_flag. cbn -[flag_statement py_truthy].
  rewrite Hattrs. cbn -[flag_statement py_truthy]. rewrite Hfalse.
  unfold environment_statements. rewrite <- app_assoc. reflexivity.
Qed.

End Compatibility.

Section Occurrences.

Lemma flag_statement_in (flag : option value) (yes no m : string) :
  In m (flag_statement flag yes no) -> m = yes \/ m = no.
Proof.
  unfold flag_statement. destruct flag as [v|]; [|contradiction].
  destruct v; cbn; try contradiction;
    match goal with |- context [if ?c then _ else _] => destruct c end;
    cbn; intuition congruence.
Qed.

Lemma care_statements_in (attrs : dict) (m : string) :
  In m (care_statements attrs) ->
  In m ["⚠️ Has special needs"; "✅ House-trained"; "❌ Not house-trained";
        "✅ Vaccinations up to date"; "✅ Spayed/neutered"].
Proof.
  unfold care_statements. rewrite !in_app_iff.
  destruct (attribute_true attrs "special_needs");
    destruct (dict_get "house_trained" attrs) as [v|]; try destruct (py_truthy v);
    destruct (attribute_true attrs "shots_current");
    destruct (attribute_true attrs "spayed_neutered");
    cbn; intuition auto.
Qed.

Lemma occurrences_app (m : string) (l1 l2 : list string) :
  occurrences m (l1 ++ l2) = (occurrences m l1 + occurrences m l2)%nat.
Proof. apply count_occ_app. Qed.

Lemma occurrences_absent (m : string) (l : list string) :
  ~ In m l -> occurrences m l = 0%nat.
Proof. intros H. apply count_occ_not_In. exact H. Qed.

End Occurrences.

(** C5.  For a record whose [environment] is an object, the messages
    are the statements for children, dogs and cats, in this order,
    followed (when [attributes] is an object) by those for special needs,
    house training, vaccination and spay/neuter, in this order.  A flag
    that is null or absent gives no statement, [true] gives the positive
    one and [false] the negative one.  With [dogs = false] and
    [cats = null] the messages hold the negative dogs statement once, the
    positive one never, and no cats statement. *)
Theorem compatibility_messages (pet : value) (env : dict) :
  py_getitem pet "environment" = Ok (VDict env) ->
  (forall attrs, py_getitem pet "attributes" = Ok (VDict attrs) ->
     get_compatibility_message pet =
     Ok (environment_statements env ++ care_statements attrs)) /\
  (forall attrs, py_getitem pet "attributes" = Ok attrs ->
     py_truthy attrs = false ->
     get_compatibility_message pet = Ok (environment_statements env)) /\
  (forall yes no,
     flag_statement None yes no = [] /\
     flag_statement (Some VNone) yes no = [] /\
     flag_statement (Some (VBool true)) yes no = [yes] /\
     flag_statement (Some (VBool false)) yes no = [no]) /\
  (dict_get "dogs" env = Some (VBool false) ->
   dict_get "cats" env = Some VNone ->
   forall attrs, py_getitem pet "attributes" = Ok (VDict attrs) ->
   exists messages,
     get_compatibility_message pet = Ok messages /\
     occurrences "❌ Not recommended for homes with dogs" messages = 1%nat /\
     occurrences "✅ Good with dogs" messages = 0%nat /\
     occurrences "✅ Good with cats" messages = 0%nat /\
     occurrences "❌ Not recommended for homes with cats" messages = 0%nat).
Proof.
  intros Henv. split; [|split; [|split]].
  - intros attrs Hattrs. apply (get_compatibility_message_dict pet env Henv attrs Hattrs).
  - intros attrs Hattrs Hfalse.
    apply (get_compatibility_message_none pet env Henv attrs Hattrs Hfalse).
  - intros yes no. repeat split.
  - intros Hdogs Hcats attrs Hattrs. eexists. split.
    + apply (get_compatibility_message_dict pet env Henv attrs Hattrs).
    + unfold environment_statements. rewrite Hdogs, Hcats.
      cbn [flag_statement py_truthy].
      assert (Hchildren : forall m,
                 m <> "✅ Good with children" ->
                 m <> "❌ Not recommended for homes with children" ->
                 occurrences m
                   (flag_statement (dict_get "children" env)
                      "✅ Good with children"
                      "❌ Not recommended for homes with children") = 0%nat).
      { intros m H1 H2. apply occurrences_absent. intros Hin.
        apply flag_statement_in in Hin. destruct Hin; contradiction. }
      assert (Hcare : forall m,
                 ~ In m ["⚠️ Has special needs"; "✅ House-trained";
                         "❌ Not house-trained"; "✅ Vaccinations up to date";
                         "✅ Spayed/neutered"] ->
                 occurrences m (care_statements attrs) = 0%nat).
      { intros m Hm. apply occurrences_absent. intros Hin.
        apply Hm, (care_statements_in attrs m Hin). }
      repeat split; rewrite !occurrences_app;
        rewrite Hchildren by discriminate;
        rewrite Hcare by (cbn; intuition discriminate);
        reflexivity.
Qed.

(** Rex: good with children, not with dogs, unknown with cats. *)
Lemma compatibility_messages_witness :
  get_compatibility_message rex =
  Ok ["✅ Good with children"; "❌ Not recommended for homes with dogs";
      "❌ Not house-trained"; "✅ Vaccinations up to date"; "✅ Spayed/neutered"] /\
  exists messages,
    get_compatibility_message rex = Ok messages /\
    occurrences "❌ Not recommended for homes with dogs" messages = 1%nat /\
    occurrences "✅ Good with dogs" messages = 0%nat /\
    occurrences "✅ Good with cats" messages = 0%nat /\
    occurrences "❌ Not recommended for homes with cats" messages = 0%nat.
Proof.
  split; [reflexivity|].
  exact (proj2 (proj2 (proj2
           (compatibility_messages rex
              [("children", VBool true); ("dogs", VBool false); ("cats", VNone)]
              eq_refl)))
           eq_refl eq_refl
           [("spayed_neutered", VBool true); ("house_trained", VBool false);
            ("declawed", VNone); ("special_needs", VBool false);
            ("shots_current", VBool true)]
           eq_refl).
Defined.

(** ** C8: description budgets *)

Section Descriptions.






End Descriptions.



(** ** C9: selecting a record and going back *)

Section Selection.

Variable h : host.






End Selection.

(** ** C6: a search that matches nothing *)

Section EmptySearch.

(** Whatever else the answer holds, an empty [animals] list is stored
    like any other. *)
Lemma store_results_empty (d : dict) (h : host) (s : state) :
  dict_get "animals" d = Some (VList []) ->
  run (store_results (VDict d)) h s =
  (Ok tt,
   with_out [StSuccess [Lit "Found "; Fmt (VInt 0); Lit " pets!"]]
     (with_sess (fun ss => set_page 1 (set_search_results (VDict d) ss)) s)).
Proof.
  intros Hd. unfold run, store_results, bind, eval, has_animals, and_then.
  cbn. unfold dict_has. rewrite Hd.
  destruct d as [|kv d']; [discriminate Hd|]. reflexivity.
Qed.

End EmptySearch.

(** C6, on the code.  The search of the example is submitted and
    upstream answers with an empty [animals] list: the answer becomes
    the stored result set, the page is 1, the run announces "Found 0
    pets!" and goes on to the results heading; the message "No pets
    found with those criteria" is not shown. *)
Theorem empty_search_result_is_stored :
  let h := sample_host true (inr no_animals) nothing_pressed dog_search in
  let after := run main h (start initial_session) in
  fst after = Ok tt /\
  search_results (sess (snd after)) = no_animals /\
  page (sess (snd after)) = 1 /\
  out (snd after) =
  [Markdown [Lit "<h1 class='main-header'>🐾 PetMatch</h1>"];
   Markdown [Lit "<p class='sub-header'>Find your perfect pet companion</p>"];
   StSuccess [Lit "Found "; Fmt (VInt 0); Lit " pets!"];
   Markdown [Lit "### Search Results"];
   Markdown [Lit "### Your Favorite Pets"];
   StInfo [Lit "You haven't added any pets to your favorites yet. Start searching to find your perfect match!"];
   Markdown [Lit "### About PetMatch"]].
Proof. cbv zeta. repeat split. Qed.

(** ** C7: records with null fields *)

Section NullFields.

Variable pet : value.

(** Line 325 takes the primary breed as it is; a null one meets [+=]. *)
Lemma details_lines_null_primary (secondary : value) :
  py_path pet ["breeds"; "primary"] = Ok VNone ->
  py_path pet ["breeds"; "secondary"] = Ok secondary ->
  py_truthy secondary = true ->
  details_lines pet = Raise TypeError.
Proof.
  intros Hp Hs Ht. unfold details_lines, breed_suffixes.
  rewrite Hp. cbn [bind_res]. rewrite Hs. cbn [bind_res]. rewrite Ht.
  reflexivity.
Qed.

(** The same with no secondary breed but the mixed flag set. *)
Lemma details_lines_null_primary_mixed (secondary mixed : value) :
  py_path pet ["breeds"; "primary"] = Ok VNone ->
  py_path pet ["breeds"; "secondary"] = Ok secondary ->
  py_truthy secondary = false ->
  py_path pet ["breeds"; "mixed"] = Ok mixed ->
  py_truthy mixed = true ->
  details_lines pet = Raise TypeError.
Proof.
  intros Hp Hs Ht Hm Hmt. unfold details_lines, breed_suffixes.
  rewrite Hp. cbn [bind_res]. rewrite Hs. cbn [bind_res]. rewrite Ht.
  cbn [bind_res]. rewrite Hm. cbn [bind_res]. rewrite Hmt. reflexivity.
Qed.

(** Line 426 tests it first: the card shows no breed line. *)
Lemma card_breed_null_primary :
  py_path pet ["breeds"; "primary"] = Ok VNone ->
  card_breed pet = (Ok tt, []).
Proof.
  intros Hp. unfold card_breed, bind_R, eval_R. rewrite Hp. reflexivity.
Qed.

End NullFields.

(** C7, on the code.  A record as upstream sends them, with a null
    primary breed and the secondary breed "Poodle": its card renders to
    the end (without a breed line), while its detail view raises
    [TypeError] after the "### Details" heading, and the whole run of
    [main] with this record selected ends in that exception. *)
Theorem detail_view_raises_on_null_primary_breed :
  let pet := sample_pet (VInt 101) VNone (VStr "A friendly dog.") in
  let h := sample_host true (inr (VDict [("animal", pet)])) nothing_pressed blank_form in
  let s := start (set_selected_pet (VInt 101) initial_session) in
  py_path pet ["breeds"; "primary"] = Ok VNone /\
  py_path pet ["breeds"; "secondary"] = Ok (VStr "Poodle") /\
  fst (card_body pet) = Ok tt /\
  details_lines pet = Raise TypeError /\
  fst (details_body pet) = Raise TypeError /\
  fst (run (display_pet_details (VInt 101) "search" "tab1") h s) = Raise TypeError /\
  fst (run main h s) = Raise TypeError /\
  is_error (fst (run main h s)) = true.
Proof. cbv zeta. repeat split. Qed.

(** ** Further properties: credential manager and directory client *)

Section TokenResult.

Variable h : host.

(** What a call can end in: the cached token, [None], or a [KeyError] or
    [TypeError] from a malformed token body. *)
Lemma refresh_token_result (s : state) :
  match run refresh_token h s with
  | (Ok v, s') => v = VNone \/ v = access_token (sess s')
  | (Raise e, _) => e = KeyError \/ e = TypeError
  end.
Proof.
  unfold run, refresh_token, bind.
  change (credential "PETFINDER_API_KEY" h s)
    with (run (credential "PETFINDER_API_KEY") h s).
  rewrite credential_run.
  change (credential "PETFINDER_API_SECRET" h s)
    with (run (credential "PETFINDER_API_SECRET") h s).
  rewrite credential_run.
  destruct (negb (py_truthy (configured h "PETFINDER_API_KEY"))
            || negb (py_truthy (configured h "PETFINDER_API_SECRET"))); cbn;
    [left; reflexivity|].
  unfold except_request, bind, http_exchange.
  destruct (http h (List.length (sent s)) _) as [msg|body]; cbn; [left; reflexivity|].
  unfold eval, py_getitem.
  destruct body as [| | | | |d]; cbn; auto.
  destruct (dict_get "access_token" d) as [tok|]; cbn; auto.
  destruct (dict_get "expires_in" d) as [v|]; cbn; auto.
  destruct v; cbn; auto.
Qed.

Lemma get_access_token_result (s : state) :
  match run get_access_token h s with
  | (Ok v, s') => v = VNone \/ v = access_token (sess s')
  | (Raise e, _) => e = KeyError \/ e = TypeError
  end.
Proof.
  destruct (token_fresh h s) eqn:Hf.
  - rewrite (get_access_token_fresh h s Hf). right. reflexivity.
  - rewrite (get_access_token_stale h s Hf). apply refresh_token_result.
Qed.

End TokenResult.

(** X1.  The credential manager and the four read operations change at
    most the cached token and its expiry: the stored results, the
    selection, the page and the favorites are what they were, whatever
    upstream answers. *)
Theorem network_calls_keep_the_view (h : host) (s : state) :
  same_view (sess (snd (run get_access_token h s))) (sess s) /\
  (forall params, same_view (sess (snd (run (search_pets params) h s))) (sess s)) /\
  (forall pet_id, same_view (sess (snd (run (get_pet_details pet_id) h s))) (sess s)) /\
  (forall animal_type, same_view (sess (snd (run (get_breeds animal_type) h s))) (sess s)) /\
  (forall location, same_view (sess (snd (run (get_organizations location) h s))) (sess s)).
Proof.
  split; [apply keeps_view_get_access_token|].
  split; [intros params; apply keeps_view_search_pets|].
  split; [intros pet_id; apply keeps_view_get_pet_details|].
  split.
  - intros animal_type. revert h s. change (keeps_view (get_breeds animal_type)).
    unfold get_breeds. pose proof keeps_view_get_access_token. keeps_view_steps.
  - intros location. revert h s. change (keeps_view (get_organizations location)).
    unfold get_organizations. pose proof keeps_view_get_access_token. keeps_view_steps.
Qed.


(** X3.  Two calls in a row: when the first returns a usable token and
    the clock at the second call is still before the stored expiry, the
    second call returns the same token, sends nothing and leaves the
    session alone. *)
Theorem second_call_is_served_from_the_cache (h : host) (s s1 : state) (tok : value) :
  run get_access_token h s = (Ok tok, s1) ->
  py_truthy tok = true ->
  clock h (ticks s1) < token_expires (sess s1) ->
  run get_access_token h s1 = (Ok tok, tick s1) /\
  sent (snd (run get_access_token h s1)) = sent s1 /\
  sess (snd (run get_access_token h s1)) = sess s1.
Proof.
  intros Hfirst Htok Hclock.
  pose proof (get_access_token_result h s) as Hres. rewrite Hfirst in Hres.
  destruct Hres as [-> | Hcached]; [discriminate Htok|].
  assert (Hfresh : token_fresh h s1 = true).
  { unfold token_fresh. rewrite <- Hcached, Htok. apply Z.ltb_lt in Hclock.
    rewrite Hclock. reflexivity. }
  rewrite (get_access_token_fresh h s1 Hfresh). rewrite <- Hcached. auto.
Qed.

Lemma second_call_is_served_from_the_cache_witness :
  let h := sample_host true (inl "unused") nothing_pressed blank_form in
  let s := start (session_with_token 100) in
  let s1 := snd (run get_access_token h s) in
  sent s1 = [the_request h] /\
  run get_access_token h s1 = (Ok (VStr "fresh-token"), tick s1) /\
  sent (snd (run get_access_token h s1)) = [the_request h].
Proof.
  intros h s s1. split; [reflexivity|].
  pose proof (second_call_is_served_from_the_cache h s s1 (VStr "fresh-token")
                eq_refl eq_refl eq_refl) as (Hrun & Hsent & _).
  split; [exact Hrun | exact Hsent].
Defined.

Section DirectoryClient.

Variable h : host.

Lemma breed_names_spec (items names : list value) :
  breed_names items = Ok names <->
  Forall2 (fun item name => py_getitem item "name" = Ok name) items names.
Proof.
  revert names. induction items as [|item r IH]; intros names; cbn.
  - split.
    + intros [= <-]. constructor.
    + intros H. inversion H. reflexivity.
  - split.
    + destruct (py_getitem item "name") as [name|e] eqn:Hname; cbn; [|discriminate].
      destruct (breed_names r) as [names'|e] eqn:Hr; cbn; [|discriminate].
      intros [= <-]. constructor; [exact Hname | apply IH; reflexivity].
    + intros H. inversion H as [|? name ? names' Hname Hrest]; subst.
      rewrite Hname. cbn. apply IH in Hrest. rewrite Hrest. reflexivity.
Qed.

Lemma organization_pairs_spec (items : list value) (pairs : list (value * value)) :
  organization_pairs items = Ok pairs <->
  Forall2 (fun item pair => py_getitem item "id" = Ok (fst pair) /\
                            py_getitem item "name" = Ok (snd pair)) items pairs.
Proof.
  revert pairs. induction items as [|item r IH]; intros pairs; cbn.
  - split.
    + intros [= <-]. constructor.
    + intros H. inversion H. reflexivity.
  - split.
    + destruct (py_getitem item "id") as [id|e] eqn:Hid; cbn; [|discriminate].
      destruct (py_getitem item "name") as [name|e] eqn:Hname; cbn; [|discriminate].
      destruct (organization_pairs r) as [pairs'|e] eqn:Hr; cbn; [|discriminate].
      intros [= <-]. constructor; [split; assumption | apply IH; reflexivity].
    + intros H. inversion H as [|? [id name] ? pairs' [Hid Hname] Hrest]; subst.
      cbn in Hid, Hname. rewrite Hid. cbn. rewrite Hname. cbn.
      apply IH in Hrest. rewrite Hrest. reflexivity.
Qed.

End DirectoryClient.

Ltac after_token Hget Htok :=
  unfold run in Hget |- *; unfold bind; rewrite Hget, Htok; cbn [negb];
  unfold except_request, bind, http_exchange.

(** X4.  [search_pets], once [get_access_token] has returned [tok]:
    without a usable token it returns [None] and sends nothing; with one
    it sends exactly one request, the search with these parameters under
    that token, and returns the body as it came, or [None] with a message
    when the request fails.  It never raises in these cases. *)
Theorem search_pets_outcomes (h : host) (s s1 : state) (tok params : value) :
  run get_access_token h s = (Ok tok, s1) ->
  let req := search_request tok params in
  (py_truthy tok = false ->
     run (search_pets params) h s = (Ok VNone, s1)) /\
  (py_truthy tok = true ->
   forall msg, http h (List.length (sent s1)) req = inl msg ->
     run (search_pets params) h s =
     (Ok VNone,
      with_out [StError [Lit "⚠️ Error searching pets: "; Lit msg]] (posted req s1))) /\
  (py_truthy tok = true ->
   forall body, http h (List.length (sent s1)) req = inr body ->
     run (search_pets params) h s = (Ok body, posted req s1)).
Proof.
  intros Hget req. unfold req, search_request. split; [|split].
  - intros Htok. unfold search_pets. after_token Hget Htok. reflexivity.
  - intros Htok msg Hhttp. unfold search_pets. after_token Hget Htok.
    rewrite Hhttp. reflexivity.
  - intros Htok body Hhttp. unfold search_pets. after_token Hget Htok.
    rewrite Hhttp. reflexivity.
Qed.

Lemma search_pets_outcomes_witness :
  let params := VDict (build_params dog_search) in
  let s := start (session_with_token 9000) in
  (let h := sample_host true (inr no_animals) nothing_pressed dog_search in
   run (search_pets params) h s =
   (Ok no_animals, posted (search_request (VStr "old-token") params) (tick s))) /\
  (let h := sample_host true (inl "504 Gateway Timeout") nothing_pressed dog_search in
   fst (run (search_pets params) h s) = Ok VNone) /\
  (let h := sample_host false (inr no_animals) nothing_pressed dog_search in
   run (search_pets params) h (start initial_session) =
   (Ok VNone,
    with_out [StError [Lit "⚠️ Petfinder API credentials are missing. Please set them in your environment variables or Streamlit secrets."]]
      (start initial_session))).
Proof.
  intros params s. split; [|split].
  - intros h.
    exact (proj2 (proj2 (search_pets_outcomes h s (tick s) (VStr "old-token") params
                           eq_refl)) eq_refl no_animals eq_refl).
  - intros h.
    rewrite (proj1 (proj2 (search_pets_outcomes h s (tick s) (VStr "old-token") params
                             eq_refl)) eq_refl "504 Gateway Timeout" eq_refl).
    reflexivity.
  - intros h.
    exact (proj1 (search_pets_outcomes h (start initial_session) _ VNone params
                    eq_refl) eq_refl).
Defined.

(** X5.  [get_pet_details], once [get_access_token] has returned [tok]:
    without a usable token it returns [None] and sends nothing; with one
    it sends exactly one request for that id; a failed request gives
    [None] with a message, a body with the key [animal] gives that
    record, and a body without it raises (the [KeyError] is not caught). *)
Theorem get_pet_details_outcomes (h : host) (s s1 : state) (tok pet_id : value) :
  run get_access_token h s = (Ok tok, s1) ->
  let req := details_request tok pet_id in
  (py_truthy tok = false ->
     run (get_pet_details pet_id) h s = (Ok VNone, s1)) /\
  (py_truthy tok = true ->
   forall msg, http h (List.length (sent s1)) req = inl msg ->
     run (get_pet_details pet_id) h s =
     (Ok VNone,
      with_out [StError [Lit "⚠️ Error getting pet details: "; Lit msg]] (posted req s1))) /\
  (py_truthy tok = true ->
   forall body, http h (List.length (sent s1)) req = inr body ->
     (forall pet, py_getitem body "animal" = Ok pet ->
        run (get_pet_details pet_id) h s = (Ok pet, posted req s1)) /\
     (forall d, body = VDict d -> dict_get "animal" d = None ->
        run (get_pet_details pet_id) h s = (Raise KeyError, posted req s1))).
Proof.
  intros Hget req. unfold req, details_request. split; [|split].
  - intros Htok. unfold get_pet_details. after_token Hget Htok. reflexivity.
  - intros Htok msg Hhttp. unfold get_pet_details. after_token Hget Htok.
    rewrite Hhttp. reflexivity.
  - intros Htok body Hhttp. split.
    + intros pet Hpet. unfold get_pet_details. after_token Hget Htok.
      rewrite Hhttp. unfold eval. rewrite Hpet. reflexivity.
    + intros d -> Hd. unfold get_pet_details. after_token Hget Htok.
      rewrite Hhttp. unfold eval. cbn. rewrite Hd. reflexivity.
Qed.

Lemma get_pet_details_outcomes_witness :
  let s := start (session_with_token 9000) in
  let req := details_request (VStr "old-token") (VInt 101) in
  (let h := sample_host true (inr (VDict [("animal", rex)])) nothing_pressed blank_form in
   run (get_pet_details (VInt 101)) h s = (Ok rex, posted req (tick s))) /\
  (let h := sample_host true (inr (VDict [("status", VInt 404)])) nothing_pressed blank_form in
   run (get_pet_details (VInt 101)) h s = (Raise KeyError, posted req (tick s))) /\
  (let h := sample_host true (inl "404 Not Found") nothing_pressed blank_form in
   fst (run (get_pet_details (VInt 101)) h s) = Ok VNone) /\
  (let h := sample_host false (inl "unused") nothing_pressed blank_form in
   fst (run (get_pet_details (VInt 101)) h (start initial_session)) = Ok VNone).
Proof.
  intros s req. split; [|split; [|split]].
  - intros h.
    exact (proj1 (proj2 (proj2 (get_pet_details_outcomes h s (tick s)
                                  (VStr "old-token") (VInt 101) eq_refl))
                    eq_refl _ eq_refl) rex eq_refl).
  - intros h.
    exact (proj2 (proj2 (proj2 (get_pet_details_outcomes h s (tick s)
                                  (VStr "old-token") (VInt 101) eq_refl))
                    eq_refl _ eq_refl) _ eq_refl eq_refl).
  - intros h.
    rewrite (proj1 (proj2 (get_pet_details_outcomes h s (tick s)
                             (VStr "old-token") (VInt 101) eq_refl))
               eq_refl "404 Not Found" eq_refl).
    reflexivity.
  - intros h.
    rewrite (proj1 (get_pet_details_outcomes h (start initial_session) _ VNone
                      (VInt 101) eq_refl) eq_refl).
    reflexivity.
Defined.

(** X6.  When the record cannot be fetched ([get_pet_details] returns
    [None] or another falsy value), the detail view shows the message
    "Unable to retrieve pet details" and nothing else: no back button and
    no favorites button.  The selection stays as it was, so the next run
    opens the detail view again. *)
Theorem detail_view_without_record (h : host) (s s1 : state) (pet_id pet : value)
    (context tab_id : string) :
  run (get_pet_details pet_id) h s = (Ok pet, s1) ->
  py_truthy pet = false ->
  run (display_pet_details pet_id context tab_id) h s =
  (Ok tt,
   with_out [StError [Lit "Unable to retrieve pet details. Please try again."]] s1) /\
  selected_pet (sess (snd (run (display_pet_details pet_id context tab_id) h s))) =
  selected_pet (sess s).
Proof.
  intros Hget Hpet.
  assert (Hrun : run (display_pet_details pet_id context tab_id) h s =
                 (Ok tt,
                  with_out [StError [Lit "Unable to retrieve pet details. Please try again."]] s1)).
  { unfold run in *. unfold display_pet_details, bind. rewrite Hget, Hpet. reflexivity. }
  split; [exact Hrun|]. rewrite Hrun.
  pose proof (keeps_view_get_pet_details pet_id h s) as Hv. rewrite Hget in Hv.
  destruct Hv as (_ & Hsel & _). exact Hsel.
Qed.

Lemma detail_view_without_record_witness :
  let h := sample_host true (inl "404 Not Found") (pressed "← Back to Search Results") blank_form in
  let s := start (set_selected_pet (VInt 101) (session_with_token 9000)) in
  let after := run (display_pet_details (VInt 101) "search" "tab1") h s in
  fst after = Ok tt /\
  out (snd after) =
  [StError [Lit "⚠️ Error getting pet details: "; Lit "404 Not Found"];
   StError [Lit "Unable to retrieve pet details. Please try again."]] /\
  selected_pet (sess (snd after)) = VInt 101.
Proof.
  intros h s after. unfold after.
  destruct (detail_view_without_record h s _ (VInt 101) VNone "search" "tab1"
              eq_refl eq_refl) as [Hrun Hsel].
  rewrite Hrun. repeat split.
Defined.

(** X7.  [get_breeds], once [get_access_token] has returned [tok]:
    without a usable token it returns the empty list and sends nothing;
    a failed request gives the empty list with a message; and when the
    body holds a list under [breeds], the result is the [name] of each
    entry, in upstream's order. *)
Theorem get_breeds_outcomes (h : host) (s s1 : state) (tok animal_type : value) :
  run get_access_token h s = (Ok tok, s1) ->
  let req := breeds_request tok animal_type in
  (py_truthy tok = false ->
     run (get_breeds animal_type) h s = (Ok [], s1)) /\
  (py_truthy tok = true ->
   forall msg, http h (List.length (sent s1)) req = inl msg ->
     run (get_breeds animal_type) h s =
     (Ok [],
      with_out [StError [Lit "⚠️ Error getting breeds: "; Lit msg]] (posted req s1))) /\
  (py_truthy tok = true ->
   forall body items names,
     http h (List.length (sent s1)) req = inr body ->
     py_getitem body "breeds" = Ok (VList items) ->
     Forall2 (fun item name => py_getitem item "name" = Ok name) items names ->
     run (get_breeds animal_type) h s = (Ok names, posted req s1)).
Proof.
  intros Hget req. unfold req, breeds_request. split; [|split].
  - intros Htok. unfold get_breeds. after_token Hget Htok. reflexivity.
  - intros Htok msg Hhttp. unfold get_breeds. after_token Hget Htok.
    rewrite Hhttp. reflexivity.
  - intros Htok body items names Hhttp Hbreeds Hnames.
    apply breed_names_spec in Hnames.
    unfold get_breeds. after_token Hget Htok.
    rewrite Hhttp. unfold eval. rewrite Hbreeds. cbn. rewrite Hnames. reflexivity.
Qed.

Lemma get_breeds_outcomes_witness :
  let s := start (session_with_token 9000) in
  let body := VDict [("breeds", VList [VDict [("name", VStr "Affenpinscher")];
                                        VDict [("name", VStr "Akita")]])] in
  (let h := sample_host true (inr body) nothing_pressed blank_form in
   fst (run (get_breeds (VStr "dog")) h s) = Ok [VStr "Affenpinscher"; VStr "Akita"]) /\
  (let h := sample_host true (inl "500 Server Error") nothing_pressed blank_form in
   fst (run (get_breeds (VStr "dog")) h s) = Ok []) /\
  (let h := sample_host false (inr body) nothing_pressed blank_form in
   fst (run (get_breeds (VStr "dog")) h (start initial_session)) = Ok []).
Proof.
  intros s body. split; [|split].
  - intros h.
    rewrite (proj2 (proj2 (get_breeds_outcomes h s (tick s) (VStr "old-token")
                             (VStr "dog") eq_refl))
               eq_refl body _ [VStr "Affenpinscher"; VStr "Akita"] eq_refl eq_refl
               ltac:(repeat constructor)).
    reflexivity.
  - intros h.
    rewrite (proj1 (proj2 (get_breeds_outcomes h s (tick s) (VStr "old-token")
                             (VStr "dog") eq_refl))
               eq_refl "500 Server Error" eq_refl).
    reflexivity.
  - intros h.
    rewrite (proj1 (get_breeds_outcomes h (start initial_session) _ VNone
                      (VStr "dog") eq_refl) eq_refl).
    reflexivity.
Defined.

(** X8.  [get_organizations], once [get_access_token] has returned
    [tok]: without a usable token it returns the empty list and sends
    nothing; otherwise it sends one request with the location, the
    distance 100 and the limit 100; a failed request gives the empty list
    with a message; and when the body holds a list under
    [organizations], the result is the pair of [id] and [name] of each
    entry, in upstream's order. *)
Theorem get_organizations_outcomes (h : host) (s s1 : state) (tok location : value) :
  run get_access_token h s = (Ok tok, s1) ->
  let req := organizations_request tok location in
  (py_truthy tok = false ->
     run (get_organizations location) h s = (Ok [], s1)) /\
  (py_truthy tok = true ->
     sent (snd (run (get_organizations location) h s)) = sent s1 ++ [req]) /\
  (py_truthy tok = true ->
   forall msg, http h (List.length (sent s1)) req = inl msg ->
     run (get_organizations location) h s =
     (Ok [],
      with_out [StError [Lit "⚠️ Error getting organizations: "; Lit msg]]
        (posted req s1))) /\
  (py_truthy tok = true ->
   forall body items pairs,
     http h (List.length (sent s1)) req = inr body ->
     py_getitem body "organizations" = Ok (VList items) ->
     Forall2 (fun item pair => py_getitem item "id" = Ok (fst pair) /\
                               py_getitem item "name" = Ok (snd pair)) items pairs ->
     run (get_organizations location) h s = (Ok pairs, posted req s1)).
Proof.
  intros Hget req. unfold req, organizations_request. split; [|split; [|split]].
  - intros Htok. unfold get_organizations. after_token Hget Htok. reflexivity.
  - intros Htok. unfold get_organizations. after_token Hget Htok.
    destruct (http h (List.length (sent s1)) _) as [msg|body]; [reflexivity|].
    unfold eval.
    destruct (bind_res (py_getitem body "organizations") _) as [pairs|e];
      [reflexivity | destruct e; reflexivity].
  - intros Htok msg Hhttp. unfold get_organizations. after_token Hget Htok.
    rewrite Hhttp. reflexivity.
  - intros Htok body items pairs Hhttp Horgs Hpairs.
    apply organization_pairs_spec in Hpairs.
    unfold get_organizations. after_token Hget Htok.
    rewrite Hhttp. unfold eval. rewrite Horgs. cbn. rewrite Hpairs. reflexivity.
Qed.

Lemma get_organizations_outcomes_witness :
  let s := start (session_with_token 9000) in
  let body := VDict [("organizations",
                      VList [VDict [("id", VStr "NY835"); ("name", VStr "City Shelter")];
                             VDict [("id", VStr "NJ12"); ("name", VStr "Paws")]])] in
  (let h := sample_host true (inr body) nothing_pressed blank_form in
   fst (run (get_organizations (VStr "10001")) h s) =
   Ok [(VStr "NY835", VStr "City Shelter"); (VStr "NJ12", VStr "Paws")] /\
   sent (snd (run (get_organizations (VStr "10001")) h s)) =
   [organizations_request (VStr "old-token") (VStr "10001")]) /\
  (let h := sample_host true (inl "500 Server Error") nothing_pressed blank_form in
   fst (run (get_organizations (VStr "10001")) h s) = Ok []) /\
  (let h := sample_host false (inr body) nothing_pressed blank_form in
   fst (run (get_organizations (VStr "10001")) h (start initial_session)) = Ok []).
Proof.
  intros s body. split; [|split].
  - intros h.
    pose proof (get_organizations_outcomes h s (tick s) (VStr "old-token")
                  (VStr "10001") eq_refl) as (_ & Hsent & _ & Hok).
    split; [|exact (Hsent eq_refl)].
    rewrite (Hok eq_refl body _
               [(VStr "NY835", VStr "City Shelter"); (VStr "NJ12", VStr "Paws")]
               eq_refl eq_refl ltac:(repeat constructor)).
    reflexivity.
  - intros h.
    rewrite (proj1 (proj2 (proj2 (get_organizations_outcomes h s (tick s)
                                    (VStr "old-token") (VStr "10001") eq_refl)))
               eq_refl "500 Server Error" eq_refl).
    reflexivity.
  - intros h.
    rewrite (proj1 (get_organizations_outcomes h (start initial_session) _ VNone
                      (VStr "10001") eq_refl) eq_refl).
    reflexivity.
Defined.

(** ** Further properties: invariants of a run *)

Section Guards.

Variables (Hh : host -> Prop) (I E : state -> Prop).
Hypothesis I_E : forall s, I s -> E s.
Hypothesis I_out : forall s o, I s -> I (with_out o s).

Lemma guards_bind {A B} (c : M A) (k : A -> M B) :
  guards Hh I E c -> (forall a, guards Hh I E (k a)) -> guards Hh I E (bind c k).
Proof.
  intros Hc Hk h s Hhost Hs. unfold run, bind.
  specialize (Hc h s Hhost Hs). unfold run in Hc.
  destruct (c h s) as [[a|e] s1]; [|exact Hc].
  apply (Hk a h s1 Hhost Hc).
Qed.

Lemma guards_ret {A} (a : A) : guards Hh I E (ret a).
Proof. intros h s _ Hs. exact Hs. Qed.

Lemma guards_eval {A} (r : res A) : guards Hh I E (eval r).
Proof. intros h s _ Hs. unfold run, eval. destruct r; auto. Qed.

Lemma guards_render {A} (c : R A) : guards Hh I E (render c).
Proof.
  intros h s _ Hs. unfold run, render. destruct c as [[a|e] o]; cbn; auto.
Qed.

Lemma guards_st_button (label : string) (key : text) :
  guards Hh I E (st_button label key).
Proof. intros h s _ Hs. unfold run, st_button. auto. Qed.

Lemma guards_get_session : guards Hh I E get_session.
Proof. intros h s _ Hs. exact Hs. Qed.

Lemma guards_get_form : guards Hh I E get_form.
Proof. intros h s _ Hs. exact Hs. Qed.

Lemma guards_raise {A} (e : exn) : guards Hh I E (@raise A e).
Proof. intros h s _ Hs. apply I_E, Hs. Qed.

Lemma guards_modify_session (f : session -> session) :
  (forall s, I s -> I (with_sess f s)) -> guards Hh I E (modify_session f).
Proof. intros Hf h s _ Hs. apply Hf, Hs. Qed.

Lemma guards_if {A} (b : bool) (c1 c2 : M A) :
  guards Hh I E c1 -> guards Hh I E c2 -> guards Hh I E (if b then c1 else c2).
Proof. destruct b; auto. Qed.

Lemma guards_for_each {A} (xs : list A) (body : A -> M unit) :
  (forall x, guards Hh I E (body x)) -> guards Hh I E (for_each xs body).
Proof.
  intros Hbody. induction xs as [|x r IH]; cbn.
  - apply guards_ret.
  - apply guards_bind; [apply Hbody | intros _; exact IH].
Qed.

Lemma guards_except_request {A} (c : M A) (handler : string -> M A) :
  guards Hh I I c -> (forall msg, guards Hh I E (handler msg)) ->
  guards Hh I E (except_request c handler).
Proof.
  intros Hc Hhandler h s Hhost Hs. unfold run, except_request.
  specialize (Hc h s Hhost Hs). unfold run in Hc.
  destruct (c h s) as [[a|e] s1]; [exact Hc|].
  destruct e; try (apply I_E; exact Hc).
  apply (Hhandler msg h s1 Hhost Hc).
Qed.

(** A predicate on the part of the session that the network functions
    leave alone is kept by them. *)
Lemma guards_of_keeps_view {A} (c : M A) :
  (forall s s', same_view (sess s') (sess s) -> I s -> I s') ->
  keeps_view c -> guards Hh I E c.
Proof.
  intros Hview Hc h s _ Hs. specialize (Hc h s).
  destruct (run c h s) as [[a|e] s1]; cbn in Hc; [|apply I_E]; apply (Hview s s1 Hc Hs).
Qed.

End Guards.

Lemma guards_st_slider (Hh : host -> Prop) (I E : state -> Prop) (lo hi v : Z) :
  (forall s, I s -> E s) -> guards Hh I E (st_slider lo hi v).
Proof.
  intros I_E h s _ Hs. unfold run, st_slider.
  destruct ((v <? lo) || (hi <? v)); auto.
Qed.

(** One step through a computation built from the parts above; [IE] and
    [Iout] are the two facts about the invariant. *)
Ltac guards_step IE Iout :=
  lazymatch goal with
  | |- guards _ _ _ (bind _ _) => apply (guards_bind _ _ _); [|intros ?]
  | |- guards _ _ _ (if _ then _ else _) => apply guards_if
  | |- guards _ _ _ (for_each _ _) => apply (guards_for_each _ _ _); intros ?
  | |- guards _ _ _ (ret _) => apply (guards_ret _ _ _)
  | |- guards _ _ _ (eval _) => apply (guards_eval _ _ _ IE)
  | |- guards _ _ _ (render _) => apply (guards_render _ _ _ IE Iout)
  | |- guards _ _ _ (st_button _ _) => apply (guards_st_button _ _ _ Iout)
  | |- guards _ _ _ get_session => apply (guards_get_session _ _ _)
  | |- guards _ _ _ get_form => apply (guards_get_form _ _ _)
  | |- guards _ _ _ st_rerun => apply (guards_raise _ _ _ IE)
  | |- guards _ _ _ (st_slider _ _ _) => apply (guards_st_slider _ _ _ _ _ _ IE)
  | |- guards _ _ _ _ => solve [auto]
  end.

(** ** Favorites keep distinct ids *)

Section FavoritesDistinct.

Lemma favorite_ids_snoc (favs ids : list value) (pet pid : value) :
  favorite_ids favs = Ok ids ->
  py_getitem pet "id" = Ok pid ->
  favorite_ids (favs ++ [pet]) = Ok (ids ++ [pid]).
Proof.
  revert ids. induction favs as [|p r IH]; intros ids Hids Hpid; cbn in *.
  - injection Hids as <-. rewrite Hpid. reflexivity.
  - destruct (py_getitem p "id") as [i|e]; cbn in *; [|discriminate].
    destruct (favorite_ids r) as [ids'|e]; cbn in *; [|discriminate].
    injection Hids as <-. rewrite (IH ids' eq_refl Hpid). reflexivity.
Qed.

Lemma distinct_ids_snoc (ids : list value) (pid : value) :
  distinct_ids ids = true ->
  py_list_contains pid ids = false ->
  distinct_ids (ids ++ [pid]) = true.
Proof.
  induction ids as [|x r IH]; cbn; intros Hd Hc; [reflexivity|].
  apply andb_prop in Hd as [Hx Hr].
  apply orb_false_elim in Hc as [Hxp Hrp].
  rewrite forallb_app, Hx. cbn. rewrite Hxp. cbn. apply (IH Hr Hrp).
Qed.

Lemma forallb_filter {A} (P f : A -> bool) (l : list A) :
  forallb P l = true -> forallb P (filter f l) = true.
Proof.
  induction l as [|x r IH]; cbn; [reflexivity|].
  intros [Hx Hr]%andb_prop. destruct (f x); cbn; [rewrite Hx|]; auto.
Qed.

Lemma distinct_ids_filter (f : value -> bool) (ids : list value) :
  distinct_ids ids = true -> distinct_ids (filter f ids) = true.
Proof.
  induction ids as [|x r IH]; cbn; [reflexivity|].
  intros [Hx Hr]%andb_prop. destruct (f x); cbn; [|auto].
  rewrite (forallb_filter _ f r Hx). cbn. auto.
Qed.

(** What the comprehension of lines 392 and 460 keeps. *)
Lemma without_id_spec (pet pid : value) (favs ids : list value) :
  py_getitem pet "id" = Ok pid ->
  favorite_ids favs = Ok ids ->
  exists kept,
    without_id pet favs = Ok kept /\
    favorite_ids kept = Ok (filter (fun i => negb (py_eq i pid)) ids).
Proof.
  intros Hpid. revert ids. induction favs as [|p r IH]; intros ids Hids; cbn in *.
  - injection Hids as <-. exists []. split; reflexivity.
  - destruct (py_getitem p "id") as [i|e] eqn:Hi; cbn in *; [|discriminate].
    destruct (favorite_ids r) as [ids'|e]; cbn in *; [|discriminate].
    injection Hids as <-. rewrite Hpid. cbn.
    destruct (IH ids' eq_refl) as (kept & Hkept & Hkids). rewrite Hkept. cbn.
    destruct (negb (py_eq i pid)).
    + exists (p :: kept). split; [reflexivity|]. cbn. rewrite Hi. cbn.
      rewrite Hkids. reflexivity.
    + exists kept. split; [reflexivity | exact Hkids].
Qed.

Lemma without_id_no_id (pet : value) (e : exn) (favs ids : list value) :
  py_getitem pet "id" = Raise e ->
  favorite_ids favs = Ok ids ->
  without_id pet favs = Ok [] \/ exists e', without_id pet favs = Raise e'.
Proof.
  intros Hpid Hids. destruct favs as [|p r]; cbn in *; [left; reflexivity|].
  destruct (py_getitem p "id") as [i|e0]; cbn in *; [|discriminate].
  rewrite Hpid. right. eexists. reflexivity.
Qed.

Lemma favorites_distinct_without (pet : value) (favs : list value) :
  favorites_distinct favs ->
  match without_id pet favs with
  | Ok kept => favorites_distinct kept
  | Raise _ => True
  end.
Proof.
  intros (ids & Hids & Hd).
  destruct (py_getitem pet "id") as [pid|e] eqn:Hpid.
  - destruct (without_id_spec pet pid favs ids Hpid Hids) as (kept & Hkept & Hkids).
    rewrite Hkept. eexists. split; [exact Hkids|]. apply distinct_ids_filter, Hd.
  - destruct (without_id_no_id pet e favs ids Hpid Hids) as [H | [e' H]]; rewrite H.
    + exists []. split; reflexivity.
    + exact I.
Qed.

Lemma favorites_distinct_snoc (pet pid : value) (favs ids : list value) :
  favorite_ids favs = Ok ids ->
  distinct_ids ids = true ->
  py_getitem pet "id" = Ok pid ->
  py_list_contains pid ids = false ->
  favorites_distinct (favs ++ [pet]).
Proof.
  intros Hids Hd Hpid Hc. exists (ids ++ [pid]). split.
  - apply (favorite_ids_snoc favs ids pet pid Hids Hpid).
  - apply (distinct_ids_snoc ids pid Hd Hc).
Qed.

End FavoritesDistinct.

Section FavoritesGuards.

Local Abbreviation guarded c := (guards any_host distinct_favorites distinct_favorites c).

Lemma distinct_favorites_out (s : state) (o : list ui_event) :
  distinct_favorites s -> distinct_favorites (with_out o s).
Proof. auto. Qed.

Lemma distinct_favorites_E (s : state) : distinct_favorites s -> distinct_favorites s.
Proof. auto. Qed.

Lemma distinct_favorites_view (s s' : state) :
  same_view (sess s') (sess s) -> distinct_favorites s -> distinct_favorites s'.
Proof.
  unfold distinct_favorites. intros (_ & _ & _ & Hf) Hs. rewrite Hf. exact Hs.
Qed.

Lemma guarded_remove_from_favorites (pet : value) :
  guarded (remove_from_favorites pet).
Proof.
  intros h s _ Hs. unfold run, remove_from_favorites, bind, get_session, eval.
  pose proof (favorites_distinct_without pet _ Hs) as Hkept.
  destruct (without_id pet (favorites (sess s))) as [kept|e]; cbn; [|exact Hs].
  destruct (py_getitem pet "name"); cbn; exact Hkept.
Qed.

Lemma guarded_card_buttons (pet : value) (is_favorite : bool) (context tab_id : string) :
  guarded (card_buttons pet is_favorite context tab_id).
Proof.
  intros h s Hhost Hs. unfold run, card_buttons, bind, eval.
  destruct (py_getitem pet "id") as [pid|e] eqn:Hpid; [|exact Hs].
  unfold st_button. cbn -[remove_from_favorites].
  destruct (clicked h "View Details" _); cbn -[remove_from_favorites]; [exact Hs|].
  destruct is_favorite; cbn -[remove_from_favorites].
  - destruct (clicked h "Remove from Favorites" _); [|exact Hs].
    apply (guarded_remove_from_favorites pet h _ Hhost).
    apply distinct_favorites_out, distinct_favorites_out, Hs.
  - destruct (clicked h "Add to Favorites" _); cbn; [|exact Hs].
    destruct Hs as (ids & Hids & Hd). rewrite Hids. cbn.
    destruct (py_list_contains pid ids) eqn:Hc; cbn.
    + exists ids. auto.
    + assert (Hnew : favorites_distinct (favorites (sess s) ++ [pet]))
        by apply (favorites_distinct_snoc pet pid _ ids Hids Hd Hpid Hc).
      destruct (py_getitem pet "name"); cbn; exact Hnew.
Qed.

Lemma guarded_details_favorite_buttons (pet pet_id : value) (context tab_id : string) :
  guarded (details_favorite_buttons pet pet_id context tab_id).
Proof.
  intros h s Hhost Hs. unfold run, details_favorite_buttons, bind, eval, get_session.
  destruct (py_getitem pet "id") as [pid|e] eqn:Hpid; [|exact Hs].
  cbn -[remove_from_favorites].
  pose proof Hs as (ids & Hids & Hd). rewrite Hids. cbn -[remove_from_favorites].
  unfold st_button.
  destruct (py_list_contains pid ids) eqn:Hc; cbn -[remove_from_favorites].
  - destruct (clicked h "Remove from Favorites" _); [|exact Hs].
    apply (guarded_remove_from_favorites pet h _ Hhost).
    apply distinct_favorites_out, Hs.
  - destruct (clicked h "Add to Favorites" _); cbn; [|exact Hs].
    assert (Hnew : favorites_distinct (favorites (sess s) ++ [pet]))
      by apply (favorites_distinct_snoc pet pid _ ids Hids Hd Hpid Hc).
    destruct (py_getitem pet "name"); cbn; exact Hnew.
Qed.

Ltac fav_step := guards_step distinct_favorites_E distinct_favorites_out.

Lemma guarded_display_pet_card (pet : value) (is_favorite : bool)
    (context tab_id : string) :
  guarded (display_pet_card pet is_favorite context tab_id).
Proof.
  unfold display_pet_card. fav_step; [fav_step | apply guarded_card_buttons].
Qed.

Lemma guarded_display_pet_details (pet_id : value) (context tab_id : string) :
  guarded (display_pet_details pet_id context tab_id).
Proof.
  unfold display_pet_details. fav_step.
  - apply (guards_of_keeps_view _ _ _ distinct_favorites_E);
      [apply distinct_favorites_view | apply keeps_view_get_pet_details].
  - repeat fav_step.
    + apply guards_modify_session. auto.
    + apply guarded_details_favorite_buttons.
Qed.

Lemma guarded_submit_search (f : form_input) : guarded (submit_search f).
Proof.
  unfold submit_search, store_results. fav_step.
  - apply (guards_of_keeps_view _ _ _ distinct_favorites_E);
      [apply distinct_favorites_view | apply keeps_view_search_pets].
  - repeat fav_step; apply guards_modify_session; auto.
Qed.

Lemma guarded_show_results : guarded show_results.
Proof.
  unfold show_results.
  repeat fav_step; try (apply guards_modify_session; auto).
  apply guarded_display_pet_card.
Qed.

Lemma guarded_main : guarded main.
Proof.
  unfold main, search_tab, search_form_and_results, favorites_tab, about_tab.
  pose proof guarded_show_results. pose proof guarded_submit_search.
  repeat fav_step; try apply guarded_display_pet_details.
  match goal with |- context [match ?l with [] => _ | _ :: _ => _ end] => destruct l end;
    repeat fav_step;
    [apply guarded_display_pet_details | apply guarded_display_pet_card].
Qed.

End FavoritesGuards.

Lemma guards_same (Hh : host -> Prop) (I : state -> Prop) {A} (c : M A)
    (h : host) (s : state) :
  guards Hh I I c -> Hh h -> I s -> I (snd (run c h s)).
Proof.
  intros Hc Hhost Hs. specialize (Hc h s Hhost Hs).
  destruct (run c h s) as [[a|e] s1]; exact Hc.
Qed.

(** X9.  The favorites never hold two records with the same id: the
    initial session has none, and a run of [main], of a card or of a
    detail view started with distinct ids ends with distinct ids,
    whatever is pressed, whatever upstream answers and whether or not the
    run ends in an exception. *)
Theorem favorites_never_hold_an_id_twice :
  distinct_favorites (start initial_session) /\
  forall (h : host) (s : state),
    distinct_favorites s ->
    distinct_favorites (snd (run main h s)) /\
    (forall pet is_favorite context tab_id,
       distinct_favorites
         (snd (run (display_pet_card pet is_favorite context tab_id) h s))) /\
    (forall pet_id context tab_id,
       distinct_favorites
         (snd (run (display_pet_details pet_id context tab_id) h s))).
Proof.
  split; [exists []; split; reflexivity|].
  intros h s Hs. split; [|split].
  - apply (guards_same any_host _ main h s guarded_main I Hs).
  - intros pet is_favorite context tab_id.
    apply (guards_same any_host _ _ h s
             (guarded_display_pet_card pet is_favorite context tab_id) I Hs).
  - intros pet_id context tab_id.
    apply (guards_same any_host _ _ h s
             (guarded_display_pet_details pet_id context tab_id) I Hs).
Qed.

(** Tom is added from his card next to Rex; adding Rex again changes
    nothing. *)
Lemma favorites_never_hold_an_id_twice_witness :
  let h := sample_host true (inl "unused") (pressed "Add to Favorites") blank_form in
  let s := start (set_favorites [rex] initial_session) in
  favorites (sess (snd (run (display_pet_card tom false "search" "tab1") h s))) = [rex; tom] /\
  distinct_favorites (snd (run (display_pet_card tom false "search" "tab1") h s)) /\
  distinct_favorites (snd (run (display_pet_card rex false "search" "tab1") h s)).
Proof.
  intros h s.
  assert (Hs : distinct_favorites s) by (exists [VInt 101]; split; reflexivity).
  pose proof (proj2 favorites_never_hold_an_id_twice h s Hs) as (_ & Hcard & _).
  split; [reflexivity|]. split; apply Hcard.
Defined.

Section Removal.

Lemma contains_after_filter (pid : value) (ids : list value) :
  py_list_contains pid (filter (fun i => negb (py_eq i pid)) ids) = false.
Proof.
  induction ids as [|x r IH]; cbn; [reflexivity|].
  destruct (py_eq x pid) eqn:Hx; cbn; [exact IH|].
  rewrite Hx. exact IH.
Qed.

Lemma without_id_snoc (pet pid : value) (favs ids : list value) :
  py_getitem pet "id" = Ok pid ->
  favorite_ids favs = Ok ids ->
  py_list_contains pid ids = false ->
  py_eq pid pid = true ->
  without_id pet (favs ++ [pet]) = Ok favs.
Proof.
  intros Hpid Hids Hc Hrefl. revert ids Hids Hc.
  induction favs as [|p r IH]; intros ids Hids Hc; cbn in *.
  - rewrite Hpid. cbn. rewrite Hrefl. reflexivity.
  - destruct (py_getitem p "id") as [i|e]; cbn in *; [|discriminate].
    destruct (favorite_ids r) as [ids'|e]; cbn in *; [|discriminate].
    injection Hids as <-. cbn in Hc. apply orb_false_elim in Hc as [Hi Hr].
    rewrite Hpid. cbn. rewrite (IH ids' eq_refl Hr). cbn. rewrite Hi. reflexivity.
Qed.

End Removal.

(** X10.  "Remove from Favorites" drops exactly the records with the
    pet's id: when every favorite has an id, the ids left are the former
    ids without those equal to the pet's, in the same order, and the
    pet's id is no longer among them. *)
Theorem remove_drops_exactly_that_id (h : host) (s : state) (pet pid : value)
    (ids : list value) :
  py_getitem pet "id" = Ok pid ->
  favorite_ids (favorites (sess s)) = Ok ids ->
  let left := filter (fun i => negb (py_eq i pid)) ids in
  let after := snd (run (remove_from_favorites pet) h s) in
  favorite_ids (favorites (sess after)) = Ok left /\
  py_list_contains pid left = false /\
  (List.length (favorites (sess after)) <= List.length (favorites (sess s)))%nat.
Proof.
  intros Hpid Hids. cbv zeta.
  destruct (without_id_spec pet pid _ ids Hpid Hids) as (kept & Hkept & Hkids).
  assert (Hafter : favorites (sess (snd (run (remove_from_favorites pet) h s))) = kept).
  { unfold run, remove_from_favorites, bind, get_session, eval. rewrite Hkept. cbn.
    destruct (py_getitem pet "name"); reflexivity. }
  rewrite Hafter. split; [exact Hkids|]. split; [apply contains_after_filter|].
  clear Hafter Hkids. revert ids kept Hids Hkept.
  induction (favorites (sess s)) as [|p r IH]; intros ids kept Hids Hkept; cbn in *.
  - injection Hkept as <-. cbn. lia.
  - destruct (py_getitem p "id") as [i|e]; cbn in *; [|discriminate].
    destruct (favorite_ids r) as [ids'|e]; cbn in *; [|discriminate].
    rewrite Hpid in Hkept. cbn in Hkept.
    destruct (without_id pet r) as [kept'|e]; cbn in *; [|discriminate].
    specialize (IH ids' kept' eq_refl eq_refl).
    destruct (negb (py_eq i pid)); injection Hkept as <-; cbn; lia.
Qed.

Lemma remove_drops_exactly_that_id_witness :
  let h := sample_host true (inl "unused") nothing_pressed blank_form in
  let s := start (set_favorites [rex; tom; rex] initial_session) in
  favorites (sess (snd (run (remove_from_favorites rex) h s))) = [tom] /\
  favorite_ids (favorites (sess (snd (run (remove_from_favorites rex) h s)))) =
  Ok [VInt 202].
Proof.
  intros h s. split; [reflexivity|].
  exact (proj1 (remove_drops_exactly_that_id h s rex (VInt 101)
                  [VInt 101; VInt 202; VInt 101] eq_refl eq_refl)).
Defined.

(** X11.  Adding and removing again.  For a pet that is not a favorite
    and whose id equals itself (as every number and string does):
    pressing "Add to Favorites" on its card ends in the rerun signal with
    the pet appended at the end of the favorites, and pressing "Remove
    from Favorites" on its card afterwards gives back the favorites as
    they were. *)
Theorem add_then_remove_restores (h h' : host) (s : state) (pet pid name : value)
    (ids : list value) (context tab_id context' tab_id' : string) :
  py_getitem pet "id" = Ok pid ->
  py_getitem pet "name" = Ok name ->
  favorite_ids (favorites (sess s)) = Ok ids ->
  py_list_contains pid ids = false ->
  py_eq pid pid = true ->
  (forall key, clicked h "View Details" key = false) ->
  (forall key, clicked h "Add to Favorites" key = true) ->
  (forall key, clicked h' "View Details" key = false) ->
  (forall key, clicked h' "Remove from Favorites" key = true) ->
  let added := run (card_buttons pet false context tab_id) h s in
  let removed := run (card_buttons pet true context' tab_id') h' (snd added) in
  fst added = Raise RerunException /\
  favorites (sess (snd added)) = favorites (sess s) ++ [pet] /\
  fst removed = Raise RerunException /\
  favorites (sess (snd removed)) = favorites (sess s).
Proof.
  intros Hpid Hname Hids Hc Hrefl Hview Hadd Hview' Hrem. cbv zeta.
  assert (Hadded : run (card_buttons pet false context tab_id) h s =
            (Raise RerunException,
             with_out [StSuccess [Lit "Added "; Fmt name; Lit " to favorites!"]]
               (with_sess (fun ss => set_favorites (favorites ss ++ [pet]) ss)
                  (with_out [Button "Add to Favorites" (widget_key "fav_" tab_id context pid)]
                     (with_out [Button "View Details" (widget_key "details_" tab_id context pid)] s))))).
  { unfold run, card_buttons, bind, eval, st_button. rewrite Hpid. cbn.
    rewrite Hview, Hadd. cbn. rewrite Hids. cbn. rewrite Hc. cbn.
    rewrite Hname. reflexivity. }
  rewrite Hadded. cbn [fst snd]. split; [reflexivity|]. split; [reflexivity|].
  unfold run, card_buttons, bind, eval, st_button. rewrite Hpid. cbn.
  rewrite Hview', Hrem. cbn.
  rewrite (without_id_snoc pet pid _ ids Hpid Hids Hc Hrefl). cbn.
  rewrite Hname. cbn. split; reflexivity.
Qed.

Lemma add_then_remove_restores_witness :
  let h := sample_host true (inl "unused") (pressed "Add to Favorites") blank_form in
  let h' := sample_host true (inl "unused") (pressed "Remove from Favorites") blank_form in
  let s := start (set_favorites [rex] initial_session) in
  let added := run (card_buttons tom false "search" "tab1") h s in
  let removed := run (card_buttons tom true "favorites" "tab2") h' (snd added) in
  favorites (sess (snd added)) = [rex; tom] /\
  favorites (sess (snd removed)) = [rex].
Proof.
  intros h h' s added removed.
  pose proof (add_then_remove_restores h h' s tom (VInt 202) (VStr "Rex") [VInt 101]
                "search" "tab1" "favorites" "tab2"
                eq_refl eq_refl eq_refl eq_refl eq_refl
                (fun _ => eq_refl) (fun _ => eq_refl)
                (fun _ => eq_refl) (fun _ => eq_refl)) as (_ & Ha & _ & Hr).
  split; [exact Ha | exact Hr].
Defined.

(** ** Further properties: the page stays in range *)

Section RunSteps.

Variables (h : host) (s : state).

Lemma run_bind {A B} (c : M A) (k : A -> M B) :
  run (bind c k) h s =
  match run c h s with
  | (Ok a, s') => run (k a) h s'
  | (Raise e, s') => (Raise e, s')
  end.
Proof. reflexivity. Qed.

Lemma run_bind_get_session {B} (k : session -> M B) :
  run (bind get_session k) h s = run (k (sess s)) h s.
Proof. reflexivity. Qed.

Lemma run_bind_eval {A B} (r : res A) (k : A -> M B) :
  run (bind (eval r) k) h s =
  match r with
  | Ok a => run (k a) h s
  | Raise e => (Raise e, s)
  end.
Proof. unfold run, bind, eval. destruct r; reflexivity. Qed.

Lemma run_bind_render {A B} (c : R A) (k : A -> M B) :
  run (bind (render c) k) h s =
  match fst c with
  | Ok a => run (k a) h (with_out (snd c) s)
  | Raise e => (Raise e, with_out (snd c) s)
  end.
Proof. unfold run, bind, render. destruct (fst c); reflexivity. Qed.

End RunSteps.

Section PageInRange.

Local Abbreviation paged c := (guards slider_in_range page_in_range page_in_range c).

Lemma page_in_range_E (s : state) : page_in_range s -> page_in_range s.
Proof. auto. Qed.

Lemma page_in_range_out (s : state) (o : list ui_event) :
  page_in_range s -> page_in_range (with_out o s).
Proof. auto. Qed.

Lemma page_in_range_view (s s' : state) :
  same_view (sess s') (sess s) -> page_in_range s -> page_in_range s'.
Proof.
  unfold page_in_range. intros (Hr & _ & Hp & _) Hs. rewrite Hr, Hp. exact Hs.
Qed.

Ltac page_step := guards_step page_in_range_E page_in_range_out.

Lemma paged_set_selected_pet (v : value) : paged (modify_session (set_selected_pet v)).
Proof. apply guards_modify_session. auto. Qed.

Lemma paged_set_favorites (f : session -> list value) :
  paged (modify_session (fun ss => set_favorites (f ss) ss)).
Proof. apply guards_modify_session. auto. Qed.

Lemma paged_display_pet_card (pet : value) (is_favorite : bool)
    (context tab_id : string) :
  paged (display_pet_card pet is_favorite context tab_id).
Proof.
  unfold display_pet_card, card_buttons, remove_from_favorites, append_to_favorites.
  pose proof paged_set_selected_pet.
  repeat page_step;
    first [ apply paged_set_favorites
          | apply (paged_set_favorites (fun _ => _)) ].
Qed.

Lemma paged_display_pet_details (pet_id : value) (context tab_id : string) :
  paged (display_pet_details pet_id context tab_id).
Proof.
  unfold display_pet_details, details_favorite_buttons, remove_from_favorites,
    append_to_favorites.
  pose proof paged_set_selected_pet.
  page_step.
  - apply (guards_of_keeps_view _ _ _ page_in_range_E);
      [apply page_in_range_view | apply keeps_view_get_pet_details].
  - repeat page_step;
      first [ apply paged_set_favorites
            | apply (paged_set_favorites (fun _ => _)) ].
Qed.

(** Storing results puts the page back to 1, which is in range for any
    results. *)
Lemma paged_store_results (results : value) : paged (store_results results).
Proof.
  intros h s _ Hs. unfold run, store_results, bind, eval.
  assert (Hone : forall st, page (sess st) = 1 -> page_in_range st)
    by (intros st Hp; unfold page_in_range; rewrite Hp; split; [lia | intros; lia]).
  destruct (has_animals results) as [[|]|e]; cbn; try exact Hs.
  destruct (py_getitem results "animals") as [animals|e]; cbn; [|apply Hone; reflexivity].
  destruct (py_len animals); cbn; apply Hone; reflexivity.
Qed.

Lemma paged_submit_search (f : form_input) : paged (submit_search f).
Proof.
  unfold submit_search. page_step; [|apply paged_store_results].
  apply (guards_of_keeps_view _ _ _ page_in_range_E);
    [apply page_in_range_view | apply keeps_view_search_pets].
Qed.

Lemma paged_show_results : paged show_results.
Proof.
  intros h s Hslider Hs. unfold show_results.
  rewrite run_bind_get_session, run_bind_eval.
  destruct (has_animals (search_results (sess s))) as [[|]|e]; [|exact Hs|exact Hs].
  rewrite run_bind_render. cbn [fst snd st_markdown emit].
  rewrite run_bind_eval.
  destruct (py_getitem (search_results (sess s)) "animals") as [results|e] eqn:Hres;
    [|exact Hs].
  rewrite run_bind_eval.
  destruct (py_len results) as [n|e] eqn:Hn; [|exact Hs].
  rewrite run_bind.
  set (s0 := with_out [Markdown [Lit "### Search Results"]] s).
  assert (Hs0 : page_in_range s0) by exact Hs.
  assert (Htail : forall st, page_in_range st ->
            match
              run (bind get_session
                     (fun s1 =>
                        bind (eval (page_window (page s1) results))
                          (fun pets =>
                             for_each pets
                               (fun pet =>
                                  bind (render (st_markdown [Lit "---"]))
                                    (fun _ => display_pet_card pet false "search" "tab1")))))
                h st
            with
            | (Ok _, s') => page_in_range s'
            | (Raise _, s') => page_in_range s'
            end).
  { intros st Hst. revert h st Hslider Hst Hs Hs0. clear.
    intros h st Hslider Hst _ _. revert h st Hslider Hst.
    change (paged (bind get_session
                     (fun s1 =>
                        bind (eval (page_window (page s1) results))
                          (fun pets =>
                             for_each pets
                               (fun pet =>
                                  bind (render (st_markdown [Lit "---"]))
                                    (fun _ => display_pet_card pet false "search" "tab1")))))).
    repeat page_step. apply paged_display_pet_card. }
  destruct (Z.ltb_spec 1 (total_pages n)) as [Hmany|Hone].
  - rewrite run_bind. unfold st_slider.
    destruct Hs as [Hlow Hhigh]. specialize (Hhigh results n Hres Hn).
    change (page (sess s0)) with (page (sess s)).
    destruct (Z.ltb_spec (page (sess s)) 1) as [|_]; [lia|].
    destruct (Z.ltb_spec (total_pages n) (page (sess s))) as [|_]; [lia|].
    cbn [orb]. unfold run in Htail |- *. cbv beta iota.
    pose proof (Hslider 1 (total_pages n) (page (sess s)) ltac:(lia)) as Hchosen.
    match goal with
    | |- context [if ?b then modify_session _ else _] => destruct b
    end; unfold modify_session, ret; cbv beta iota.
    + apply Htail. split; cbn; [lia|].
      intros results' n' Hres' Hn'.
      rewrite Hres in Hres'. injection Hres' as <-.
      rewrite Hn in Hn'. injection Hn' as <-. lia.
    + apply Htail. exact Hs0.
  - apply Htail. exact Hs0.
Qed.

Lemma paged_main : paged main.
Proof.
  unfold main, search_tab, search_form_and_results, favorites_tab, about_tab.
  pose proof paged_show_results. pose proof paged_submit_search.
  repeat page_step; try apply paged_display_pet_details.
  match goal with |- context [match ?l with [] => _ | _ :: _ => _ end] => destruct l end;
    repeat page_step;
    [apply paged_display_pet_details | apply paged_display_pet_card].
Qed.

End PageInRange.

(** X12.  The page stays in range.  The initial session is on page 1;
    and on a host whose slider returns a value of its range, a run of
    [main] that starts with the page between 1 and the number of pages of
    the stored results ends that way, whether it returns or raises: the
    slider of line 563 is then never given a default outside its range. *)
Theorem page_stays_in_range :
  page_in_range (start initial_session) /\
  forall (h : host) (s : state),
    slider_in_range h ->
    page_in_range s ->
    page_in_range (snd (run main h s)) /\
    page_in_range (snd (run show_results h s)) /\
    (forall f, page_in_range (snd (run (submit_search f) h s))).
Proof.
  split.
  - split; cbn; [lia | intros results n H; discriminate H].
  - intros h s Hslider Hs. split; [|split].
    + apply (guards_same slider_in_range _ main h s paged_main Hslider Hs).
    + apply (guards_same slider_in_range _ _ h s paged_show_results Hslider Hs).
    + intros f.
      apply (guards_same slider_in_range _ _ h s (paged_submit_search f) Hslider Hs).
Qed.

(** Twenty-three records shown from page 3, with a slider moved to
    page 2. *)
Lemma page_stays_in_range_witness :
  let l := map (fun i => sample_pet (VInt (Z.of_nat i)) (VStr "Beagle") VNone) (seq 1 23) in
  let h := {| environ := fun _ => None; secrets := fun _ => VNone;
              clock := fun _ => 0; http := fun _ _ => inl "offline";
              clicked := nothing_pressed; form := blank_form;
              page_slider := fun lo hi _ => Z.max lo (Z.min hi 2) |} in
  let s := start (set_page 3 (set_search_results (VDict [("animals", VList l)])
                                initial_session)) in
  page (sess (snd (run show_results h s))) = 2 /\
  page_in_range (snd (run show_results h s)).
Proof.
  intros l h s. split; [reflexivity|].
  assert (Hh : slider_in_range h) by (intros lo hi v Hle; cbn; lia).
  assert (Hs : page_in_range s).
  { split; [cbn; lia|]. intros results n Hres Hn.
    cbn in Hres. injection Hres as <-. cbn in Hn. injection Hn as <-.
    cbn. lia. }
  exact (proj1 (proj2 (proj2 page_stays_in_range h s Hh Hs))).
Defined.

(** ** Further properties: the pages partition the results *)

Section Chunks.

Context {A : Type}.

Lemma firstn_add (a b : nat) (l : list A) :
  firstn (a + b) l = firstn a l ++ firstn b (skipn a l).
Proof.
  revert l. induction a as [|a IH]; intros l; cbn; [reflexivity|].
  destruct l as [|x r]; cbn.
  - rewrite firstn_nil. reflexivity.
  - rewrite IH. reflexivity.
Qed.

Lemma chunks_concat (m : nat) (l : list A) :
  List.concat (map (fun k => firstn 10 (skipn (10 * k)%nat l)) (seq 0 m)) =
  firstn (10 * m)%nat l.
Proof.
  induction m as [|m IH]; [reflexivity|].
  rewrite seq_S, map_app, concat_app, IH. cbn [map List.concat seq Nat.add].
  rewrite app_nil_r.
  replace (10 * S m)%nat with (10 * m + 10)%nat by lia.
  rewrite firstn_add. reflexivity.
Qed.

(** The window of page [k + 1] is the [k]-th chunk of ten. *)
Lemma page_chunk (k : nat) (l : list A) :
  py_slice_list (start_idx (Z.of_nat (S k)))
    (end_idx (Z.of_nat (S k)) (Z.of_nat (List.length l))) l =
  firstn 10 (skipn (10 * k)%nat l).
Proof.
  apply nth_error_ext. intros i.
  unfold end_idx, start_idx.
  rewrite py_slice_list_nth by lia.
  rewrite nth_error_firstn, nth_error_skipn.
  replace (Z.to_nat ((Z.of_nat (S k) - 1) * 10)) with (10 * k)%nat by lia.
  destruct (Z.ltb_spec ((Z.of_nat (S k) - 1) * 10 + Z.of_nat i)
              (Z.min (Z.min ((Z.of_nat (S k) - 1) * 10 + 10) (Z.of_nat (List.length l)))
                     (Z.of_nat (List.length l))));
    destruct (Nat.ltb_spec i 10); try lia; try reflexivity.
  symmetry. apply nth_error_None. lia.
Qed.

End Chunks.

(** X13.  The pages partition the results.  For a result list [l] of
    length [n], the windows of the pages 1, 2, ..., [total_pages n],
    put one after the other, are [l] itself; each of these pages holds at
    least one and at most ten records. *)
Theorem pages_partition_the_results (l : list value) :
  let n := Z.of_nat (List.length l) in
  exists windows : list (list value),
    Forall2 (fun p w => page_window (Z.of_nat p) (VList l) = Ok w)
            (seq 1 (Z.to_nat (total_pages n))) windows /\
    List.concat windows = l /\
    Forall (fun w => (1 <= List.length w <= 10)%nat) windows.
Proof.
  cbv zeta. set (n := List.length l).
  assert (Hpages : Z.to_nat (total_pages (Z.of_nat n)) = ((n + 9) / 10)%nat).
  { unfold total_pages. apply Nat2Z.inj.
    rewrite Z2Nat.id by (apply Z.div_pos; lia).
    rewrite Nat2Z.inj_div, Nat2Z.inj_add. reflexivity. }
  rewrite Hpages. set (m := ((n + 9) / 10)%nat).
  assert (Hm : (n <= 10 * m /\ 10 * m < n + 10)%nat).
  { unfold m. pose proof (Nat.div_mod_eq (n + 9) 10).
    pose proof (Nat.mod_upper_bound (n + 9) 10 ltac:(lia)). lia. }
  exists (map (fun k => firstn 10 (skipn (10 * k)%nat l)) (seq 0 m)).
  split; [|split].
  - rewrite <- seq_shift, <- (map_id (map S (seq 0 m))).
    rewrite map_map. clear Hpages.
    induction (seq 0 m) as [|k r IH]; cbn [map]; constructor; [|exact IH].
    rewrite page_window_list. fold n. unfold n. rewrite page_chunk. reflexivity.
  - rewrite chunks_concat. apply firstn_all2. fold n. lia.
  - apply Forall_forall. intros w Hw. apply in_map_iff in Hw as (k & <- & Hk).
    apply in_seq in Hk. rewrite length_firstn, length_skipn. fold n. lia.
Qed.

(** ** Further properties: the request parameters *)

Section FirstWord.

Lemma py_split_nonempty (sep : ascii) (s : string) : py_split sep s <> [].
Proof.
  destruct s as [|c r]; cbn; [discriminate|].
  destruct (Ascii.eqb c sep); [discriminate|].
  destruct (py_split sep r); discriminate.
Qed.

(** The first field of a split: free of the separator, and followed in
    the string by nothing or by the separator. *)
Lemma py_split_head (sep : ascii) (s : string) :
  let w := hd "" (py_split sep s) in
  ~ In sep (list_ascii_of_string w) /\
  (s = w \/ exists rest, s = (w ++ String sep rest)%string).
Proof.
  cbv zeta. induction s as [|c r IH]; cbn.
  - split; [tauto | left; reflexivity].
  - destruct (Ascii.eqb_spec c sep) as [->|Hne]; cbn.
    + split; [tauto | right; exists r; reflexivity].
    + pose proof (py_split_nonempty sep r) as Hnil.
      destruct (py_split sep r) as [|w ws]; [contradiction|]. cbn in *.
      destruct IH as [Hfree Hshape]. split.
      * intros [Heq | Hin]; [congruence | contradiction].
      * destruct Hshape as [-> | [rest ->]]; [left; reflexivity|].
        right. exists rest. reflexivity.
Qed.

End FirstWord.

(** X14.  The [type] sent with a search is the animal type up to its
    first space: it holds no space, and the animal type is either this
    word or this word, a space and more. *)
Theorem search_type_is_the_first_word (f : form_input) :
  exists w,
    dict_get "type" (build_params f) = Some (VStr w) /\
    ~ In " "%char (list_ascii_of_string w) /\
    (animal_type f = w \/ exists rest, animal_type f = (w ++ String " " rest)%string).
Proof.
  exists (hd "" (py_split " " (animal_type f))). split.
  - lookup_params.
  - apply py_split_head.
Qed.

Section ParameterKeys.

Lemma dict_keys_set (k : string) (v : value) (d : dict) :
  dict_keys (dict_set k v d) =
  if dict_has k d then dict_keys d else dict_keys d ++ [k].
Proof.
  unfold dict_has, dict_keys. induction d as [|[k0 v0] r IH]; cbn; [reflexivity|].
  destruct (String.eqb k0 k) eqn:Hk; cbn.
  - apply String.eqb_eq in Hk. subst. reflexivity.
  - rewrite IH. destruct (dict_get k r); reflexivity.
Qed.

Lemma dict_has_in (k : string) (d : dict) :
  dict_has k d = false -> ~ In k (dict_keys d).
Proof.
  unfold dict_has, dict_keys. induction d as [|[k0 v0] r IH]; cbn; [tauto|].
  destruct (String.eqb_spec k0 k) as [->|Hne]; [discriminate|].
  intros H [Heq | Hin]; [congruence | exact (IH H Hin)].
Qed.


Lemma well_keyed_set_if (names : list string) (c : bool) (k : string) (v : value)
    (d : dict) :
  In k names -> well_keyed names d ->
  well_keyed names (if c then dict_set k v d else d).
Proof.
  intros Hk (Hnd & Hincl & Hfirst). destruct c; [|repeat split; assumption].
  unfold well_keyed. rewrite dict_keys_set.
  destruct (dict_has k d) eqn:Hhas; [repeat split; assumption|].
  split; [|split].
  - apply NoDup_app; [exact Hnd | repeat constructor; intros [] | ].
    intros x Hx [<- | []]. exact (dict_has_in k d Hhas Hx).
  - apply incl_app; [exact Hincl | intros x [<- | []]; exact Hk].
  - assert (Hlen : (6 <= List.length (dict_keys d))%nat).
    { rewrite <- (firstn_skipn 6 (dict_keys d)), Hfirst, length_app. cbn. lia. }
    rewrite firstn_app.
    replace (6 - List.length (dict_keys d))%nat with 0%nat by lia.
    rewrite firstn_O, app_nil_r. exact Hfirst.
Qed.

End ParameterKeys.

Ltac in_names := cbn; repeat first [left; reflexivity | right].

(** X15.  Whatever the form holds, the request parameters have no key
    twice, have no key outside the fourteen names of the search form, and
    begin with type, location, distance, status, sort and limit in this
    order. *)
Theorem search_parameters_are_well_keyed (f : form_input) :
  well_keyed search_parameter_names (build_params f).
Proof.
  unfold build_params. cbv zeta.
  repeat (apply well_keyed_set_if; [in_names|]).
  split; [|split].
  - cbn. repeat constructor; cbn; intuition discriminate.
  - intros x Hx. cbn in Hx |- *. intuition.
  - reflexivity.
Qed.

(** ** Further properties: rendering records of upstream's shape *)

Section Rendering.

Lemma fst_bind_R {A B} (c : R A) (k : A -> R B) :
  fst (bind_R c k) =
  match fst c with
  | Ok a => fst (k a)
  | Raise e => Raise e
  end.
Proof.
  destruct c as [[a|e] o]; cbn; [|reflexivity]. destruct (k a); reflexivity.
Qed.

Lemma fst_for_each_R {A} (xs : list A) (body : A -> R unit) :
  (forall x, In x xs -> fst (body x) = Ok tt) ->
  fst (for_each_R xs body) = Ok tt.
Proof.
  induction xs as [|x r IH]; intros Hbody; cbn [for_each_R]; [reflexivity|].
  rewrite fst_bind_R, (Hbody x (or_introl eq_refl)).
  apply IH. intros y Hy. apply Hbody. right. exact Hy.
Qed.

Variable a : animal.

Local Abbreviation pet := (animal_value a).

Lemma breed_suffixes_text (s : string) :
  exists x, breed_suffixes pet (AVal (VStr s)) = Ok x.
Proof.
  unfold breed_suffixes. cbn.
  destruct (py_truthy (opt_str (a_breed_secondary a))); cbn;
    destruct (a_breed_mixed a); cbn; eexists; reflexivity.
Qed.

Lemma card_photo_ok : fst (card_photo pet) = Ok tt.
Proof.
  unfold card_photo, has_photos, and_then, truthy_of. cbn.
  destruct (a_photos a) as [|p ps]; reflexivity.
Qed.

Lemma card_tags_html_ok : exists t, card_tags_html pet = Ok t.
Proof.
  unfold card_tags_html. cbn.
  destruct (String.eqb (a_status a) "adoptable"); cbn; eexists; reflexivity.
Qed.

Lemma path_breed_primary :
  py_path pet ["breeds"; "primary"] = Ok (opt_str (a_breed_primary a)).
Proof. reflexivity. Qed.

Lemma card_breed_ok : fst (card_breed pet) = Ok tt.
Proof.
  unfold card_breed. rewrite fst_bind_R. unfold eval_R at 1. cbn [fst].
  rewrite path_breed_primary.
  destruct (a_breed_primary a) as [s|]; [|reflexivity].
  destruct (py_truthy (opt_str (Some s))); [|reflexivity].
  rewrite fst_bind_R. destruct (breed_suffixes_text s) as [x Hx].
  unfold eval_R. cbn [fst opt_str]. rewrite Hx. reflexivity.
Qed.

Lemma listed_colors_joined : exists joined,
  bind_res (listed_colors pet) (fun colors => py_join ", " colors) = Ok joined.
Proof.
  unfold listed_colors. cbn.
  destruct (a_color_primary a) as [c1|]; cbn; [destruct (negb (String.eqb c1 ""))|];
    (destruct (a_color_secondary a) as [c2|]; cbn; [destruct (negb (String.eqb c2 ""))|]);
    (destruct (a_color_tertiary a) as [c3|]; cbn; [destruct (negb (String.eqb c3 ""))|]);
    eexists; reflexivity.
Qed.

Lemma card_colors_ok : fst (card_colors pet) = Ok tt.
Proof.
  unfold card_colors. rewrite fst_bind_R.
  destruct listed_colors_joined as [joined Hj].
  unfold eval_R at 1. cbn [fst].
  match goal with |- context [or_else ?x ?y] => destruct (or_else x y) as [[|]|e] eqn:Hc end.
  - rewrite fst_bind_R. unfold eval_R. cbn [fst]. rewrite Hj. reflexivity.
  - reflexivity.
  - exfalso. revert Hc. unfold or_else, truthy_of. cbn.
    destruct (py_truthy (opt_str (a_color_primary a))); cbn; [discriminate|].
    destruct (py_truthy (opt_str (a_color_secondary a))); cbn; discriminate.
Qed.

Lemma card_location_ok : fst (card_location pet) = Ok tt.
Proof. reflexivity. Qed.

Lemma description_html_ok (budget : nat) (d : string) :
  a_description a = Some d -> exists t, description_html budget pet = Ok t.
Proof.
  intros Hd. unfold description_html. cbn. rewrite Hd. cbn. eexists. reflexivity.
Qed.

Lemma get_description :
  py_getitem pet "description" = Ok (opt_str (a_description a)).
Proof. reflexivity. Qed.

Lemma card_description_ok : fst (card_description pet) = Ok tt.
Proof.
  unfold card_description. rewrite fst_bind_R. unfold eval_R at 1. cbn [fst].
  rewrite get_description.
  destruct (a_description a) as [d|] eqn:Hd; [|reflexivity].
  destruct (py_truthy (opt_str (Some d))); [|reflexivity].
  rewrite fst_bind_R. destruct (description_html_ok 300 d Hd) as [t Ht].
  unfold eval_R. cbn [fst]. rewrite Ht. reflexivity.
Qed.

Lemma card_body_ok : fst (card_body pet) = Ok tt.
Proof.
  unfold card_body. rewrite fst_bind_R, card_photo_ok.
  rewrite fst_bind_R. cbn [eval_R fst]. 
  replace (py_getitem pet "name") with (Ok (opt_str (a_name a))) by reflexivity.
  rewrite fst_bind_R. cbn [st_markdown emit fst].
  rewrite fst_bind_R. destruct card_tags_html_ok as [t Ht].
  unfold eval_R at 1. cbn [fst]. rewrite Ht.
  rewrite fst_bind_R. cbn [st_markdown emit fst].
  rewrite fst_bind_R. cbn [st_markdown emit fst].
  rewrite fst_bind_R, card_breed_ok.
  rewrite fst_bind_R, card_colors_ok.
  rewrite fst_bind_R, card_location_ok.
  rewrite fst_bind_R. cbn [st_markdown emit fst].
  apply card_description_ok.
Qed.

Lemma details_header_ok : fst (details_header pet) = Ok tt.
Proof. reflexivity. Qed.

Lemma details_photos_ok : fst (details_photos pet) = Ok tt.
Proof.
  unfold details_photos. rewrite fst_bind_R. unfold eval_R at 1. cbn [fst].
  replace (has_photos pet)
    with (Ok (match a_photos a with [] => false | _ :: _ => true end))
    by (unfold has_photos, and_then, truthy_of; cbn;
        destruct (a_photos a); reflexivity).
  destruct (a_photos a) as [|p ps] eqn:Hps; [reflexivity|].
  rewrite fst_bind_R. unfold eval_R at 1. cbn [fst].
  replace (bind_res (py_getitem pet "photos") (fun photos => py_len photos))
    with (Ok (Z.of_nat (List.length (a_photos a))))
    by (cbn; rewrite length_map; reflexivity).
  apply fst_for_each_R. intros i Hi. apply in_seq in Hi.
  destruct (Z.ltb_spec (Z.of_nat i) (Z.of_nat (List.length (a_photos a)))) as [Hlt|]; [|lia].
  rewrite fst_bind_R. unfold eval_R. cbn [fst].
  replace (py_getitem pet "photos") with (Ok (VList (map photo_value (a_photos a))))
    by reflexivity.
  cbn [bind_res py_index].
  destruct (nth_error (map photo_value (a_photos a)) i) as [v|] eqn:Hnth.
  - rewrite nth_error_map in Hnth.
    destruct (nth_error (a_photos a) i) as [q|]; [|discriminate].
    injection Hnth as <-. reflexivity.
  - apply nth_error_None in Hnth. rewrite length_map in Hnth. lia.
Qed.

Lemma details_lines_colors (details : list text) :
  exists lines,
    bind_res (listed_colors pet)
      (fun colors =>
         match colors with
         | [] => Ok details
         | _ :: _ =>
             bind_res (py_join ", " colors)
               (fun joined => Ok (details ++ [[Lit "**Colors:** "; Lit joined]]))
         end) = Ok lines.
Proof.
  destruct listed_colors_joined as [joined Hj].
  destruct (listed_colors pet) as [[|c cs]|e]; cbn [bind_res] in Hj |- *.
  - eexists. reflexivity.
  - rewrite Hj. eexists. reflexivity.
  - discriminate Hj.
Qed.

Lemma details_lines_rest (breed_text : accum) :
  exists lines,
    bind_res (py_getitem pet "type")
      (fun type =>
       bind_res (py_getitem pet "age")
         (fun age =>
          bind_res (py_getitem pet "gender")
            (fun gender =>
             bind_res (py_getitem pet "size")
               (fun size =>
                let details :=
                  [[Lit "**Type:** "; Fmt type];
                   Lit "**Breed:** " :: fmt_accum breed_text;
                   [Lit "**Age:** "; Fmt age];
                   [Lit "**Gender:** "; Fmt gender];
                   [Lit "**Size:** "; Fmt size]] in
                bind_res (listed_colors pet)
                  (fun colors =>
                     match colors with
                     | [] => Ok details
                     | _ :: _ =>
                         bind_res (py_join ", " colors)
                           (fun joined =>
                              Ok (details ++ [[Lit "**Colors:** "; Lit joined]]))
                     end))))) = Ok lines.
Proof.
  replace (py_getitem pet "type") with (Ok (opt_str (a_type a))) by reflexivity.
  replace (py_getitem pet "age") with (Ok (opt_str (a_age a))) by reflexivity.
  replace (py_getitem pet "gender") with (Ok (opt_str (a_gender a))) by reflexivity.
  replace (py_getitem pet "size") with (Ok (opt_str (a_size a))) by reflexivity.
  cbn [bind_res]. cbv zeta. apply details_lines_colors.
Qed.

Lemma breed_suffixes_none :
  breed_suffixes pet (AVal VNone) =
  if py_truthy (opt_str (a_breed_secondary a)) || a_breed_mixed a
  then Raise TypeError else Ok (AVal VNone).
Proof.
  unfold breed_suffixes.
  replace (py_path pet ["breeds"; "secondary"])
    with (Ok (opt_str (a_breed_secondary a))) by reflexivity.
  replace (py_path pet ["breeds"; "mixed"])
    with (Ok (VBool (a_breed_mixed a))) by reflexivity.
  cbn [bind_res].
  destruct (py_truthy (opt_str (a_breed_secondary a))); cbn; [reflexivity|].
  destruct (a_breed_mixed a); reflexivity.
Qed.

Lemma details_lines_shape :
  if breed_line_fails a then details_lines pet = Raise TypeError
  else exists lines, details_lines pet = Ok lines.
Proof.
  unfold breed_line_fails, details_lines. rewrite path_breed_primary.
  cbn [bind_res].
  destruct (a_breed_primary a) as [s|]; cbn [opt_str].
  - destruct (breed_suffixes_text s) as [x Hx]. rewrite Hx. cbn [bind_res].
    apply details_lines_rest.
  - rewrite breed_suffixes_none.
    destruct (py_truthy (opt_str (a_breed_secondary a)) || a_breed_mixed a);
      cbn [bind_res]; [reflexivity|].
    apply details_lines_rest.
Qed.

Lemma details_info_shape :
  fst (details_info pet) = if breed_line_fails a then Raise TypeError else Ok tt.
Proof.
  unfold details_info. rewrite fst_bind_R. cbn [st_markdown emit fst].
  rewrite fst_bind_R. unfold eval_R. cbn [fst].
  pose proof details_lines_shape as Hl.
  destruct (breed_line_fails a).
  - rewrite Hl. reflexivity.
  - destruct Hl as [lines ->]. apply fst_for_each_R. reflexivity.
Qed.

Lemma details_compatibility_ok : fst (details_compatibility pet) = Ok tt.
Proof.
  unfold details_compatibility. rewrite fst_bind_R. cbn [st_markdown emit fst].
  rewrite fst_bind_R. unfold eval_R. cbn [fst].
  rewrite (get_compatibility_message_dict pet _ eq_refl _ eq_refl).
  apply fst_for_each_R. reflexivity.
Qed.

Lemma details_description_ok : fst (details_description pet) = Ok tt.
Proof.
  unfold details_description. rewrite fst_bind_R. unfold eval_R at 1. cbn [fst].
  rewrite get_description.
  destruct (a_description a) as [d|] eqn:Hd; [|reflexivity].
  destruct (py_truthy (opt_str (Some d))); [|reflexivity].
  rewrite fst_bind_R. cbn [st_markdown emit fst].
  rewrite fst_bind_R. destruct (description_html_ok 500 d Hd) as [t Ht].
  unfold eval_R. cbn [fst]. rewrite Ht. reflexivity.
Qed.

Lemma contact_lines_ok : exists lines, contact_lines pet = Ok lines.
Proof.
  unfold contact_lines, and_then, truthy_of. cbn.
  destruct (py_truthy (opt_str (a_city a))); cbn;
    [destruct (py_truthy (opt_str (a_state a))); cbn|]; eexists; reflexivity.
Qed.

Lemma details_contact_ok : fst (details_contact pet) = Ok tt.
Proof.
  unfold details_contact. rewrite fst_bind_R. cbn [st_markdown emit fst].
  rewrite fst_bind_R. unfold eval_R at 1. cbn [fst].
  replace (py_getitem pet "organization_id") with (Ok (opt_str (a_organization_id a)))
    by reflexivity.
  cbv beta iota. rewrite fst_bind_R.
  assert (Hrest : fst (bind_R (eval_R (contact_lines pet))
                         (fun contact_info =>
                            bind_R (for_each_R contact_info st_markdown)
                              (fun _ =>
                                 bind_R (eval_R (py_getitem pet "url"))
                                   (fun url =>
                                      if py_truthy url
                                      then st_markdown [Lit "[View on Petfinder]("; Fmt url; Lit ")"]
                                      else ret_R tt)))) = Ok tt).
  { rewrite fst_bind_R. destruct contact_lines_ok as [lines Hl].
    unfold eval_R at 1. cbn [fst]. rewrite Hl.
    rewrite fst_bind_R, fst_for_each_R by reflexivity.
    rewrite fst_bind_R. unfold eval_R. cbn [fst].
    replace (py_getitem pet "url") with (Ok (opt_str (a_url a))) by reflexivity.
    cbv beta iota. destruct (py_truthy (opt_str (a_url a))); reflexivity. }
  destruct (py_truthy (opt_str (a_organization_id a)));
    cbn [fst st_markdown emit ret_R]; exact Hrest.
Qed.

Lemma details_body_shape :
  fst (details_body pet) = if breed_line_fails a then Raise TypeError else Ok tt.
Proof.
  unfold details_body. rewrite fst_bind_R, details_header_ok.
  rewrite fst_bind_R, details_photos_ok.
  rewrite fst_bind_R, details_info_shape.
  destruct (breed_line_fails a); [reflexivity|].
  rewrite fst_bind_R, details_compatibility_ok.
  rewrite fst_bind_R, details_description_ok.
  apply details_contact_ok.
Qed.

End Rendering.

Section ShapedFavorites.

Lemma favorite_ids_shaped (favs : list animal) :
  favorite_ids (map animal_value favs) = Ok (map (fun a => VInt (a_id a)) favs).
Proof.
  induction favs as [|a r IH]; [reflexivity|].
  cbn [map favorite_ids].
  replace (py_getitem (animal_value a) "id") with (Ok (VInt (a_id a))) by reflexivity.
  cbn [bind_res]. rewrite IH. reflexivity.
Qed.

Lemma without_id_shaped (a : animal) (favs : list animal) :
  exists kept, without_id (animal_value a) (map animal_value favs) = Ok kept.
Proof.
  destruct (without_id_spec (animal_value a) (VInt (a_id a)) (map animal_value favs) _
              eq_refl (favorite_ids_shaped favs)) as (kept & Hkept & _).
  exists kept. exact Hkept.
Qed.

Lemma card_buttons_shaped (a : animal) (favs : list animal) (is_favorite : bool)
    (context tab_id : string) (h : host) (s : state) :
  favorites (sess s) = map animal_value favs ->
  is_error (fst (run (card_buttons (animal_value a) is_favorite context tab_id) h s)) = false.
Proof.
  intros Hfavs. unfold run, card_buttons, bind, eval.
  replace (py_getitem (animal_value a) "id") with (Ok (VInt (a_id a))) by reflexivity.
  unfold st_button. cbn -[animal_value remove_from_favorites append_to_favorites].
  destruct (clicked h "View Details" _);
    cbn -[animal_value remove_from_favorites append_to_favorites]; [reflexivity|].
  destruct is_favorite; cbn -[animal_value remove_from_favorites append_to_favorites].
  - destruct (clicked h "Remove from Favorites" _); [|reflexivity].
    unfold remove_from_favorites, bind, get_session, eval.
    cbn -[animal_value without_id]. rewrite Hfavs.
    destruct (without_id_shaped a favs) as [kept ->]. reflexivity.
  - destruct (clicked h "Add to Favorites" _); [|reflexivity].
    cbn -[animal_value favorite_ids append_to_favorites].
    rewrite Hfavs, favorite_ids_shaped.
    cbn -[animal_value append_to_favorites py_list_contains].
    destruct (negb (py_list_contains _ _)); reflexivity.
Qed.

End ShapedFavorites.

(** X16.  The card of a record of upstream's shape renders to the end,
    whichever of its nullable fields are null; and when the favorites
    hold records of that shape, the whole card with its buttons ends
    without an error: it returns, or it asks for a rerun. *)
Theorem card_renders_every_shaped_record (a : animal) :
  fst (card_body (animal_value a)) = Ok tt /\
  forall (favs : list animal) (is_favorite : bool) (context tab_id : string)
         (h : host) (s : state),
    favorites (sess s) = map animal_value favs ->
    is_error (fst (run (display_pet_card (animal_value a) is_favorite context tab_id) h s))
    = false.
Proof.
  split; [apply card_body_ok|].
  intros favs is_favorite context tab_id h s Hfavs.
  unfold run, display_pet_card, bind, render.
  rewrite card_body_ok.
  apply (card_buttons_shaped a favs is_favorite context tab_id h
           (with_out (snd (card_body (animal_value a))) s) Hfavs).
Qed.

(** A record with every nullable field null and no photo, among
    favorites of the same shape. *)
Lemma card_renders_every_shaped_record_witness :
  let bare := {| a_id := 7; a_organization_id := None; a_url := None;
                 a_type := None; a_breed_primary := None;
                 a_breed_secondary := Some "Poodle"; a_breed_mixed := true;
                 a_color_primary := None; a_color_secondary := None;
                 a_color_tertiary := None; a_age := None; a_gender := None;
                 a_size := None; a_spayed_neutered := None;
                 a_house_trained := None; a_special_needs := None;
                 a_shots_current := None; a_children := None; a_dogs := None;
                 a_cats := None; a_name := None; a_description := None;
                 a_photos := []; a_status := "found"; a_email := None;
                 a_phone := None; a_city := None; a_state := None;
                 a_postcode := None |} in
  let h := sample_host true (inl "unused") (pressed "Remove from Favorites") blank_form in
  let s := start (set_favorites [animal_value bare] initial_session) in
  fst (card_body (animal_value bare)) = Ok tt /\
  is_error (fst (run (display_pet_card (animal_value bare) true "favorites" "tab2") h s))
  = false.
Proof.
  intros bare h s.
  destruct (card_renders_every_shaped_record bare) as [Hbody Hcard].
  split; [exact Hbody|].
  exact (Hcard [bare] true "favorites" "tab2" h s eq_refl).
Defined.

(** X17.  The detail view of a record of upstream's shape: everything
    between the back button and the favorites button renders to the end
    unless the primary breed is null while there is a secondary breed or
    the mixed flag is set; in that case, and only then, it raises
    [TypeError]. *)
Theorem detail_view_renders_unless_the_breed_line_fails (a : animal) :
  fst (details_body (animal_value a)) =
  if breed_line_fails a then Raise TypeError else Ok tt.
Proof. apply details_body_shape. Qed.

(** X18.  [get_compatibility_message] needs an [environment] object: on
    a record whose environment is null it raises [TypeError], and on one
    without the key it raises [KeyError]; the detail view then stops
    right after the "### Compatibility" heading. *)
Theorem compatibility_needs_an_environment (pet : value) :
  (py_getitem pet "environment" = Ok VNone ->
     get_compatibility_message pet = Raise TypeError /\
     details_compatibility pet = (Raise TypeError, [Markdown [Lit "### Compatibility"]])) /\
  (forall d, pet = VDict d -> dict_get "environment" d = None ->
     get_compatibility_message pet = Raise KeyError /\
     details_compatibility pet = (Raise KeyError, [Markdown [Lit "### Compatibility"]])).
Proof.
  split.
  - intros Henv.
    assert (H : get_compatibility_message pet = Raise TypeError)
      by (unfold get_compatibility_message, environment_message; rewrite Henv; reflexivity).
    split; [exact H|]. unfold details_compatibility, bind_R, eval_R. cbn.
    rewrite H. reflexivity.
  - intros d -> Hd.
    assert (H : get_compatibility_message (VDict d) = Raise KeyError)
      by (unfold get_compatibility_message, environment_message; cbn; rewrite Hd;
          reflexivity).
    split; [exact H|]. unfold details_compatibility, bind_R, eval_R. cbn -[get_compatibility_message].
    rewrite H. reflexivity.
Qed.

Lemma compatibility_needs_an_environment_witness :
  get_compatibility_message (VDict [("environment", VNone); ("attributes", VNone)]) =
  Raise TypeError /\
  get_compatibility_message (VDict [("attributes", VNone)]) = Raise KeyError.
Proof.
  split.
  - exact (proj1 (proj1 (compatibility_needs_an_environment
                           (VDict [("environment", VNone); ("attributes", VNone)]))
                    eq_refl)).
  - exact (proj1 (proj2 (compatibility_needs_an_environment
                           (VDict [("attributes", VNone)]))
                    [("attributes", VNone)] eq_refl eq_refl)).
Defined.

(** ** Further properties: a run with nothing selected and nothing
    submitted *)

Section IdleRun.

Variables (sent0 : list request) (ticks0 : nat).

Local Abbreviation idle c :=
  (guards idle_host (idle_state sent0 ticks0) (quiet_state sent0 ticks0) c).

Lemma idle_quiet (s : state) : idle_state sent0 ticks0 s -> quiet_state sent0 ticks0 s.
Proof. intros (H1 & H2 & _). split; assumption. Qed.

Lemma idle_out (s : state) (o : list ui_event) :
  idle_state sent0 ticks0 s -> idle_state sent0 ticks0 (with_out o s).
Proof. auto. Qed.

Ltac idle_step := guards_step idle_quiet idle_out.

Lemma idle_set_favorites (f : session -> list value) :
  idle (modify_session (fun ss => set_favorites (f ss) ss)).
Proof. apply guards_modify_session. auto. Qed.

Lemma idle_set_page (z : Z) : idle (modify_session (set_page z)).
Proof. apply guards_modify_session. auto. Qed.

Lemma idle_card_buttons (pet : value) (is_favorite : bool) (context tab_id : string) :
  idle (card_buttons pet is_favorite context tab_id).
Proof.
  unfold card_buttons. idle_step; [idle_step|]. idle_step; [idle_step|].
  idle_step.
  - match goal with |- guards _ _ _ (if ?b then _ else _) => destruct b end.
    + intros h s _ (H1 & H2 & _). split; assumption.
    + apply guards_ret.
  - unfold remove_from_favorites, append_to_favorites.
    repeat idle_step;
      first [ apply idle_set_favorites | apply (idle_set_favorites (fun _ => _)) ].
Qed.

Lemma idle_display_pet_card (pet : value) (is_favorite : bool)
    (context tab_id : string) :
  idle (display_pet_card pet is_favorite context tab_id).
Proof.
  unfold display_pet_card. idle_step; [idle_step | apply idle_card_buttons].
Qed.

Lemma idle_show_results : idle show_results.
Proof.
  unfold show_results. pose proof idle_set_page.
  repeat idle_step. apply idle_display_pet_card.
Qed.

Lemma idle_search_tab : idle search_tab.
Proof.
  intros h s Hhost Hs. unfold search_tab. rewrite run_bind_get_session.
  pose proof Hs as (_ & _ & Hsel). rewrite Hsel.
  unfold search_form_and_results. rewrite run_bind.
  change (run get_form h s) with (Ok (form h), s). cbv beta iota.
  unfold idle_host in Hhost. rewrite Hhost.
  rewrite run_bind. change (run (ret tt) h s) with (Ok tt, s). cbv beta iota.
  apply (idle_show_results h s Hhost Hs).
Qed.

Lemma idle_favorites_tab : idle favorites_tab.
Proof.
  intros h s Hhost Hs. unfold favorites_tab. rewrite run_bind_render.
  cbn [fst snd st_markdown emit]. rewrite run_bind_get_session.
  pose proof Hs as (_ & _ & Hsel).
  change (sess (with_out [Markdown [Lit "### Your Favorite Pets"]] s)) with (sess s).
  destruct (favorites (sess s)) as [|p r] eqn:Hfavs.
  - exact Hs.
  - rewrite Hsel.
    assert (Hloop : idle (for_each (p :: r)
                            (fun pet =>
                               bind (render (st_markdown [Lit "---"]))
                                 (fun _ => display_pet_card pet true "favorites" "tab2")))).
    { repeat idle_step. apply idle_display_pet_card. }
    apply (Hloop h _ Hhost). apply idle_out, Hs.
Qed.

Lemma idle_main : idle main.
Proof.
  unfold main, about_tab.
  pose proof idle_search_tab. pose proof idle_favorites_tab.
  repeat idle_step.
Qed.

End IdleRun.

(** X19.  A run of [main] in which no search is submitted and no record
    is selected sends no request and does not read the clock, whatever
    is pressed on the cards it shows and whether it returns, asks for a
    rerun or raises. *)
Theorem idle_run_sends_nothing (h : host) (s : state) :
  submitted (form h) = false ->
  py_truthy (selected_pet (sess s)) = false ->
  sent (snd (run main h s)) = sent s /\
  ticks (snd (run main h s)) = ticks s.
Proof.
  intros Hform Hsel.
  pose proof (idle_main (sent s) (ticks s) h s Hform
                (conj eq_refl (conj eq_refl Hsel))) as H.
  destruct (run main h s) as [[u|e] s1]; cbn [snd].
  - destruct H as (H1 & H2 & _). split; assumption.
  - exact H.
Qed.

(** Rex is listed and is a favorite; "View Details" is pressed. *)
Lemma idle_run_sends_nothing_witness :
  let h := sample_host true (inl "unused") (pressed "View Details") blank_form in
  let s := start (set_favorites [rex]
                    (set_search_results (VDict [("animals", VList [rex; tom])])
                       initial_session)) in
  fst (run main h s) = Raise RerunException /\
  sent (snd (run main h s)) = [] /\
  ticks (snd (run main h s)) = 0%nat.
Proof.
  intros h s. split; [reflexivity|].
  exact (idle_run_sends_nothing h s eq_refl eq_refl).
Defined.

(** ** Further properties: failed searches and expired tokens *)

(** X20.  A search that brings nothing back ([search_pets] returns
    [None], as it does without a token and after a failed request) shows
    "No pets found with those criteria" and leaves the stored results and
    the page as they were. *)
Theorem failed_search_keeps_the_results (f : form_input) (h : host) (s s1 : state)
    (v : value) :
  run (search_pets (VDict (build_params f))) h s = (Ok v, s1) ->
  py_truthy v = false ->
  run (submit_search f) h s =
  (Ok tt,
   with_out [StError [Lit "No pets found with those criteria. Try expanding your search."]]
     s1) /\
  search_results (sess (snd (run (submit_search f) h s))) = search_results (sess s) /\
  page (sess (snd (run (submit_search f) h s))) = page (sess s).
Proof.
  intros Hsearch Hfalsy.
  assert (Hrun : run (submit_search f) h s =
                 (Ok tt,
                  with_out [StError [Lit "No pets found with those criteria. Try expanding your search."]]
                    s1)).
  { unfold run in *. unfold submit_search, bind. rewrite Hsearch.
    unfold store_results, bind, eval, has_animals, and_then. cbn [bind_res].
    rewrite Hfalsy. reflexivity. }
  split; [exact Hrun|]. rewrite Hrun.
  pose proof (keeps_view_search_pets (VDict (build_params f)) h s) as Hv.
  rewrite Hsearch in Hv. destruct Hv as (Hr & _ & Hp & _).
  split; assumption.
Qed.

Lemma failed_search_keeps_the_results_witness :
  let h := sample_host true (inl "503 Service Unavailable") nothing_pressed dog_search in
  let listed := set_page 2 (set_search_results (VDict [("animals", VList [rex])])
                              (session_with_token 9000)) in
  let after := run (submit_search dog_search) h (start listed) in
  out (snd after) =
  [StError [Lit "⚠️ Error searching pets: "; Lit "503 Service Unavailable"];
   StError [Lit "No pets found with those criteria. Try expanding your search."]] /\
  search_results (sess (snd after)) = VDict [("animals", VList [rex])] /\
  page (sess (snd after)) = 2.
Proof.
  intros h listed after. unfold after.
  destruct (failed_search_keeps_the_results dog_search h (start listed) _ VNone
              eq_refl eq_refl) as (Hrun & Hres & Hpage).
  split; [rewrite Hrun; reflexivity|]. split; [exact Hres | exact Hpage].
Defined.

Section ExpiredToken.

Variable h : host.

Lemma refresh_token_source (s : state) :
  match run refresh_token h s with
  | (Ok v, _) =>
      v = VNone \/
      exists body, answer h s = inr body /\ py_getitem body "access_token" = Ok v
  | (Raise _, _) => True
  end.
Proof.
  unfold answer, the_request, api_key, api_secret.
  unfold run, refresh_token, bind.
  change (credential "PETFINDER_API_KEY" h s)
    with (run (credential "PETFINDER_API_KEY") h s).
  rewrite credential_run.
  change (credential "PETFINDER_API_SECRET" h s)
    with (run (credential "PETFINDER_API_SECRET") h s).
  rewrite credential_run.
  destruct (negb (py_truthy (configured h "PETFINDER_API_KEY"))
            || negb (py_truthy (configured h "PETFINDER_API_SECRET"))); cbn;
    [left; reflexivity|].
  unfold except_request, bind, http_exchange.
  destruct (http h (List.length (sent s)) _) as [msg|body] eqn:Hhttp; cbn;
    [left; reflexivity|].
  unfold eval.
  destruct (py_getitem body "access_token") as [tok|e] eqn:Htok; cbn;
    [|destruct e; first [exact I | left; reflexivity]].
  destruct (py_getitem body "expires_in") as [v|e]; cbn; [|destruct e; first [exact I | left; reflexivity]].
  destruct (py_add_number (clock h (ticks s)) v); cbn; [|destruct e; first [exact I | left; reflexivity]].
  right. exists body. split; [reflexivity | exact Htok].
Qed.

End ExpiredToken.

(** X21.  An expired token is not handed out.  When the clock has
    reached the stored expiry, whatever [get_access_token] returns is
    [None] or the token of the body that upstream has just sent in answer
    to the token request. *)
Theorem expired_token_is_not_handed_out (h : host) (s : state) (v : value) :
  token_expires (sess s) <= clock h (ticks s) ->
  fst (run get_access_token h s) = Ok v ->
  v = VNone \/
  exists body,
    answer h (after_check s) = inr body /\
    py_getitem body "access_token" = Ok v.
Proof.
  intros Hexpired Hret.
  assert (Hstale : token_fresh h s = false).
  { unfold token_fresh. destruct (Z.ltb_spec (clock h (ticks s)) (token_expires (sess s)));
      [lia | apply andb_false_r]. }
  rewrite (get_access_token_stale h s Hstale) in Hret.
  pose proof (refresh_token_source h (after_check s)) as Hsrc.
  destruct (run refresh_token h (after_check s)) as [[w|e] s1]; cbn in Hret;
    [|discriminate].
  injection Hret as <-. exact Hsrc.
Qed.

Lemma expired_token_is_not_handed_out_witness :
  let h := sample_host true (inl "unused") nothing_pressed blank_form in
  let s := start (session_with_token 5000) in
  fst (run get_access_token h s) = Ok (VStr "fresh-token") /\
  (VStr "fresh-token" = VNone \/
   exists body,
     answer h (after_check s) = inr body /\
     py_getitem body "access_token" = Ok (VStr "fresh-token")).
Proof.
  intros h s. split; [reflexivity|].
  apply (expired_token_is_not_handed_out h s (VStr "fresh-token")).
  - cbn. lia.
  - reflexivity.
Defined.

(** ** C3: what the results list shows *)

Section ResultsList.

Lemma with_out_nil (s : state) : with_out [] s = s.
Proof. destruct s. unfold with_out. cbn. rewrite app_nil_r. reflexivity. Qed.

Lemma with_out_app (o1 o2 : list ui_event) (s : state) :
  with_out o2 (with_out o1 s) = with_out (o1 ++ o2) s.
Proof. unfold with_out. cbn. rewrite app_assoc. reflexivity. Qed.

Lemma with_out_sess (f : session -> session) (o : list ui_event) (s : state) :
  with_out o (with_sess f s) = with_sess f (with_out o s).
Proof. reflexivity. Qed.

Lemma set_page_same (s : state) : with_sess (set_page (page (sess s))) s = s.
Proof. destruct s as [[] ? ? ?]. reflexivity. Qed.

Variable h : host.

(** Lines 552-573 on a session that holds the result list [l]: the
    heading, the page of the slider, then the cards of that page's
    window. *)
Lemma show_results_window (s : state) (d : dict) (l : list value) :
  search_results (sess s) = VDict d ->
  dict_get "animals" d = Some (VList l) ->
  let n := Z.of_nat (List.length l) in
  (1 < total_pages n -> 1 <= page (sess s) <= total_pages n) ->
  let p := shown_page h s n in
  run show_results h s =
  run (show_cards (py_slice_list (start_idx p) (end_idx p n) l)) h
      (with_sess (set_page p) (with_out [Markdown [Lit "### Search Results"]] s)).
Proof.
  intros Hres Hanimals n Hrange p. unfold show_results.
  rewrite run_bind_get_session, run_bind_eval, Hres.
  assert (Hfound : has_animals (VDict d) = Ok true).
  { unfold has_animals, and_then. cbn. unfold dict_has. rewrite Hanimals.
    destruct d; [discriminate Hanimals | reflexivity]. }
  rewrite Hfound. rewrite run_bind_render. cbn [fst snd st_markdown emit].
  rewrite run_bind_eval.
  assert (Hget : py_getitem (VDict d) "animals" = Ok (VList l))
    by (cbn; rewrite Hanimals; reflexivity).
  rewrite Hget. rewrite run_bind_eval. cbn [py_len]. fold n.
  set (s0 := with_out [Markdown [Lit "### Search Results"]] s).
  rewrite run_bind.
  assert (Hturn :
    run (if 1 <? total_pages n
         then bind (st_slider 1 (total_pages n) (page (sess s)))
                (fun chosen => if negb (chosen =? page (sess s))
                               then modify_session (set_page chosen) else ret tt)
         else ret tt) h s0 = (Ok tt, with_sess (set_page p) s0)).
  { unfold p, shown_page.
    destruct (Z.ltb_spec 1 (total_pages n)) as [Hmany|Hone].
    - specialize (Hrange Hmany). unfold run, bind, st_slider.
      destruct (Z.ltb_spec (page (sess s)) 1) as [|_]; [lia|].
      destruct (Z.ltb_spec (total_pages n) (page (sess s))) as [|_]; [lia|].
      cbn [orb].
      destruct (Z.eqb_spec (page_slider h 1 (total_pages n) (page (sess s)))
                           (page (sess s))) as [Heq|Hne]; cbn [negb].
      + rewrite Heq. unfold ret.
        change (page (sess s)) with (page (sess s0)).
        rewrite (set_page_same s0). reflexivity.
      + reflexivity.
    - unfold run, ret. change (page (sess s)) with (page (sess s0)).
      rewrite (set_page_same s0). reflexivity. }
  rewrite Hturn. rewrite run_bind_get_session, run_bind_eval.
  reflexivity.
Qed.

Lemma display_pet_card_quiet (pet pid : value) (s : state) :
  no_click h ->
  fst (card_body pet) = Ok tt ->
  py_getitem pet "id" = Ok pid ->
  run (display_pet_card pet false "search" "tab1") h s =
  (Ok tt,
   with_out (snd (card_body pet) ++
             [Button "View Details" (widget_key "details_" "tab1" "search" pid);
              Button "Add to Favorites" (widget_key "fav_" "tab1" "search" pid)]) s).
Proof.
  intros Hquiet Hbody Hid. unfold run, display_pet_card, bind, render.
  rewrite Hbody. unfold card_buttons, bind, eval, st_button. rewrite Hid.
  cbn. rewrite !Hquiet. cbn. unfold with_out. cbn.
  rewrite <- !app_assoc. reflexivity.
Qed.

Lemma show_cards_quiet (pets : list value) (s : state) :
  no_click h ->
  Forall renders pets ->
  run (show_cards pets) h s = (Ok tt, with_out (List.concat (map card_shown pets)) s).
Proof.
  intros Hquiet Hall. revert s. induction Hall as [|pet r [Hbody [pid Hid]] _ IH]; intros s.
  - cbn. rewrite with_out_nil. reflexivity.
  - unfold show_cards. cbn [for_each]. rewrite run_bind, run_bind_render.
    cbn [fst snd st_markdown emit].
    rewrite (display_pet_card_quiet pet pid _ Hquiet Hbody Hid).
    fold (show_cards r). rewrite IH. cbn [map List.concat].
    rewrite !with_out_app. unfold card_shown at 2. rewrite Hid.
    reflexivity.
Qed.

Lemma Forall_firstn_of {A} (P : A -> Prop) (k : nat) (l : list A) :
  Forall P l -> Forall P (firstn k l).
Proof.
  intros Hall. revert k. induction Hall as [|x r Hx _ IH]; intros [|k]; cbn; auto.
Qed.

Lemma Forall_skipn_of {A} (P : A -> Prop) (k : nat) (l : list A) :
  Forall P l -> Forall P (skipn k l).
Proof.
  intros Hall. revert k. induction Hall as [|x r Hx Hr IH]; intros [|k]; cbn; auto.
Qed.

Lemma Forall_slice {A} (P : A -> Prop) (a b : Z) (l : list A) :
  Forall P l -> Forall P (py_slice_list a b l).
Proof.
  intros Hall. unfold py_slice_list.
  apply Forall_firstn_of, Forall_skipn_of, Hall.
Qed.



(** The list as a run shows it: the heading, then the cards of the
    displayed page. *)
Lemma show_results_page (s : state) (d : dict) (l : list value) (p : Z) :
  search_results (sess s) = VDict d ->
  dict_get "animals" d = Some (VList l) ->
  let n := Z.of_nat (List.length l) in
  (1 < total_pages n -> 1 <= page (sess s) <= total_pages n) ->
  shown_page h s n = p ->
  exists shown,
    page_window p (VList l) = Ok shown /\
    run show_results h s =
    run (show_cards shown) h
        (with_sess (set_page p) (with_out [Markdown [Lit "### Search Results"]] s)) /\
    (no_click h -> Forall renders l ->
     run show_results h s =
     (Ok tt,
      with_sess (set_page p)
        (with_out (Markdown [Lit "### Search Results"] ::
                   List.concat (map card_shown shown)) s))).
Proof.
  intros Hres Hanimals n Hrange Hp. eexists. split; [apply page_window_list|].
  pose proof (show_results_window s d l Hres Hanimals Hrange) as Hrun.
  cbv zeta in Hrun. fold n in Hrun. rewrite Hp in Hrun. fold n.
  split; [exact Hrun|].
  intros Hquiet Hall. rewrite Hrun.
  rewrite (show_cards_quiet _ _ Hquiet (Forall_slice renders _ _ l Hall)).
  rewrite with_out_sess, with_out_app. reflexivity.
Qed.

End ResultsList.

(** C3.  The page count is the ceiling of [n / 10]: the least [k] with
    [n <= 10 * k].  For a result list [l] of length [n] and a page
    [p >= 1], the records of the page are those of [l] at the indices
    from [(p - 1) * 10] up to, not including, [min (p * 10) n], in order.
    Storing the results of a search sets the page to 1, and a submitted
    search that stores nothing leaves results and page as they were.
    A run of the results list on a session that holds [l], whose
    displayed page (the slider's value when there are several pages, the
    session's page otherwise) is [p], stores [p] as the page and shows
    the heading followed by one card for each record of that page and
    for no other; with no button pressed and records that render, the
    output is exactly that. *)
Theorem pagination (l : list value) (p : Z) :
  let n := Z.of_nat (List.length l) in
  (n <= 10 * total_pages n /\ forall k, n <= 10 * k -> total_pages n <= k) /\
  (1 <= p ->
   exists shown,
     page_window p (VList l) = Ok shown /\
     forall i : nat,
       nth_error shown i =
       if (p - 1) * 10 + Z.of_nat i <? Z.min (p * 10) n
       then nth_error l (Z.to_nat ((p - 1) * 10) + i)
       else None) /\
  (forall (results : value) (h : host) (s : state),
     has_animals results = Ok true ->
     search_results (sess (snd (run (store_results results) h s))) = results /\
     page (sess (snd (run (store_results results) h s))) = 1) /\
  (forall (f : form_input) (h : host) (s : state),
     let after := sess (snd (run (submit_search f) h s)) in
     page after = 1 \/
     (search_results after = search_results (sess s) /\
      page after = page (sess s))) /\
  (forall (h : host) (s : state) (d : dict),
     search_results (sess s) = VDict d ->
     dict_get "animals" d = Some (VList l) ->
     (1 < total_pages n -> 1 <= page (sess s) <= total_pages n) ->
     shown_page h s n = p ->
     exists shown,
       page_window p (VList l) = Ok shown /\
       run show_results h s =
       run (show_cards shown) h
           (with_sess (set_page p)
              (with_out [Markdown [Lit "### Search Results"]] s)) /\
       (no_click h -> Forall renders l ->
        run show_results h s =
        (Ok tt,
         with_sess (set_page p)
           (with_out (Markdown [Lit "### Search Results"] ::
                      List.concat (map card_shown shown)) s)))).
Proof.
  cbv zeta. split; [apply total_pages_ceiling|]. split; [|split; [|split]].
  - intros Hp. eexists. split; [apply page_window_list|].
    intros i. unfold end_idx, start_idx.
    rewrite py_slice_list_nth by lia.
    replace (Z.min (Z.min ((p - 1) * 10 + 10) (Z.of_nat (List.length l)))
                   (Z.of_nat (List.length l)))
      with (Z.min (p * 10) (Z.of_nat (List.length l))) by lia.
    reflexivity.
  - intros results h s Hfound.
    rewrite (store_results_stored results h s Hfound). split; reflexivity.
  - intros f h s. apply submit_search_page.
  - intros h s d Hres Hanimals Hrange Hp.
    exact (show_results_page h s d l p Hres Hanimals Hrange Hp).
Qed.

(** Page 3 of 23 records shows the records 20, 21 and 22; and with Rex
    and Tom stored, the list shows the heading, Rex's card and Tom's
    card. *)
Lemma pagination_witness :
  let l := map (fun i => VInt (Z.of_nat i)) (seq 0 23) in
  total_pages 23 = 3 /\
  page_window 3 (VList l) = Ok [VInt 20; VInt 21; VInt 22] /\
  (exists shown,
     page_window 3 (VList l) = Ok shown /\
     nth_error shown 2 = nth_error l 22 /\ nth_error shown 3 = None) /\
  page (sess (snd (run (store_results (VDict [("animals", VList l)]))
                     (sample_host true (inl "unused") nothing_pressed blank_form)
                     (start (set_page 3 initial_session))))) = 1 /\
  (let h := sample_host true (inl "unused") nothing_pressed blank_form in
   let s := start (set_search_results (VDict [("animals", VList [rex; tom])])
                     initial_session) in
   exists shown,
     page_window 1 (VList [rex; tom]) = Ok shown /\
     run show_results h s =
     (Ok tt,
      with_sess (set_page 1)
        (with_out (Markdown [Lit "### Search Results"] ::
                   List.concat (map card_shown shown)) s))).
Proof.
  intros l. split; [reflexivity|]. split; [reflexivity|]. split; [|split].
  - destruct (proj1 (proj2 (pagination l 3)) ltac:(lia)) as (shown & Hw & Hi).
    exists shown. split; [exact Hw|]. split.
    + exact (Hi 2%nat).
    + exact (Hi 3%nat).
  - exact (proj2 (proj1 (proj2 (proj2 (pagination l 3)))
                    (VDict [("animals", VList l)]) _ _ eq_refl)).
  - intros h s.
    destruct (proj2 (proj2 (proj2 (proj2 (pagination [rex; tom] 1))))
                h s [("animals", VList [rex; tom])] eq_refl eq_refl
                ltac:(cbn; lia) eq_refl)
      as (shown & Hw & _ & Hout).
    exists shown. split; [exact Hw|].
    apply Hout.
    + intros label key. reflexivity.
    + repeat constructor; exists (VInt 101) + exists (VInt 202); reflexivity.
Defined.


(** ** C9: what the next run shows *)

Section NextRun.

Variable h : host.




End NextRun.



